(** * Interview Coder: the Electron main process, the preload bridge and the
    OpenAI handlers, as a shallow embedding.

    Source files embedded here:
    - [electron/main.ts]            the [AppState] singleton;
    - [electron/WindowHelper.ts]    window geometry, show/hide, moves;
    - [electron/shortcuts.ts]       the global shortcut handlers;
    - the OpenAI handler module     [processTextQuery], [extractProblemInfo],
                                    [generateSolutionResponses],
                                    [debugSolutionResponses];
    - [electron/preload.ts]         the notification subscriptions.

    Conventions.
    - A JavaScript [number] is a rational ([Q]).  The geometry code only adds,
      halves, compares and rounds screen coordinates, and multiplies an integer
      screen width by the literals [0.4] and [0.75]; on integer widths below
      2^50 the double-precision product has the same [Math.floor] as the exact
      one, so the exact rationals are what the code computes.  [NaN] and the
      infinities are outside the model.
    - Code that mutates [this], calls Electron or throws lives in the monad
      [M]: a state transformer over [World] whose result is [Ok] or [Throw].
      A JavaScript exception does not roll the heap back, so the state reached
      at the [Throw] is kept.
    - [log(...)] and [console.log(...)] only append to a log file or the
      console; they are not modelled. *)

From Stdlib Require Import ZArith QArith Qround Qminmax Lqa Lia.
From Stdlib Require Import String Ascii List Bool.
From stdpp Require Import base gmap strings list.
Import ListNotations.
Local Open Scope string_scope.

(* ===================================================================== *)
(** * The JavaScript runtime *)
(* ===================================================================== *)

(** ** Numbers *)

Definition number : Type := Q.

Definition Math_floor (x : number) : number := inject_Z (Qfloor x).
Definition Math_ceil (x : number) : number := inject_Z (Qceiling x).
(** [Math.round] rounds halves towards +infinity. *)
Definition Math_round (x : number) : number := inject_Z (Qfloor (x + (1 # 2))).
Definition Math_min (x y : number) : number := Qmin x y.
Definition Math_max (x y : number) : number := Qmax x y.

(** [x || 0] on a number: [0] is the only falsy rational. *)
Definition or_zero (x : number) : number := if Qeq_bool x 0 then 0%Q else x.

(** ** Exceptions *)

(** [error.response] of a rejected HTTP request: the status and, when the
    body has one, [data.error.message]. *)
Record HttpResponse := mkHttpResponse {
  status : Z;
  data_error_message : option string
}.

(** A thrown value: an [Error] with its [message]; the errors of the HTTP
    client also carry the [response]. *)
Record JsError := mkJsError {
  message : string;
  response : option HttpResponse
}.

(** [new Error(message)] *)
Definition Error (msg : string) : JsError := mkJsError msg None.

(** Completion of a call: a value, or a thrown error. *)
Inductive result (A : Type) : Type :=
| Ok (a : A)
| Throw (e : JsError).
Arguments Ok {A} a.
Arguments Throw {A} e.

Definition M (S A : Type) : Type := S -> result A * S.

Definition ret {S A} (a : A) : M S A := fun s => (Ok a, s).
Definition throw {S A} (e : JsError) : M S A := fun s => (Throw e, s).
Definition bind {S A B} (c : M S A) (k : A -> M S B) : M S B :=
  fun s =>
    match c s with
    | (Ok a, s') => k a s'
    | (Throw e, s') => (Throw e, s')
    end.
Definition get {S} : M S S := fun s => (Ok s, s).
Definition gets {S A} (f : S -> A) : M S A := fun s => (Ok (f s), s).
Definition modify {S} (f : S -> S) : M S unit := fun s => (Ok tt, f s).
(** [try { c } catch (error) { h error }] *)
Definition try_catch {S A} (c : M S A) (h : JsError -> M S A) : M S A :=
  fun s =>
    match c s with
    | (Ok a, s') => (Ok a, s')
    | (Throw e, s') => h e s'
    end.

Notation "'do' x <- c ; k" := (bind c (fun x => k))
  (at level 10, x name, c at level 100, k at level 200).
Notation "'do' ' p <- c ; k" := (bind c (fun x => let 'p := x in k))
  (at level 10, p pattern, c at level 100, k at level 200).
Notation "c ;; k" := (bind c (fun _ => k))
  (at level 100, k at level 200, right associativity).

(* ===================================================================== *)
(** * Electron: the overlay window *)
(* ===================================================================== *)

Record Point := mkPoint { px : number; py : number }.
Record Size := mkSize { width : number; height : number }.
Record Rectangle := mkRect { rx : number; ry : number; rwidth : number; rheight : number }.

(** A [BrowserWindow] as the main process sees it: the rectangle last given
    to it, the minimum size it was built with ([minWidth], [minHeight] of
    its constructor options), whether it is destroyed, shown and focused,
    and its always-on-top level. *)
Record BrowserWindow := mkWindow {
  requested : Rectangle;
  minWidth : number;
  minHeight : number;
  isDestroyed : bool;
  isShown : bool;
  isFocused : bool;
  alwaysOnTop : string
}.

(** The rectangle the window has: the one last given to it, at the place
    asked for, and no smaller than its minimum size, to which the window
    is held when it is asked for less. *)
Definition bounds (w : BrowserWindow) : Rectangle :=
  mkRect (rx (requested w)) (ry (requested w))
         (Math_max (rwidth (requested w)) (minWidth w))
         (Math_max (rheight (requested w)) (minHeight w)).

(** Every instance method of a destroyed window throws; [isDestroyed()] is the
    one call that is always safe. *)
Definition method {A} (f : BrowserWindow -> A * BrowserWindow)
  : M BrowserWindow A :=
  fun w =>
    if isDestroyed w then (Throw (Error "Object has been destroyed"), w)
    else let (a, w') := f w in (Ok a, w').

(** A window with another rectangle asked of it, or another state. *)
Definition with_requested (b : Rectangle) (w : BrowserWindow) : BrowserWindow :=
  mkWindow b (minWidth w) (minHeight w)
           (isDestroyed w) (isShown w) (isFocused w) (alwaysOnTop w).
Definition with_state (shown focused : bool) (level : string) (w : BrowserWindow)
    : BrowserWindow :=
  mkWindow (requested w) (minWidth w) (minHeight w) (isDestroyed w)
           shown focused level.

Arguments bounds !w /.
Arguments with_requested b !w /.
Arguments with_state shown focused level !w /.

Definition getBounds : M BrowserWindow Rectangle :=
  method (fun w => (bounds w, w)).
Definition getContentBounds : M BrowserWindow Rectangle :=
  method (fun w => (bounds w, w)).
Definition getPosition : M BrowserWindow (number * number) :=
  method (fun w => ((rx (bounds w), ry (bounds w)), w)).
(** [setBounds] and [setPosition] ask; what the window then has is
    [bounds], at least its minimum size. *)
Definition setBounds (b : Rectangle) : M BrowserWindow unit :=
  method (fun w => (tt, with_requested b w)).
Definition setPosition (x y : number) : M BrowserWindow unit :=
  method (fun w =>
    (tt, with_requested (mkRect x y (rwidth (requested w)) (rheight (requested w))) w)).
Definition win_isFocused : M BrowserWindow bool :=
  method (fun w => (isFocused w, w)).
Definition hide : M BrowserWindow unit :=
  method (fun w => (tt, with_state false false (alwaysOnTop w) w)).
Definition showInactive : M BrowserWindow unit :=
  method (fun w => (tt, with_state true (isFocused w) (alwaysOnTop w) w)).
Definition focus : M BrowserWindow unit :=
  method (fun w => (tt, with_state true true (alwaysOnTop w) w)).
Definition setAlwaysOnTop (level : string) : M BrowserWindow unit :=
  method (fun w => (tt, with_state (isShown w) (isFocused w) level w)).

(* ===================================================================== *)
(** * The state of the main process *)
(* ===================================================================== *)

Inductive View := queue | solutions.
Inductive Mode := screenshot | text.

#[local] Set Warnings "-register-all".

(** [JSON.parse]'s values; numbers keep their lexeme. *)
Inductive json :=
| JNull
| JBool (b : bool)
| JNumber (lexeme : string)
| JString (s : string)
| JArray (items : list json)
| JObject (members : list (string * json)).

(** [WindowHelper]'s private fields. *)
Record WindowHelper := mkWindowHelper {
  mainWindow : option BrowserWindow;
  isWindowVisible : bool;
  windowPosition : option Point;
  windowSize : option Size;
  screenWidth : number;
  screenHeight : number;
  step : number;
  currentX : number;
  currentY : number;
  wasFocused : bool
}.

(** Modelled from the spec: [ScreenshotHelper] (electron/ScreenshotHelper.ts is
    not among the sources).  main.ts shows its interface: it is built from the
    current view, follows [setView], and exposes the two queues as arrays of
    file paths.  The spec's Screenshot Store "owns an ordered list of captured
    images (queue + extra queue), on disk". *)
Record ScreenshotHelper := mkScreenshotHelper {
  sh_view : View;
  screenshotQueue : list string;
  extraScreenshotQueue : list string
}.

(** Modelled from the spec: the [ProcessingHelper]'s in-flight request handle
    (electron/ProcessingHelper.ts is not among the sources): "a cancellable
    external API call", with "associated abort controllers for sub-calls". *)
Record ProcessingHelper := mkProcessingHelper {
  currentProcessingAbortController : option nat;
  currentExtraProcessingAbortController : option nat
}.

(** [AppState]'s private fields (main.ts, lines 55-73). *)
Record AppState := mkAppState {
  windowHelper : WindowHelper;
  screenshotHelper : ScreenshotHelper;
  processingHelper : ProcessingHelper;
  view : View;
  mode : Mode;
  textQuery : string;
  problemInfo : option json;
  hasDebugged : bool
}.

(** What [webContents.send] carries besides the channel. *)
Inductive Payload :=
| NoPayload
| ModePayload (m : Mode)
| ScreenshotPayload (path preview : string).

(** A notification pushed to the UI, with the [AppState] it was sent from. *)
Record Sent := mkSent {
  channel : string;
  payload : Payload;
  sent_from : AppState
}.

(** The main process and what it acts on: the singleton [AppState], the
    primary display's work area, the host platform, the files on disk, and the
    notifications sent so far (oldest first). *)
Record World := mkWorld {
  app : AppState;
  workAreaSize : Size;
  platform : string;
  files : gset string;
  outbox : list Sent
}.

Definition PROCESSING_EVENTS_NO_QUERY : string := "processing-no-query".

(** ** Field updates *)

Definition with_app (f : AppState -> AppState) (w : World) : World :=
  mkWorld (f (app w)) (workAreaSize w) (platform w) (files w) (outbox w).
Definition with_files (f : gset string -> gset string) (w : World) : World :=
  mkWorld (app w) (workAreaSize w) (platform w) (f (files w)) (outbox w).
Definition with_windowHelper (f : WindowHelper -> WindowHelper) (a : AppState) : AppState :=
  mkAppState (f (windowHelper a)) (screenshotHelper a) (processingHelper a)
             (view a) (mode a) (textQuery a) (problemInfo a) (hasDebugged a).
Definition with_screenshotHelper (f : ScreenshotHelper -> ScreenshotHelper) (a : AppState) : AppState :=
  mkAppState (windowHelper a) (f (screenshotHelper a)) (processingHelper a)
             (view a) (mode a) (textQuery a) (problemInfo a) (hasDebugged a).
Definition set_view (v : View) (a : AppState) : AppState :=
  mkAppState (windowHelper a) (screenshotHelper a) (processingHelper a)
             v (mode a) (textQuery a) (problemInfo a) (hasDebugged a).
Definition set_mode (m : Mode) (a : AppState) : AppState :=
  mkAppState (windowHelper a) (screenshotHelper a) (processingHelper a)
             (view a) m (textQuery a) (problemInfo a) (hasDebugged a).
Definition set_textQuery (q : string) (a : AppState) : AppState :=
  mkAppState (windowHelper a) (screenshotHelper a) (processingHelper a)
             (view a) (mode a) q (problemInfo a) (hasDebugged a).
Definition set_problemInfo (p : option json) (a : AppState) : AppState :=
  mkAppState (windowHelper a) (screenshotHelper a) (processingHelper a)
             (view a) (mode a) (textQuery a) p (hasDebugged a).
Definition set_hasDebugged (b : bool) (a : AppState) : AppState :=
  mkAppState (windowHelper a) (screenshotHelper a) (processingHelper a)
             (view a) (mode a) (textQuery a) (problemInfo a) b.

Definition set_mainWindow (v : option BrowserWindow) (h : WindowHelper) : WindowHelper :=
  mkWindowHelper v (isWindowVisible h) (windowPosition h) (windowSize h)
    (screenWidth h) (screenHeight h) (step h) (currentX h) (currentY h) (wasFocused h).
Definition set_isWindowVisible (v : bool) (h : WindowHelper) : WindowHelper :=
  mkWindowHelper (mainWindow h) v (windowPosition h) (windowSize h)
    (screenWidth h) (screenHeight h) (step h) (currentX h) (currentY h) (wasFocused h).
Definition set_windowPosition (v : option Point) (h : WindowHelper) : WindowHelper :=
  mkWindowHelper (mainWindow h) (isWindowVisible h) v (windowSize h)
    (screenWidth h) (screenHeight h) (step h) (currentX h) (currentY h) (wasFocused h).
Definition set_windowSize (v : option Size) (h : WindowHelper) : WindowHelper :=
  mkWindowHelper (mainWindow h) (isWindowVisible h) (windowPosition h) v
    (screenWidth h) (screenHeight h) (step h) (currentX h) (currentY h) (wasFocused h).
Definition set_screenWidth (v : number) (h : WindowHelper) : WindowHelper :=
  mkWindowHelper (mainWindow h) (isWindowVisible h) (windowPosition h) (windowSize h)
    v (screenHeight h) (step h) (currentX h) (currentY h) (wasFocused h).
Definition set_screenHeight (v : number) (h : WindowHelper) : WindowHelper :=
  mkWindowHelper (mainWindow h) (isWindowVisible h) (windowPosition h) (windowSize h)
    (screenWidth h) v (step h) (currentX h) (currentY h) (wasFocused h).
Definition set_step (v : number) (h : WindowHelper) : WindowHelper :=
  mkWindowHelper (mainWindow h) (isWindowVisible h) (windowPosition h) (windowSize h)
    (screenWidth h) (screenHeight h) v (currentX h) (currentY h) (wasFocused h).
Definition set_currentX (v : number) (h : WindowHelper) : WindowHelper :=
  mkWindowHelper (mainWindow h) (isWindowVisible h) (windowPosition h) (windowSize h)
    (screenWidth h) (screenHeight h) (step h) v (currentY h) (wasFocused h).
Definition set_currentY (v : number) (h : WindowHelper) : WindowHelper :=
  mkWindowHelper (mainWindow h) (isWindowVisible h) (windowPosition h) (windowSize h)
    (screenWidth h) (screenHeight h) (step h) (currentX h) v (wasFocused h).
Definition set_wasFocused (v : bool) (h : WindowHelper) : WindowHelper :=
  mkWindowHelper (mainWindow h) (isWindowVisible h) (windowPosition h) (windowSize h)
    (screenWidth h) (screenHeight h) (step h) (currentX h) (currentY h) v.

(** [this.<field> = v] inside a [WindowHelper] method. *)
Definition this_set (f : WindowHelper -> WindowHelper) : M World unit :=
  modify (with_app (with_windowHelper f)).
Definition this_get {A} (f : WindowHelper -> A) : M World A :=
  gets (fun w => f (windowHelper (app w))).

(** A method call on the object [this.mainWindow] refers to.  The guards of
    the callers keep it from running on [null]; there JavaScript raises a
    [TypeError]. *)
Definition on_mainWindow {A} (call : M BrowserWindow A) : M World A :=
  fun w =>
    match mainWindow (windowHelper (app w)) with
    | None => (Throw (Error "TypeError: Cannot read properties of null"), w)
    | Some win =>
        let (r, win') := call win in
        (r, with_app (with_windowHelper (set_mainWindow (Some win'))) w)
    end.

(** [mainWindow.webContents.send(channel, payload)] *)
Definition webContents_send (ch : string) (p : Payload) : M World unit :=
  do _ <- on_mainWindow (method (fun win => (tt, win)));
  fun w => (Ok tt, mkWorld (app w) (workAreaSize w) (platform w) (files w)
                           (outbox w ++ [mkSent ch p (app w)])).

(* ===================================================================== *)
(** * electron/WindowHelper.ts *)
(* ===================================================================== *)

Module WindowHelper.
Local Open Scope Q_scope.

(** [this.appState.getHasDebugged()] (main.ts, line 226). *)
Definition appState_getHasDebugged : M World bool :=
  gets (fun w => hasDebugged (app w)).

(** [this.windowSize?.width || 0] and [this.windowSize?.height || 0] *)
Definition windowWidth_or_zero (h : WindowHelper) : number :=
  match windowSize h with
  | Some s => or_zero (width s)
  | None => 0%Q
  end.
Definition windowHeight_or_zero (h : WindowHelper) : number :=
  match windowSize h with
  | Some s => or_zero (height s)
  | None => 0%Q
  end.

(** The fraction of the work area a window may take (lines 57-59). *)
Definition widthFraction (debugged : bool) : number :=
  if debugged then 0.75%Q else 0.4%Q.

(** Lines 42-93. *)
Definition setWindowDimensions (reqWidth reqHeight : number) : M World unit :=
  do mw <- this_get mainWindow;
  match mw with
  | None => ret tt
  | Some win =>
      if isDestroyed win then ret tt
      else
        do '(curX, curY) <- on_mainWindow getPosition;
        do workArea <- gets workAreaSize;
        do debugged <- appState_getHasDebugged;
        let maxAllowedWidth := Math_floor (width workArea * widthFraction debugged) in
        let newWidth := Math_min (reqWidth + 32) maxAllowedWidth in
        let newHeight := Math_max (Math_ceil reqHeight) 100 in
        let maxX := (width workArea - newWidth)%Q in
        let newX := Math_min (Math_max curX 0) maxX in
        let bounds := mkRect newX curY newWidth newHeight in
        on_mainWindow (setBounds bounds);;
        do _ <- on_mainWindow getBounds;
        do _ <- on_mainWindow getContentBounds;
        this_set (set_windowPosition (Some (mkPoint newX curY)));;
        this_set (set_windowSize (Some (mkSize newWidth newHeight)));;
        this_set (set_currentX newX)
  end.

(** Lines 273-293: reads the window to log it. *)
Definition logWindowState : M World unit :=
  do mw <- this_get mainWindow;
  match mw with
  | None => ret tt
  | Some _ =>
      do _ <- on_mainWindow getContentBounds;
      do _ <- on_mainWindow getBounds;
      do _ <- on_mainWindow win_isFocused;
      ret tt
  end.

(** The listeners [setupWindowListeners] installs on the window that change
    [this] (lines 341-366); Electron runs them when the window has moved,
    has been resized or has been closed. *)
Definition on_move : M World unit :=
  do mw <- this_get mainWindow;
  match mw with
  | None => ret tt
  | Some _ =>
      do b <- on_mainWindow getBounds;
      this_set (set_windowPosition (Some (mkPoint (rx b) (ry b))));;
      this_set (set_currentX (rx b));;
      this_set (set_currentY (ry b));;
      logWindowState
  end.
Definition on_resize : M World unit :=
  do mw <- this_get mainWindow;
  match mw with
  | None => ret tt
  | Some _ =>
      do b <- on_mainWindow getBounds;
      this_set (set_windowSize (Some (mkSize (rwidth b) (rheight b))))
  end.
Definition on_closed : M World unit :=
  this_set (set_mainWindow None);;
  this_set (set_isWindowVisible false);;
  this_set (set_windowPosition None);;
  this_set (set_windowSize None).

(** [new BrowserWindow(windowSettings)] (lines 141-167): no width is given,
    so Electron's default of 800 applies; [height: 600], [minWidth: 400],
    [minHeight: 300]; the window is shown, focusable and always on top.
    The constructor is taken to succeed. *)
Definition new_BrowserWindow (x : number) : BrowserWindow :=
  mkWindow (mkRect x 0 800 600) 400 300 false true true "floating".

(** Lines 120-271. *)
Definition createWindow : M World unit :=
  do mw <- this_get mainWindow;
  match mw with
  | Some _ => ret tt
  | None =>
      do workArea <- gets workAreaSize;
      this_set (set_screenWidth (width workArea));;
      this_set (set_screenHeight (height workArea));;
      do sw <- this_get screenWidth;
      this_set (set_step (Math_floor (sw / 10)));;
      this_set (set_currentX 0);;
      try_catch
        (do x <- this_get currentX;
         this_set (set_mainWindow (Some (new_BrowserWindow x)));;
         do os <- gets platform;
         (if String.eqb os "darwin" then on_mainWindow (setAlwaysOnTop "floating")
          else if String.eqb os "win32" then on_mainWindow (setAlwaysOnTop "floating")
          else ret tt);;
         do b <- on_mainWindow getBounds;
         this_set (set_windowPosition (Some (mkPoint (rx b) (ry b))));;
         this_set (set_windowSize (Some (mkSize (rwidth b) (rheight b))));;
         this_set (set_currentX (rx b));;
         this_set (set_currentY (ry b));;
         this_set (set_isWindowVisible true))
        (fun _ => ret tt)
  end.

(** Lines 369-375. *)
Definition getMainWindow : M World (option BrowserWindow) := this_get mainWindow.
Definition isVisible : M World bool := this_get isWindowVisible.

(** Lines 377-401. *)
Definition hideMainWindow : M World unit :=
  do mw <- this_get mainWindow;
  match mw with
  | None => ret tt
  | Some win =>
      if isDestroyed win then ret tt
      else
        logWindowState;;
        do f <- on_mainWindow win_isFocused;
        this_set (set_wasFocused f);;
        do b <- on_mainWindow getBounds;
        this_set (set_windowPosition (Some (mkPoint (rx b) (ry b))));;
        this_set (set_windowSize (Some (mkSize (rwidth b) (rheight b))));;
        on_mainWindow hide;;
        this_set (set_isWindowVisible false);;
        logWindowState
  end.

(** [BrowserWindow.getFocusedWindow()]: the overlay is the application's
    only window. *)
Definition getFocusedWindow : M World bool :=
  this_get (fun h =>
    match mainWindow h with
    | Some win => negb (isDestroyed win) && isFocused win
    | None => false
    end).

(** Lines 403-442. *)
Definition showMainWindow : M World unit :=
  do mw <- this_get mainWindow;
  match mw with
  | None => ret tt
  | Some win =>
      if isDestroyed win then ret tt
      else
        logWindowState;;
        do focusedWindow <- getFocusedWindow;
        do pos <- this_get windowPosition;
        do size <- this_get windowSize;
        match pos, size with
        | Some p, Some s =>
            on_mainWindow (setBounds (mkRect (px p) (py p) (width s) (height s)))
        | _, _ => ret tt
        end;;
        on_mainWindow showInactive;;
        (if focusedWindow then on_mainWindow focus else ret tt);;
        this_set (set_isWindowVisible true);;
        logWindowState
  end.

(** Lines 444-450. *)
Definition toggleMainWindow : M World unit :=
  do visible <- this_get isWindowVisible;
  if visible then hideMainWindow else showMainWindow.

(** [this.currentX = Number(this.currentX) || 0] and the same for
    [currentY], at the head of each move. *)
Definition ensure_numbers : M World unit :=
  do x <- this_get currentX;
  this_set (set_currentX (or_zero x));;
  do y <- this_get currentY;
  this_set (set_currentY (or_zero y)).

(** The [setPosition] call that ends each move. *)
Definition place_window : M World unit :=
  do x <- this_get currentX;
  do y <- this_get currentY;
  on_mainWindow (setPosition (Math_round x) (Math_round y)).

(** Lines 453-472. *)
Definition moveWindowRight : M World unit :=
  do mw <- this_get mainWindow;
  match mw with
  | None => ret tt
  | Some _ =>
      do windowWidth <- this_get windowWidth_or_zero;
      let halfWidth := (windowWidth / 2)%Q in
      ensure_numbers;;
      do this <- this_get id;
      this_set (set_currentX
        (Math_min (screenWidth this - halfWidth) (currentX this + step this)));;
      place_window
  end.

(** Lines 474-490. *)
Definition moveWindowLeft : M World unit :=
  do mw <- this_get mainWindow;
  match mw with
  | None => ret tt
  | Some _ =>
      do windowWidth <- this_get windowWidth_or_zero;
      let halfWidth := (windowWidth / 2)%Q in
      ensure_numbers;;
      do this <- this_get id;
      this_set (set_currentX (Math_max (- halfWidth) (currentX this - step this)));;
      place_window
  end.

(** Lines 492-511. *)
Definition moveWindowDown : M World unit :=
  do mw <- this_get mainWindow;
  match mw with
  | None => ret tt
  | Some _ =>
      do windowHeight <- this_get windowHeight_or_zero;
      let halfHeight := (windowHeight / 2)%Q in
      ensure_numbers;;
      do this <- this_get id;
      this_set (set_currentY
        (Math_min (screenHeight this - halfHeight) (currentY this + step this)));;
      place_window
  end.

(** Lines 513-529. *)
Definition moveWindowUp : M World unit :=
  do mw <- this_get mainWindow;
  match mw with
  | None => ret tt
  | Some _ =>
      do windowHeight <- this_get windowHeight_or_zero;
      let halfHeight := (windowHeight / 2)%Q in
      ensure_numbers;;
      do this <- this_get id;
      this_set (set_currentY (Math_max (- halfHeight) (currentY this - step this)));;
      place_window
  end.

End WindowHelper.

(* ===================================================================== *)
(** * The Screenshot Store *)
(* ===================================================================== *)

(** [{ success: boolean; error?: string }] (main.ts, line 203). *)
Record DeleteResult := mkDeleteResult {
  success : bool;
  delete_error : option string
}.

Module ScreenshotHelper.
Section Store.

(** Modelled from the spec: the "fixed capacity" of a queue is not given
    in the spec; it is a parameter. *)
Variable MAX_SCREENSHOTS : nat.

(** Modelled from the spec: the store's own fields, read and written. *)
Definition sh_set (f : ScreenshotHelper -> ScreenshotHelper) : M World unit :=
  modify (with_app (with_screenshotHelper f)).
Definition sh_get {A} (f : ScreenshotHelper -> A) : M World A :=
  gets (fun w => f (screenshotHelper (app w))).

(** Modelled from the spec: the store is constructed from the current view
    and is told of every change of it (main.ts, lines 100 and 127). *)
Definition setView (v : View) : M World unit :=
  sh_set (fun s => mkScreenshotHelper v (screenshotQueue s) (extraScreenshotQueue s)).

(** Modelled from the spec: "list(queueKind) -> ordered sequence of records";
    main.ts names the two getters (lines 146-152). *)
Definition getScreenshotQueue : M World (list string) := sh_get screenshotQueue.
Definition getExtraScreenshotQueue : M World (list string) := sh_get extraScreenshotQueue.

(** Modelled from the spec: "Clearing resets both queues to empty". *)
Definition clearQueues : M World unit :=
  sh_set (fun s => mkScreenshotHelper (sh_view s) [] []).

(** Modelled from the spec: "queues are bounded (oldest evicted past a
    fixed capacity) and queue order is insertion order". *)
Definition push_bounded (path : string) (q : list string) : list string :=
  let q' := (q ++ [path])%list in
  if Nat.ltb MAX_SCREENSHOTS (List.length q') then List.tl q' else q'.

(** Modelled from the spec: "Capture hides the window, takes a full-screen
    image, restores the window, stores the file under an app-owned
    directory, and appends to the queue appropriate to current mode (main
    queue while composing a problem, extra queue when supplementing for a
    debug pass)".  [path] is the name the new file gets. *)
Definition takeScreenshot (hideMainWindow showMainWindow : M World unit)
    (path : string) : M World string :=
  hideMainWindow;;
  modify (with_files (fun fs => {[ path ]} ∪ fs));;
  showMainWindow;;
  do v <- sh_get sh_view;
  match v with
  | queue =>
      sh_set (fun s => mkScreenshotHelper (sh_view s)
                         (push_bounded path (screenshotQueue s))
                         (extraScreenshotQueue s))
  | solutions =>
      sh_set (fun s => mkScreenshotHelper (sh_view s)
                         (screenshotQueue s)
                         (push_bounded path (extraScreenshotQueue s)))
  end;;
  ret path.

(** Modelled from the spec: a path is "nonexistent" for the store when no
    record of either queue has it. *)
Definition is_queued (path : string) (s : ScreenshotHelper) : bool :=
  existsb (String.eqb path) (screenshotQueue s ++ extraScreenshotQueue s)%list.

(** Modelled from the spec: a record is "removed on delete". *)
Definition without (path : string) (q : list string) : list string :=
  List.filter (fun p => negb (String.eqb p path)) q.

(** Modelled from the spec: "delete(path) -> success|notFound"; "Deleting
    a nonexistent path reports failure without side effects"; a record is
    "removed on delete". *)
Definition deleteScreenshot (path : string) : M World DeleteResult :=
  do queued <- sh_get (is_queued path);
  if queued then
    modify (with_files (fun fs => fs ∖ {[ path ]}));;
    sh_set (fun s => mkScreenshotHelper (sh_view s)
                       (without path (screenshotQueue s))
                       (without path (extraScreenshotQueue s)));;
    ret (mkDeleteResult true None)
  else
    ret (mkDeleteResult false (Some "not found")).

End Store.
End ScreenshotHelper.

(* ===================================================================== *)
(** * electron/main.ts: [AppState] *)
(* ===================================================================== *)

Module AppState.

Definition app_get {A} (f : AppState -> A) : M World A := gets (fun w => f (app w)).
Definition app_set (f : AppState -> AppState) : M World unit := modify (with_app f).

(** The state of a fresh [AppState] (field initialisers and constructor,
    lines 53-107). *)
Definition initial : AppState :=
  mkAppState
    (mkWindowHelper None false None None 0%Q 0%Q 0%Q 0%Q 0%Q false)
    (mkScreenshotHelper queue [] [])
    (mkProcessingHelper None None)
    queue screenshot "" None false.

Definition getMainWindow : M World (option BrowserWindow) := WindowHelper.getMainWindow.
Definition getView : M World View := app_get view.
(** Lines 125-128. *)
Definition setView (v : View) : M World unit :=
  app_set (set_view v);;
  ScreenshotHelper.setView v.
Definition isVisible : M World bool := WindowHelper.isVisible.
Definition getProblemInfo : M World (option json) := app_get problemInfo.
Definition setProblemInfo (p : option json) : M World unit := app_set (set_problemInfo p).
Definition getScreenshotQueue : M World (list string) := ScreenshotHelper.getScreenshotQueue.
Definition getExtraScreenshotQueue : M World (list string) :=
  ScreenshotHelper.getExtraScreenshotQueue.

Definition createWindow : M World unit := WindowHelper.createWindow.
Definition hideMainWindow : M World unit := WindowHelper.hideMainWindow.
Definition showMainWindow : M World unit := WindowHelper.showMainWindow.
Definition toggleMainWindow : M World unit := WindowHelper.toggleMainWindow.
Definition setWindowDimensions (reqWidth reqHeight : number) : M World unit :=
  WindowHelper.setWindowDimensions reqWidth reqHeight.

(** Lines 175-183. *)
Definition clearQueues : M World unit :=
  ScreenshotHelper.clearQueues;;
  app_set (set_problemInfo None);;
  setView queue.

(** Lines 186-195. *)
Definition takeScreenshot (MAX_SCREENSHOTS : nat) (path : string) : M World string :=
  do mainWindow <- getMainWindow;
  match mainWindow with
  | None => throw (Error "No main window available")
  | Some _ =>
      ScreenshotHelper.takeScreenshot MAX_SCREENSHOTS hideMainWindow showMainWindow path
  end.

(** Lines 201-205. *)
Definition deleteScreenshot (path : string) : M World DeleteResult :=
  ScreenshotHelper.deleteScreenshot path.

Definition moveWindowLeft : M World unit := WindowHelper.moveWindowLeft.
Definition moveWindowRight : M World unit := WindowHelper.moveWindowRight.
Definition moveWindowDown : M World unit := WindowHelper.moveWindowDown.
Definition moveWindowUp : M World unit := WindowHelper.moveWindowUp.

(** Lines 222-248. *)
Definition setHasDebugged (value : bool) : M World unit := app_set (set_hasDebugged value).
Definition getHasDebugged : M World bool := app_get hasDebugged.
Definition getMode : M World Mode := app_get mode.
Definition setMode (m : Mode) : M World unit := app_set (set_mode m).
Definition getTextQuery : M World string := app_get textQuery.
Definition setTextQuery (query : string) : M World unit := app_set (set_textQuery query).
Definition toggleMode : M World unit :=
  do m <- app_get mode;
  app_set (set_mode (match m with screenshot => text | text => screenshot end)).

End AppState.

(* ===================================================================== *)
(** * Strings *)
(* ===================================================================== *)

(** A string is a sequence of code units; the model has those below 256.
    [String.prototype.trim] removes white space and line terminators, which in
    that range are TAB, LF, VT, FF, CR, SP and NBSP. *)
Definition isWhiteSpace (c : ascii) : bool :=
  let n := nat_of_ascii c in
  (Nat.leb 9 n && Nat.leb n 13) || Nat.eqb n 32 || Nat.eqb n 160.

Fixpoint trimStart (s : string) : string :=
  match s with
  | EmptyString => EmptyString
  | String c s' => if isWhiteSpace c then trimStart s' else s
  end.

Definition reverse (s : string) : string :=
  string_of_list_ascii (List.rev (list_ascii_of_string s)).

Definition trimEnd (s : string) : string := reverse (trimStart (reverse s)).
Definition trim (s : string) : string := trimEnd (trimStart s).

(** [!s] for a string [s]. *)
Definition falsy (s : string) : bool :=
  match s with EmptyString => true | _ => false end.

(* ===================================================================== *)
(** * electron/shortcuts.ts *)
(* ===================================================================== *)

Module ShortcutsHelper.
Section Handlers.

(** [ProcessingHelper.cancelOngoingRequests] and
    [ProcessingHelper.processQuery]: the class is not among the sources.
    It holds the [AppState], so either may do anything to the world. *)
Variable cancelOngoingRequests : M World unit.
Variable processQuery : M World unit.
(** The capacity of the screenshot queues. *)
Variable MAX_SCREENSHOTS : nat.

(** "CommandOrControl+H" (lines 23-39).  [screenshotPath] is the name the
    captured file gets and [preview] what [getImagePreview] yields for
    it. *)
Definition onCommandH (screenshotPath preview : string) : M World unit :=
  do mainWindow <- AppState.getMainWindow;
  match mainWindow with
  | None => ret tt
  | Some _ =>
      try_catch
        (do path <- AppState.takeScreenshot MAX_SCREENSHOTS screenshotPath;
         webContents_send "screenshot-taken" (ScreenshotPayload path preview))
        (fun _ => ret tt)
  end.

(** "CommandOrControl+Enter" (lines 41-59). *)
Definition onCommandEnter : M World unit :=
  do mode <- AppState.getMode;
  match mode with
  | text =>
      do query <- AppState.getTextQuery;
      if falsy (trim query) then
        do mainWindow <- AppState.getMainWindow;
        match mainWindow with
        | Some _ => webContents_send PROCESSING_EVENTS_NO_QUERY NoPayload
        | None => ret tt
        end
      else processQuery
  | screenshot => processQuery
  end.

(** "CommandOrControl+R" (lines 61-83). *)
Definition onCommandR : M World unit :=
  cancelOngoingRequests;;
  AppState.clearQueues;;
  AppState.setView queue;;
  do mainWindow <- AppState.getMainWindow;
  match mainWindow with
  | Some win =>
      if negb (isDestroyed win) then webContents_send "reset-view" NoPayload
      else ret tt
  | None => ret tt
  end.

(** Lines 86-106. *)
Definition onCommandLeft : M World unit := AppState.moveWindowLeft.
Definition onCommandRight : M World unit := AppState.moveWindowRight.
Definition onCommandDown : M World unit := AppState.moveWindowDown.
Definition onCommandUp : M World unit := AppState.moveWindowUp.

(** "CommandOrControl+B" (lines 108-125); the timer it sets on macOS runs
    [onCommandB_timeout] 100 ms later. *)
Definition onCommandB : M World unit :=
  AppState.toggleMainWindow;;
  do mainWindow <- AppState.getMainWindow;
  do visible <- AppState.isVisible;
  match mainWindow with
  | Some _ =>
      if negb visible then
        do os <- gets platform;
        if String.eqb os "darwin" then on_mainWindow (setAlwaysOnTop "normal")
        else ret tt
      else ret tt
  | None => ret tt
  end.
Definition onCommandB_timeout : M World unit :=
  do mainWindow <- AppState.getMainWindow;
  match mainWindow with
  | Some win =>
      if negb (isDestroyed win) then on_mainWindow (setAlwaysOnTop "floating")
      else ret tt
  | None => ret tt
  end.

(** "CommandOrControl+Shift+T" (lines 127-135). *)
Definition onCommandShiftT : M World unit :=
  AppState.toggleMode;;
  do mainWindow <- AppState.getMainWindow;
  match mainWindow with
  | Some win =>
      if negb (isDestroyed win) then
        do m <- AppState.getMode;
        webContents_send "mode-changed" (ModePayload m)
      else ret tt
  | None => ret tt
  end.

End Handlers.

(** The table [registerGlobalShortcuts] binds. *)
Inductive Shortcut :=
| CommandH (screenshotPath preview : string)
| CommandEnter
| CommandR
| CommandLeft
| CommandRight
| CommandDown
| CommandUp
| CommandB
| CommandShiftT.

Definition trigger (cancelOngoingRequests processQuery : M World unit)
    (MAX_SCREENSHOTS : nat) (k : Shortcut) : M World unit :=
  match k with
  | CommandH p v => onCommandH MAX_SCREENSHOTS p v
  | CommandEnter => onCommandEnter processQuery
  | CommandR => onCommandR cancelOngoingRequests
  | CommandLeft => onCommandLeft
  | CommandRight => onCommandRight
  | CommandDown => onCommandDown
  | CommandUp => onCommandUp
  | CommandB => onCommandB
  | CommandShiftT => onCommandShiftT
  end.

End ShortcutsHelper.

(* ===================================================================== *)
(** * [JSON.parse] and the regular expression of the retry *)
(* ===================================================================== *)

Module JSON.
Local Open Scope char_scope.

Definition isWs (c : ascii) : bool :=
  match c with
  | " " | "009" | "010" | "013" => true
  | _ => false
  end.
Definition isDigit (c : ascii) : bool :=
  let n := nat_of_ascii c in Nat.leb 48 n && Nat.leb n 57.
Definition isHex (c : ascii) : bool :=
  let n := nat_of_ascii c in
  isDigit c || (Nat.leb 65 n && Nat.leb n 70) || (Nat.leb 97 n && Nat.leb n 102).

Fixpoint skip_ws (s : string) : string :=
  match s with
  | String c r => if isWs c then skip_ws r else s
  | EmptyString => EmptyString
  end.

(** The characters after a backslash that stand for one character. *)
Definition unescape (c : ascii) : option ascii :=
  match c with
  | "034" => Some "034"
  | "\" => Some "\"
  | "/" => Some "/"
  | "b" => Some "008"
  | "f" => Some "012"
  | "n" => Some "010"
  | "r" => Some "013"
  | "t" => Some "009"
  | _ => None
  end.

(** The rest of a string literal after its opening quote: its value and
    what follows the closing quote.  A [\uXXXX] escape is kept as written. *)
Fixpoint string_body (s : string) : option (string * string) :=
  match s with
  | EmptyString => None
  | String c r =>
      if Ascii.eqb c "034" then Some (EmptyString, r)
      else if Ascii.eqb c "\" then
        match r with
        | String "u" (String h1 (String h2 (String h3 (String h4 r')))) =>
            if isHex h1 && isHex h2 && isHex h3 && isHex h4 then
              match string_body r' with
              | Some (b, rest) =>
                  Some (String "\" (String "u" (String h1 (String h2 (String h3 (String h4 b))))), rest)
              | None => None
              end
            else None
        | String e r' =>
            match unescape e with
            | Some c' =>
                match string_body r' with
                | Some (b, rest) => Some (String c' b, rest)
                | None => None
                end
            | None => None
            end
        | EmptyString => None
        end
      else if Nat.ltb (nat_of_ascii c) 32 then None
      else
        match string_body r with
        | Some (b, rest) => Some (String c b, rest)
        | None => None
        end
  end.

(** The longest run of digits at the head of [s], and the rest. *)
Fixpoint digits (s : string) : string * string :=
  match s with
  | String c r =>
      if isDigit c then let (ds, rest) := digits r in (String c ds, rest)
      else (EmptyString, s)
  | EmptyString => (EmptyString, EmptyString)
  end.

Definition number_int (s : string) : option (string * string) :=
  match s with
  | String "0" r => Some (String "0" EmptyString, r)
  | String c r =>
      if isDigit c then let (ds, rest) := digits r in Some (String c ds, rest)
      else None
  | EmptyString => None
  end.
Definition number_frac (s : string) : option (string * string) :=
  match s with
  | String "." r =>
      match digits r with
      | (EmptyString, _) => None
      | (ds, rest) => Some (String "." ds, rest)
      end
  | _ => Some (EmptyString, s)
  end.
Definition number_exp (s : string) : option (string * string) :=
  match s with
  | String e r =>
      if Ascii.eqb e "e" || Ascii.eqb e "E" then
        let (sign, r1) :=
          match r with
          | String "+" r' => (String "+" EmptyString, r')
          | String "-" r' => (String "-" EmptyString, r')
          | _ => (EmptyString, r)
          end in
        match digits r1 with
        | (EmptyString, _) => None
        | (ds, rest) => Some (String e (sign ++ ds)%string, rest)
        end
      else Some (EmptyString, s)
  | EmptyString => Some (EmptyString, s)
  end.
Definition number_literal (s : string) : option (string * string) :=
  let (sign, s1) :=
    match s with
    | String "-" r => (String "-" EmptyString, r)
    | _ => (EmptyString, s)
    end in
  match number_int s1 with
  | Some (i, s2) =>
      match number_frac s2 with
      | Some (f, s3) =>
          match number_exp s3 with
          | Some (e, s4) => Some ((sign ++ i ++ f ++ e)%string, s4)
          | None => None
          end
      | None => None
      end
  | None => None
  end.

(** [keyword k v s]: [s] starts with the literal [k]. *)
Definition keyword (k : string) (v : json) (s : string) : option (json * string) :=
  if String.prefix k s
  then Some (v, String.substring (String.length k) (String.length s - String.length k) s)
  else None.

Fixpoint value (fuel : nat) (s : string) : option (json * string) :=
  match fuel with
  | O => None
  | S n =>
      match skip_ws s with
      | EmptyString => None
      | String "{" r =>
          match skip_ws r with
          | String "}" r' => Some (JObject [], r')
          | r1 => members n r1 []
          end
      | String "[" r =>
          match skip_ws r with
          | String "]" r' => Some (JArray [], r')
          | r1 => elements n r1 []
          end
      | String "034" r =>
          match string_body r with
          | Some (b, rest) => Some (JString b, rest)
          | None => None
          end
      | String "t" _ as s1 => keyword "true" (JBool true) s1
      | String "f" _ as s1 => keyword "false" (JBool false) s1
      | String "n" _ as s1 => keyword "null" JNull s1
      | s1 =>
          match number_literal s1 with
          | Some (lexeme, rest) => Some (JNumber lexeme, rest)
          | None => None
          end
      end
  end
with elements (fuel : nat) (s : string) (acc : list json) : option (json * string) :=
  match fuel with
  | O => None
  | S n =>
      match value n s with
      | Some (v, rest) =>
          match skip_ws rest with
          | String "," r => elements n r (acc ++ [v])
          | String "]" r => Some (JArray (acc ++ [v]), r)
          | _ => None
          end
      | None => None
      end
  end
with members (fuel : nat) (s : string) (acc : list (string * json))
    : option (json * string) :=
  match fuel with
  | O => None
  | S n =>
      match skip_ws s with
      | String "034" r =>
          match string_body r with
          | Some (k, rest) =>
              match skip_ws rest with
              | String ":" r1 =>
                  match value n r1 with
                  | Some (v, rest') =>
                      match skip_ws rest' with
                      | String "," r2 => members n r2 (acc ++ [(k, v)])
                      | String "}" r2 => Some (JObject (acc ++ [(k, v)]), r2)
                      | _ => None
                      end
                  | None => None
                  end
              | _ => None
              end
          | None => None
          end
      | _ => None
      end
  end.

(** [JSON.parse(text)]: the value, or [None] where the engine throws a
    [SyntaxError].  Every call on the way down takes at least half a
    character, which bounds the depth. *)
Definition parse (text : string) : option json :=
  match value (2 * String.length text + 2) text with
  | Some (v, rest) =>
      match skip_ws rest with
      | EmptyString => Some v
      | _ => None
      end
  | None => None
  end.

End JSON.

(** [/[a-zA-Z]/] *)
Definition isLetter (c : ascii) : bool :=
  let n := nat_of_ascii c in
  (Nat.leb 65 n && Nat.leb n 90) || (Nat.leb 97 n && Nat.leb n 122).

(** [content.replace(/'''[a-zA-Z]+/g, "")]: every occurrence, from the left,
    of three single quotes followed by letters is removed together with all
    the letters that follow.  [skipping] holds while the letters of a match
    are being consumed. *)
Fixpoint replace_quoted_language (skipping : bool) (s : string) : string :=
  match s with
  | EmptyString => EmptyString
  | String c r =>
      if skipping && isLetter c then replace_quoted_language true r
      else
        match s with
        | String "'" (String "'" (String "'" (String c4 _ as letters))) =>
            if isLetter c4 then replace_quoted_language true letters
            else String c (replace_quoted_language false r)
        | _ => String c (replace_quoted_language false r)
        end
  end.

(* ===================================================================== *)
(** * The OpenAI handlers ([processTextQuery] and its siblings) *)
(* ===================================================================== *)

(** What the handlers read of a 2xx response:
    [data.choices[0].message.content] and
    [data.choices[0].message.function_call.arguments]. *)
Record ChatCompletion := mkChatCompletion {
  content : string;
  function_call_arguments : string
}.

(** How [axios.post] settles: it resolves on a 2xx status and rejects
    otherwise, with the status in [error.response] when the server answered. *)
Inductive AxiosOutcome :=
| Resolves (data : ChatCompletion)
| Rejects (error : JsError).

(** The calls a handler makes, in order. *)
Inductive Call :=
| AxiosPost (model : string)
| JSONParse (text : string).

Module ProblemHandler.
Section Runtime.

(** The engine's [JSON.parse]; [JSON.parse] above is one. *)
Variable JSON_parse : string -> option json.

Definition JSON_parse_call (text : string) : M (list Call) json :=
  modify (fun log : list Call => (log ++ [JSONParse text])%list);;
  match JSON_parse text with
  | Some v => ret v
  | None => throw (Error "SyntaxError: Unexpected token in JSON")
  end.

Definition axios_post (model : string) (outcome : AxiosOutcome)
    : M (list Call) ChatCompletion :=
  modify (fun log : list Call => (log ++ [AxiosPost model])%list);;
  match outcome with
  | Resolves data => ret data
  | Rejects error => throw error
  end.

(** [!storedApiKey] *)
Definition key_missing (storedApiKey : option string) : bool :=
  match storedApiKey with
  | None => true
  | Some k => falsy k
  end.

(** [error.response?.status === code] *)
Definition status_is (code : Z) (error : JsError) : bool :=
  match response error with
  | Some r => Z.eqb (status r) code
  | None => false
  end.

Definition out_of_credits_long : string :=
  "API Key out of credits. Please refill your OpenAI API credits and try again.".

(** Lines 46-115.  The prompt built from [query] is the request body; the
    outcome of the request is the server's. *)
Definition processTextQuery (storedApiKey : option string) (query : string)
    (outcome : AxiosOutcome) : M (list Call) json :=
  if key_missing storedApiKey then throw (Error "OpenAI API key not set")
  else
    try_catch
      (do response <- axios_post "gpt-4o-mini" outcome;
       let content0 := content response in
       do first <- try_catch
                     (do v <- JSON_parse_call content0; ret (inl v))
                     (fun _ => ret (inr (replace_quoted_language false content0)));
       match first with
       | inl v => ret v
       | inr content1 => JSON_parse_call content1
       end)
      (fun error =>
         if status_is 429 error then throw (Error "API Key out of credits")
         else throw error).

(** Lines 118-375. *)
Definition extractProblemInfo (storedApiKey : option string)
    (imageDataList : list string) (outcome : AxiosOutcome) : M (list Call) json :=
  if key_missing storedApiKey then throw (Error "OpenAI API key not set")
  else
    try_catch
      (do response <- axios_post "gpt-4o-mini" outcome;
       JSON_parse_call (function_call_arguments response))
      (fun error =>
         if status_is 429 error then throw (Error out_of_credits_long)
         else throw error).

(** Lines 377-474. *)
Definition generateSolutionResponses (storedApiKey : option string)
    (problemInfo : json) (outcome : AxiosOutcome) : M (list Call) json :=
  try_catch
    (if key_missing storedApiKey then throw (Error "OpenAI API key not set")
     else
       do response <- axios_post "o1-mini" outcome;
       JSON_parse_call (content response))
    (fun error =>
       if status_is 429 error then throw (Error out_of_credits_long)
       else throw (Error ("Error generating solutions: " ++ message error))).

(** [error.response?.data?.error?.message || error.message] *)
Definition upstream_message (error : JsError) : string :=
  match response error with
  | Some r =>
      match data_error_message r with
      | Some m => if falsy m then message error else m
      | None => message error
      end
  | None => message error
  end.

(** Lines 476-688. *)
Definition debugSolutionResponses (storedApiKey : option string)
    (imageDataList : list string) (problemInfo : json) (outcome : AxiosOutcome)
    : M (list Call) json :=
  try_catch
    (if key_missing storedApiKey then throw (Error "OpenAI API key not set")
     else
       do response <- axios_post "gpt-4o" outcome;
       JSON_parse_call (function_call_arguments response))
    (fun error =>
       if status_is 404 error then
         throw (Error "API endpoint not found. Please check the model name and URL.")
       else if status_is 401 error then
         throw (Error "Authentication failed. Please check your API key.")
       else if status_is 401 error then
         throw (Error out_of_credits_long)
       else
         throw (Error ("OpenAI API error: " ++ upstream_message error))).

End Runtime.

(** The "out of credits" condition: the three messages that announce it all
    begin alike. *)
Definition is_out_of_credits (e : JsError) : bool :=
  String.prefix "API Key out of credits" (message e).

(** The external LLM call operations. *)
Inductive Operation := TextQuery | Extraction | SolutionGeneration | Debug.

Definition run (JSON_parse : string -> option json) (op : Operation)
    (storedApiKey : option string) (outcome : AxiosOutcome) : M (list Call) json :=
  match op with
  | TextQuery => processTextQuery JSON_parse storedApiKey "" outcome
  | Extraction => extractProblemInfo JSON_parse storedApiKey [] outcome
  | SolutionGeneration => generateSolutionResponses JSON_parse storedApiKey JNull outcome
  | Debug => debugSolutionResponses JSON_parse storedApiKey [] JNull outcome
  end.

(** The JSON texts a run handed to [JSON.parse], in order. *)
Definition parses (log : list Call) : list string :=
  flat_map (fun c => match c with JSONParse t => [t] | _ => [] end) log.

End ProblemHandler.

(* ===================================================================== *)
(** * electron/preload.ts: the notification subscriptions *)
(* ===================================================================== *)

Module Preload.

(** A function object registered on [ipcRenderer]: its identity, and the
    UI callback it forwards the notification to.  Two arrow functions
    created by two evaluations are two objects, whatever their text. *)
Record Listener := mkListener {
  fn : nat;
  forwards_to : nat
}.

(** [ipcRenderer], an [EventEmitter]: the listener arrays by channel, the
    identity the next function object gets, and the callback invocations
    made so far, each with the data it received. *)
Record IpcRenderer := mkIpcRenderer {
  events : gmap string (list Listener);
  next_function : nat;
  invocations : list (nat * string)
}.

Definition empty : IpcRenderer := mkIpcRenderer ∅ 0 [].

Definition listeners_on (ch : string) (r : IpcRenderer) : list Listener :=
  default [] (events r !! ch).

(** Evaluating an arrow function expression. *)
Definition new_function : M IpcRenderer nat :=
  fun r => (Ok (next_function r),
            mkIpcRenderer (events r) (S (next_function r)) (invocations r)).

(** [ipcRenderer.on(channel, listener)] *)
Definition on (ch : string) (l : Listener) : M IpcRenderer unit :=
  modify (fun r =>
    mkIpcRenderer (<[ch := (listeners_on ch r ++ [l])%list]> (events r))
                  (next_function r) (invocations r)).

Fixpoint remove_first (f : nat) (ls : list Listener) : list Listener :=
  match ls with
  | [] => []
  | l :: rest => if Nat.eqb (fn l) f then rest else l :: remove_first f rest
  end.

(** [EventEmitter.removeListener] takes out at most one instance of the
    function, the most recently added one; an emptied array is dropped. *)
Definition remove_last (f : nat) (ls : list Listener) : list Listener :=
  rev (remove_first f (rev ls)).

Definition removeListener (ch : string) (f : nat) : M IpcRenderer unit :=
  modify (fun r =>
    match events r !! ch with
    | None => r
    | Some ls =>
        match remove_last f ls with
        | [] => mkIpcRenderer (delete ch (events r)) (next_function r) (invocations r)
        | ls' => mkIpcRenderer (<[ch := ls']> (events r)) (next_function r) (invocations r)
        end
    end).

(** The main process sends on [ch]: every listener of the channel runs, in
    the order of registration, and calls its callback with the data. *)
Definition emit (ch : string) (data : string) : M IpcRenderer unit :=
  modify (fun r =>
    mkIpcRenderer (events r) (next_function r)
      (invocations r ++ List.map (fun l => (forwards_to l, data)) (listeners_on ch r))%list).

(** The handle a subscription returns. *)
Definition Unsubscribe : Type := M IpcRenderer unit.

(** The pattern of lines 97-106, used by every subscription but one:
    [const subscription = ...; ipcRenderer.on(ch, subscription);
     return () => { ipcRenderer.removeListener(ch, subscription) }]. *)
Definition subscribe (ch : string) (callback : nat) : M IpcRenderer Unsubscribe :=
  do subscription <- new_function;
  on ch (mkListener subscription callback);;
  ret (removeListener ch subscription).

Definition onScreenshotTaken := subscribe "screenshot-taken".
Definition onSolutionsReady := subscribe "solutions-ready".
Definition onResetView := subscribe "reset-view".
Definition onSolutionStart := subscribe "initial-start".
Definition onDebugStart := subscribe "debug-start".

(** Lines 136-143: the listener is an arrow function written in place, and
    the handle writes another one. *)
Definition onDebugSuccess (callback : nat) : M IpcRenderer Unsubscribe :=
  do registered <- new_function;
  on "debug-success" (mkListener registered callback);;
  ret (do other <- new_function;
       removeListener "debug-success" other).

Definition onDebugError := subscribe "debug-error".
Definition onSolutionError := subscribe "solution-error".
Definition onProcessingNoScreenshots := subscribe "processing-no-screenshots".
Definition onProblemExtracted := subscribe "problem-extracted".
Definition onSolutionSuccess := subscribe "solution-success".
Definition onUnauthorized := subscribe "procesing-unauthorized".
Definition onApiKeyOutOfCredits := subscribe "processing-api-key-out-of-credits".

(** The subscription functions of [electronAPI]. *)
Inductive Subscription :=
| ScreenshotTaken | SolutionsReady | ResetView | SolutionStart | DebugStart
| DebugSuccess | DebugError | SolutionError | ProcessingNoScreenshots
| ProblemExtracted | SolutionSuccess | Unauthorized | ApiKeyOutOfCredits.

Definition channel_of (s : Subscription) : string :=
  match s with
  | ScreenshotTaken => "screenshot-taken"
  | SolutionsReady => "solutions-ready"
  | ResetView => "reset-view"
  | SolutionStart => "initial-start"
  | DebugStart => "debug-start"
  | DebugSuccess => "debug-success"
  | DebugError => "debug-error"
  | SolutionError => "solution-error"
  | ProcessingNoScreenshots => "processing-no-screenshots"
  | ProblemExtracted => "problem-extracted"
  | SolutionSuccess => "solution-success"
  | Unauthorized => "procesing-unauthorized"
  | ApiKeyOutOfCredits => "processing-api-key-out-of-credits"
  end.

Definition electronAPI (s : Subscription) : nat -> M IpcRenderer Unsubscribe :=
  match s with
  | ScreenshotTaken => onScreenshotTaken
  | SolutionsReady => onSolutionsReady
  | ResetView => onResetView
  | SolutionStart => onSolutionStart
  | DebugStart => onDebugStart
  | DebugSuccess => onDebugSuccess
  | DebugError => onDebugError
  | SolutionError => onSolutionError
  | ProcessingNoScreenshots => onProcessingNoScreenshots
  | ProblemExtracted => onProblemExtracted
  | SolutionSuccess => onSolutionSuccess
  | Unauthorized => onUnauthorized
  | ApiKeyOutOfCredits => onApiKeyOutOfCredits
  end.

(** Subscribe, call the handle at once, then let a notification arrive. *)
Definition subscribe_unsubscribe_emit (s : Subscription) (callback : nat)
    (data : string) : M IpcRenderer unit :=
  do unsubscribe <- electronAPI s callback;
  unsubscribe;;
  emit (channel_of s) data.

(** Every registered function object was created before now. *)
Definition well_formed (r : IpcRenderer) : Prop :=
  forall ch ls l, events r !! ch = Some ls -> In l ls -> fn l < next_function r.

End Preload.

(* ===================================================================== *)
(** * The Processing Coordinator's cancellation, and runs of the store *)
(* ===================================================================== *)

Module ProcessingHelper.

(** Modelled from the spec: [cancelOngoingRequests]
    (electron/ProcessingHelper.ts is not among the sources).  "Cancel any
    in-flight request": the in-flight request handle is "cleared on
    completion, error, or explicit cancel". *)
Definition cancelOngoingRequests : M World unit :=
  modify (with_app (fun a =>
    mkAppState (windowHelper a) (screenshotHelper a) (mkProcessingHelper None None)
               (view a) (mode a) (textQuery a) (problemInfo a) (hasDebugged a))).

End ProcessingHelper.

Module Store.

(** The operations of the Screenshot Store a session interleaves. *)
Inductive Op :=
| Capture (path : string)
| Delete (path : string)
| SwitchView (v : View).

(** Each operation is a request of its own: one that throws does not keep
    the next from running, and leaves the world as it was at the throw. *)
Definition step (MAX_SCREENSHOTS : nat) (op : Op) (w : World) : World :=
  match op with
  | Capture path => snd (AppState.takeScreenshot MAX_SCREENSHOTS path w)
  | Delete path => snd (AppState.deleteScreenshot path w)
  | SwitchView v => snd (AppState.setView v w)
  end.

Definition run (MAX_SCREENSHOTS : nat) (ops : list Op) (w : World) : World :=
  fold_left (fun w op => step MAX_SCREENSHOTS op w) ops w.

(** Every record of either queue has its file on disk. *)
Definition queues_stored (w : World) : Prop :=
  forall path,
    In path (screenshotQueue (screenshotHelper (app w))
             ++ extraScreenshotQueue (screenshotHelper (app w)))%list ->
    path ∈ files w.

End Store.

Module WindowSession.

(** What happens to the window in a session: the calls of the window
    controller, and the listeners Electron runs on a move, a resize and
    a close. *)
Inductive Op :=
| Create | Hide | Show | Toggle
| MoveLeft | MoveRight | MoveUp | MoveDown
| Resize (reqWidth reqHeight : number)
| Moved | Resized | Closed.

Definition method_of (op : Op) : M World unit :=
  match op with
  | Create => AppState.createWindow
  | Hide => AppState.hideMainWindow
  | Show => AppState.showMainWindow
  | Toggle => AppState.toggleMainWindow
  | MoveLeft => AppState.moveWindowLeft
  | MoveRight => AppState.moveWindowRight
  | MoveUp => AppState.moveWindowUp
  | MoveDown => AppState.moveWindowDown
  | Resize reqWidth reqHeight => AppState.setWindowDimensions reqWidth reqHeight
  | Moved => WindowHelper.on_move
  | Resized => WindowHelper.on_resize
  | Closed => WindowHelper.on_closed
  end.

Definition step (op : Op) (w : World) : World := snd (method_of op w).

Definition run (ops : list Op) (w : World) : World :=
  fold_left (fun w op => step op w) ops w.

End WindowSession.

(* ===================================================================== *)
(** * Sample sessions *)
(* ===================================================================== *)

Module Sample.
Local Open Scope Q_scope.

(** A 1920 x 1080 work area on macOS, before the window exists. *)
Definition fresh : World :=
  mkWorld AppState.initial (mkSize 1920 1080) "darwin" ∅ [].

(** After [app.whenReady]: the window has been created. *)
Definition started : World := snd (AppState.createWindow fresh).

(** A session that has solved a problem and debugged it once, with one
    screenshot in each queue. *)
Definition solved : World :=
  mkWorld
    (mkAppState (windowHelper (app started))
                (mkScreenshotHelper solutions ["/shots/1.png"] ["/shots/2.png"])
                (mkProcessingHelper (Some 1%nat) None)
                solutions text "two sum" (Some (JObject [])) true)
    (workAreaSize started) (platform started)
    ({[ "/shots/1.png" ]} ∪ {[ "/shots/2.png" ]}) [].

(** The window object is destroyed, and its [closed] listener has not run
    yet. *)
Definition destroyed : World :=
  with_app (with_windowHelper (fun h =>
    set_mainWindow
      (match mainWindow h with
       | Some win =>
           Some (mkWindow (requested win) (minWidth win) (minHeight win)
                          true false false (alwaysOnTop win))
       | None => None
       end) h)) started.


(** Text mode with a query of blanks only. *)
Definition blank_query : World :=
  with_app (fun a => set_textQuery "  " (set_mode text a)) started.

(** An HTTP 429 from the API. *)
Definition rate_limited : AxiosOutcome :=
  Rejects (mkJsError "Request failed with status code 429"
             (Some (mkHttpResponse 429 (Some "Rate limit reached")))).

(** A reply wrapped in the three-quotes-and-language marker. *)
Definition quoted_reply : AxiosOutcome :=
  Resolves (mkChatCompletion "'''json{}" "'''json{}").

End Sample.

(* ===================================================================== *)
(** * electron/main.ts: the application's event handlers *)
(* ===================================================================== *)

Module Main.

(** [app.on("activate", ...)] (main.ts, lines 299-308). *)
Definition on_activate : M World unit :=
  do mainWindow <- AppState.getMainWindow;
  match mainWindow with
  | None => AppState.createWindow
  | Some _ => ret tt
  end.

End Main.

(* ===================================================================== *)
(** * The marker of the parse retry *)
(* ===================================================================== *)

(** [s] starts with three single quotes and a letter, where the regular
    expression of the retry matches. *)
Definition starts_marker (s : string) : bool :=
  match s with
  | String "'" (String "'" (String "'" (String c _))) => isLetter c
  | _ => false
  end.

(** The regular expression matches somewhere in [s]. *)
Fixpoint has_marker (s : string) : bool :=
  match s with
  | EmptyString => false
  | String _ r => starts_marker s || has_marker r
  end.

(* ===================================================================== *)
(** * src/lib/auth.ts: [AuthService] *)
(* ===================================================================== *)

Module AuthService.

(** What the service reads of a Supabase [Session]; a token that is missing
    is the empty string, which is as falsy. *)
Record Session := mkSession {
  access_token : string;
  refresh_token : string
}.

(** The calls the service makes on [window.electronAPI] and on the Supabase
    client. *)
Inductive ApiCall :=
| StoreSession (s : Session)
| ClearSession
| OpenAuthWindow (url : string)
| SupabaseSetSession (access refresh : string)
| SupabaseSignOut.

(** How such a call ends where the code can see it: it returns (an awaited
    promise resolves), or it throws - the [TypeError] of a member the
    exposed object does not have, or the rejection of an awaited promise. *)
Inductive Outcome :=
| Returns
| Throws (error : JsError).

(** The private field [session], and the calls that have returned so far,
    in order. *)
Record t := mkAuth {
  session : option Session;
  calls : list ApiCall
}.

Definition call (c : ApiCall) : M t unit :=
  modify (fun a => mkAuth (session a) (calls a ++ [c])%list).
Definition set_session (s : option Session) : M t unit :=
  modify (fun a => mkAuth s (calls a)).

(** A call with its outcome: one that throws leaves no trace. *)
Definition attempt (c : ApiCall) (o : Outcome) : M t unit :=
  match o with
  | Returns => call c
  | Throws error => throw error
  end.

(** Line 6: the field initialiser.  This is the service once the constructor
    has returned: [window.electronAPI.getSession()] of line 10 has given its
    promise and the listener of line 21 is registered. *)
Definition initial : t := mkAuth None [].

(** Lines 10-18: the callback on the session the main process had stored.
    It runs when the promise of line 10 resolves, at any time after the
    constructor; [supabase.auth.setSession] is not awaited. *)
Definition on_saved_session (savedSession : option Session) : M t unit :=
  match savedSession with
  | Some saved =>
      if negb (falsy (access_token saved)) && negb (falsy (refresh_token saved)) then
        call (SupabaseSetSession (access_token saved) (refresh_token saved));;
        set_session (Some saved)
      else ret tt
  | None => ret tt
  end.

(** Lines 21-28: the listener on Supabase's auth state. *)
Definition on_auth_state_change (session : option Session) (stored : Outcome)
    : M t unit :=
  set_session session;;
  match session with
  | Some s => attempt (StoreSession s) stored
  | None => attempt ClearSession stored
  end.

(** How [supabase.auth.signInWithOAuth] and [supabase.auth.getSession]
    settle; a URL that is missing is the empty string. *)
Inductive OAuthOutcome :=
| OAuthError (error : JsError)
| OAuthUrl (url : string).
Inductive GetSessionOutcome :=
| SessionError (error : JsError)
| SessionIs (session : option Session).

(** Lines 38-68, with the outcomes of the four calls it makes:
    [signInWithOAuth], [openAuthWindow], [getSession] and [storeSession].
    The value returned is the session, or [None] for [null] and for the
    [undefined] of the path without a URL. *)
Definition signInWithGoogle (oauth : OAuthOutcome) (opened : Outcome)
    (got : GetSessionOutcome) (stored : Outcome) : M t (option Session) :=
  try_catch
    (match oauth with
     | OAuthError error => throw error
     | OAuthUrl url =>
         if falsy url then ret None
         else
           attempt (OpenAuthWindow url) opened;;
           match got with
           | SessionError sessionError => throw sessionError
           | SessionIs session =>
               match session with
               | Some s => attempt (StoreSession s) stored;; set_session (Some s)
               | None => ret tt
               end;;
               ret session
           end
     end)
    (fun error => throw error).

(** Lines 70-74, with the outcomes of [supabase.auth.signOut], which is
    awaited, and of [clearSession]. *)
Definition signOut (signedOut cleared : Outcome) : M t unit :=
  attempt SupabaseSignOut signedOut;;
  attempt ClearSession cleared;;
  set_session None.

(** Lines 76-78. *)
Definition getSession : M t (option Session) := gets session.

(** What happens to the service after it is built, in the order it
    happens: the saved-session callback among the rest. *)
Inductive Event :=
| SavedSession (savedSession : option Session)
| AuthStateChange (session : option Session) (stored : Outcome)
| SignIn (oauth : OAuthOutcome) (opened : Outcome) (got : GetSessionOutcome)
         (stored : Outcome)
| SignOut (signedOut cleared : Outcome).

(** An event that throws leaves the service as it was at the throw. *)
Definition step (e : Event) (a : t) : t :=
  match e with
  | SavedSession saved => snd (on_saved_session saved a)
  | AuthStateChange s stored => snd (on_auth_state_change s stored a)
  | SignIn oauth opened got stored => snd (signInWithGoogle oauth opened got stored a)
  | SignOut signedOut cleared => snd (signOut signedOut cleared a)
  end.

Definition run (events : list Event) (a : t) : t :=
  fold_left (fun a e => step e a) events a.

(** What the main process holds after the calls, when it held [saved]
    before them: [storeSession] saves and [clearSession] clears, as the
    comments beside the calls say. *)
Definition stored (saved : option Session) (cs : list ApiCall) : option Session :=
  fold_left
    (fun held c =>
       match c with
       | StoreSession s => Some s
       | ClearSession => None
       | _ => held
       end) cs saved.

(** A saved session the service takes up: none, or one with both tokens. *)
Definition usable (saved : option Session) : bool :=
  match saved with
  | Some s => negb (falsy (access_token s)) && negb (falsy (refresh_token s))
  | None => true
  end.

(** The events that hand the session they set to the main process: all but
    the saved-session callback, which stores nothing, and an auth state
    change whose [storeSession] or [clearSession] throws. *)
Definition hands_over (e : Event) : bool :=
  match e with
  | SavedSession _ => false
  | AuthStateChange _ (Throws _) => false
  | _ => true
  end.

End AuthService.

(* ===================================================================== *)
(** * The UI process: the effects of App.tsx and of the Queue page *)
(* ===================================================================== *)

Module Renderer.
Import Preload.

(** The subscription members of the object preload.ts exposes as
    [window.electronAPI] (lines 97-205), by name; a name it does not have
    reads as [undefined]. *)
Definition electronAPI_member (name : string)
    : option (nat -> M IpcRenderer Unsubscribe) :=
  if String.eqb name "onScreenshotTaken" then Some onScreenshotTaken
  else if String.eqb name "onSolutionsReady" then Some onSolutionsReady
  else if String.eqb name "onResetView" then Some onResetView
  else if String.eqb name "onSolutionStart" then Some onSolutionStart
  else if String.eqb name "onDebugStart" then Some onDebugStart
  else if String.eqb name "onDebugSuccess" then Some onDebugSuccess
  else if String.eqb name "onDebugError" then Some onDebugError
  else if String.eqb name "onSolutionError" then Some onSolutionError
  else if String.eqb name "onProcessingNoScreenshots" then Some onProcessingNoScreenshots
  else if String.eqb name "onProblemExtracted" then Some onProblemExtracted
  else if String.eqb name "onSolutionSuccess" then Some onSolutionSuccess
  else if String.eqb name "onUnauthorized" then Some onUnauthorized
  else if String.eqb name "onApiKeyOutOfCredits" then Some onApiKeyOutOfCredits
  else None.

(** [window.electronAPI.<name>(callback)] *)
Definition subscribe_by_name (name : string) (callback : nat)
    : M IpcRenderer Unsubscribe :=
  match electronAPI_member name with
  | Some member => member callback
  | None =>
      throw (Error ("TypeError: window.electronAPI." ++ name ++ " is not a function"))
  end.

(** An array literal of subscriptions: the elements are evaluated from the
    left, and the array is the handles they return. *)
Fixpoint subscribe_in_order (subscriptions : list (string * nat))
    : M IpcRenderer (list Unsubscribe) :=
  match subscriptions with
  | [] => ret []
  | (name, callback) :: rest =>
      do cleanup <- subscribe_by_name name callback;
      do cleanups <- subscribe_in_order rest;
      ret (cleanup :: cleanups)
  end.

(** [cleanupFunctions.forEach((cleanup) => cleanup())] *)
Fixpoint forEach_cleanup (cleanupFunctions : list Unsubscribe) : M IpcRenderer unit :=
  match cleanupFunctions with
  | [] => ret tt
  | cleanup :: rest => cleanup;; forEach_cleanup rest
  end.

(** App.tsx, lines 105-167: the effect that subscribes the application, with
    its six callbacks; it returns the cleanup. *)
Definition App_subscriptions (c1 c2 c3 c4 c5 c6 : nat) : M IpcRenderer Unsubscribe :=
  do cleanupFunctions <-
    subscribe_in_order
      [("onProcessingStart", c1); ("onResetView", c2); ("onProblemExtracted", c3);
       ("onInitialSolutionGenerated", c4); ("onProcessingExtraSuccess", c5);
       ("onUnauthorized", c6)];
  ret (forEach_cleanup cleanupFunctions).

(** The Queue page, lines 20-25: the effect that follows the mode. *)
Definition Queue_mode_effect (callback : nat) : M IpcRenderer Unsubscribe :=
  subscribe_by_name "onModeChanged" callback.

(** The Queue page, lines 88-113: the listeners of its second effect and
    their cleanup. *)
Definition Queue_listeners (c1 c2 c3 c4 : nat) : M IpcRenderer Unsubscribe :=
  do cleanupFunctions <-
    subscribe_in_order
      [("onScreenshotTaken", c1); ("onResetView", c2); ("onSolutionError", c3);
       ("onProcessingNoScreenshots", c4)];
  ret (forEach_cleanup cleanupFunctions).

(** A component that mounts, runs an effect and unmounts. *)
Definition mount_unmount (effect : M IpcRenderer Unsubscribe) : M IpcRenderer unit :=
  do cleanup <- effect;
  cleanup.

(** [k] mounts and unmounts in a row. *)
Fixpoint remounts (k : nat) (effect : M IpcRenderer Unsubscribe) : M IpcRenderer unit :=
  match k with
  | O => ret tt
  | S k' => mount_unmount effect;; remounts k' effect
  end.

(** Subscriptions made one after the other and never released. *)
Fixpoint subscribe_each (subscriptions : list (Subscription * nat))
    : M IpcRenderer unit :=
  match subscriptions with
  | [] => ret tt
  | (s, callback) :: rest =>
      do _ <- electronAPI s callback;
      subscribe_each rest
  end.

(** Every function object registered on [ch] was created before now. *)
Definition registered_before (ch : string) (r : IpcRenderer) : Prop :=
  forall l, In l (listeners_on ch r) -> fn l < next_function r.

End Renderer.

(* ===================================================================== *)
(** * Vocabulary of the statements *)
(* ===================================================================== *)

(** [c] returns normally and leaves the whole world as it was. *)
Definition no_op {A} (c : M World A) (a : A) (w : World) : Prop :=
  c w = (Ok a, w).

(** There is no main window, or the one there is has been destroyed. *)
Definition window_gone (w : World) : Prop :=
  match mainWindow (windowHelper (app w)) with
  | None => True
  | Some win => isDestroyed win = true
  end.

(** [mainWindow && !mainWindow.isDestroyed()] *)
Definition window_live (w : World) : bool :=
  match mainWindow (windowHelper (app w)) with
  | Some win => negb (isDestroyed win)
  | None => false
  end.

(** Every code unit of [s] is white space; the empty string is such. *)
Definition blank (s : string) : Prop :=
  forall c, In c (list_ascii_of_string s) -> isWhiteSpace c = true.

(** The window sits at the rounded coordinates [WindowHelper] keeps. *)
Definition placed_at_current (w : World) : Prop :=
  exists win,
    mainWindow (windowHelper (app w)) = Some win /\
    rx (bounds win) = Math_round (currentX (windowHelper (app w))) /\
    ry (bounds win) = Math_round (currentY (windowHelper (app w))).

(** What [createWindow] makes of the step (WindowHelper.ts, line 138). *)
Definition step_of_width (h : WindowHelper) : Prop :=
  (step h == Math_floor (screenWidth h / 10))%Q.

(** What a session keeps of the window: the step is a tenth of the width, a
    helper that believes the window visible has one, and a helper that has a
    window has recorded its position and its size. *)
Definition window_recorded (h : WindowHelper) : Prop :=
  step_of_width h /\
  (isWindowVisible h = true -> mainWindow h <> None) /\
  (mainWindow h <> None -> windowPosition h <> None /\ windowSize h <> None).

(** The window the helper has, if any, has the minimum size [createWindow]
    builds it with (WindowHelper.ts, lines 143-144). *)
Definition built_with_minimum (h : WindowHelper) : Prop :=
  forall win, mainWindow h = Some win ->
              minWidth win = 400%Q /\ minHeight win = 300%Q.

(** The query has a code unit that is not white space. *)
Definition has_text (s : string) : Prop :=
  exists c, In c (list_ascii_of_string s) /\ isWhiteSpace c = false.

(** The model each handler names in its request (lines 86, 340, 447, 637). *)
Definition model_of (op : ProblemHandler.Operation) : string :=
  match op with
  | ProblemHandler.TextQuery | ProblemHandler.Extraction => "gpt-4o-mini"
  | ProblemHandler.SolutionGeneration => "o1-mini"
  | ProblemHandler.Debug => "gpt-4o"
  end.

(** The part of the response each handler parses (lines 98, 362, 463, 665). *)
Definition body_of (op : ProblemHandler.Operation) (data : ChatCompletion) : string :=
  match op with
  | ProblemHandler.TextQuery | ProblemHandler.SolutionGeneration => content data
  | ProblemHandler.Extraction | ProblemHandler.Debug => function_call_arguments data
  end.

(* ===================================================================== *)
(** * Properties *)
(* ===================================================================== *)

Arguments Math_floor : simpl never.
Arguments Math_ceil : simpl never.
Arguments Math_round : simpl never.
Arguments Math_min : simpl never.
Arguments Math_max : simpl never.
Arguments or_zero : simpl never.

(** ** Numbers *)

Section Numbers.
Local Open Scope Q_scope.

Lemma or_zero_eq (x : number) : or_zero x == x.
Proof.
  unfold or_zero. destruct (Qeq_bool x 0) eqn:E; [|reflexivity].
  apply Qeq_bool_iff in E. now rewrite E.
Qed.

Lemma Math_min_le_l x y : Math_min x y <= x.
Proof. apply Q.le_min_l. Qed.
Lemma Math_min_le_r x y : Math_min x y <= y.
Proof. apply Q.le_min_r. Qed.
Lemma Math_max_ge_l x y : x <= Math_max x y.
Proof. apply Q.le_max_l. Qed.

Lemma Math_max_held x m : Math_max (Math_max x m) m = Math_max x m.
Proof.
  unfold Math_max, Qmax, GenericMinMax.gmax.
  destruct (x ?= m) eqn:E; rewrite ?E; try reflexivity.
  now rewrite (proj1 (Qeq_alt m m) (Qeq_refl m)).
Qed.

Lemma Math_min_compat x x' y y' :
  x == x' -> y == y' -> Math_min x y == Math_min x' y'.
Proof. intros Hx Hy. unfold Math_min. now rewrite Hx, Hy. Qed.
Lemma Math_max_compat x x' y y' :
  x == x' -> y == y' -> Math_max x y == Math_max x' y'.
Proof. intros Hx Hy. unfold Math_max. now rewrite Hx, Hy. Qed.


Lemma widthFraction_values :
  WindowHelper.widthFraction false == 40 # 100 /\
  WindowHelper.widthFraction true == 75 # 100.
Proof. split; reflexivity. Qed.

End Numbers.

(** ** The world, taken apart *)

(** Names every field of the world, so that each step of a method computes. *)
Ltac open_world w :=
  destruct w as [[[mw vis pos size ? ? ? ? ? ?] ? ? ? ? ? ? ?] ? os ? ?];
  simpl in *.

(** Runs a method from its first statement. *)
Ltac run_method :=
  cbv [bind ret throw get gets modify try_catch this_get this_set on_mainWindow
       method webContents_send AppState.app_get AppState.app_set
       ScreenshotHelper.sh_get ScreenshotHelper.sh_set];
  simpl.

(** Runs a [WindowHelper] method.  *)
Ltac run_window :=
  unfold WindowHelper.setWindowDimensions, WindowHelper.hideMainWindow,
    WindowHelper.showMainWindow, WindowHelper.toggleMainWindow,
    WindowHelper.moveWindowRight, WindowHelper.moveWindowLeft,
    WindowHelper.moveWindowDown, WindowHelper.moveWindowUp,
    WindowHelper.ensure_numbers, WindowHelper.place_window,
    WindowHelper.logWindowState, WindowHelper.getFocusedWindow,
    WindowHelper.appState_getHasDebugged, WindowHelper.getMainWindow,
    WindowHelper.isVisible,
    getPosition, setBounds, getBounds, getContentBounds, setPosition,
    win_isFocused, hide, showInactive, focus, setAlwaysOnTop;
  run_method.

(** Runs a shortcut handler or an [AppState] method. *)
Ltac run_app :=
  unfold ShortcutsHelper.trigger, ShortcutsHelper.onCommandH,
    ShortcutsHelper.onCommandEnter, ShortcutsHelper.onCommandR,
    ShortcutsHelper.onCommandLeft, ShortcutsHelper.onCommandRight,
    ShortcutsHelper.onCommandDown, ShortcutsHelper.onCommandUp,
    ShortcutsHelper.onCommandB, ShortcutsHelper.onCommandShiftT,
    AppState.clearQueues, AppState.setView, AppState.getMainWindow,
    AppState.isVisible, AppState.getMode, AppState.getTextQuery,
    AppState.toggleMode, AppState.takeScreenshot, AppState.deleteScreenshot,
    AppState.hideMainWindow, AppState.showMainWindow, AppState.toggleMainWindow,
    AppState.setWindowDimensions, AppState.moveWindowLeft, AppState.moveWindowRight,
    AppState.moveWindowDown, AppState.moveWindowUp,
    ScreenshotHelper.clearQueues, ScreenshotHelper.setView,
    ScreenshotHelper.takeScreenshot, ScreenshotHelper.deleteScreenshot;
  run_window.

(** ** Window geometry *)

Section WindowGeometry.
Local Open Scope Q_scope.



(** The two degenerate requests of the claim, on a 1920-wide work area:
    (0, 0) asks for 32 x 100, and an oversized one is cut to 768 (40%), or
    to 1440 (75%) once a debug pass has occurred. *)
Example setWindowDimensions_zero :
  windowSize (windowHelper (app (snd (AppState.setWindowDimensions 0 0 Sample.started))))
  = Some (mkSize 32 100).
Proof. reflexivity. Qed.

Example setWindowDimensions_oversized :
  windowSize (windowHelper (app (snd (AppState.setWindowDimensions 50000 50000 Sample.started))))
  = Some (mkSize 768 50000) /\
  windowSize (windowHelper (app (snd (AppState.setWindowDimensions 50000 (1 # 3)
    (with_app (set_hasDebugged true) Sample.started)))))
  = Some (mkSize 1440 100).
Proof. split; reflexivity. Qed.



End WindowGeometry.

(** ** Window moves *)

Section WindowMoves.
Local Open Scope Q_scope.

Ltac run_move w win :=
  open_world w; subst; destruct win; simpl in *; subst;
  unfold step_of_width, placed_at_current in *; simpl in *;
  run_window;
  repeat match goal with
         | |- _ /\ _ => split
         | |- Ok _ = Ok _ => reflexivity
         | |- exists _, _ => eexists; repeat split
         end.

Ltac finish_move Hstep :=
  first
    [ apply or_zero_eq
    | apply Math_min_compat; [reflexivity | rewrite or_zero_eq, Hstep; reflexivity]
    | apply Math_max_compat; [reflexivity | rewrite or_zero_eq, Hstep; reflexivity] ].

Lemma moveWindowRight_live (w : World) (win : BrowserWindow) :
  mainWindow (windowHelper (app w)) = Some win ->
  isDestroyed win = false ->
  step_of_width (windowHelper (app w)) ->
  let h := windowHelper (app w) in
  let out := WindowHelper.moveWindowRight w in
  let h' := windowHelper (app (snd out)) in
  fst out = Ok tt /\
  currentX h' == Math_min (screenWidth h - WindowHelper.windowWidth_or_zero h / 2)
                          (currentX h + Math_floor (screenWidth h / 10)) /\
  currentY h' == currentY h /\
  placed_at_current (snd out).
Proof. intros Hwin Hlive Hstep. run_move w win; finish_move Hstep. Qed.

Lemma moveWindowLeft_live (w : World) (win : BrowserWindow) :
  mainWindow (windowHelper (app w)) = Some win ->
  isDestroyed win = false ->
  step_of_width (windowHelper (app w)) ->
  let h := windowHelper (app w) in
  let out := WindowHelper.moveWindowLeft w in
  let h' := windowHelper (app (snd out)) in
  fst out = Ok tt /\
  currentX h' == Math_max (- (WindowHelper.windowWidth_or_zero h / 2))
                          (currentX h - Math_floor (screenWidth h / 10)) /\
  currentY h' == currentY h /\
  placed_at_current (snd out).
Proof. intros Hwin Hlive Hstep. run_move w win; finish_move Hstep. Qed.

Lemma moveWindowDown_live (w : World) (win : BrowserWindow) :
  mainWindow (windowHelper (app w)) = Some win ->
  isDestroyed win = false ->
  step_of_width (windowHelper (app w)) ->
  let h := windowHelper (app w) in
  let out := WindowHelper.moveWindowDown w in
  let h' := windowHelper (app (snd out)) in
  fst out = Ok tt /\
  currentY h' == Math_min (screenHeight h - WindowHelper.windowHeight_or_zero h / 2)
                          (currentY h + Math_floor (screenWidth h / 10)) /\
  currentX h' == currentX h /\
  placed_at_current (snd out).
Proof. intros Hwin Hlive Hstep. run_move w win; finish_move Hstep. Qed.

Lemma moveWindowUp_live (w : World) (win : BrowserWindow) :
  mainWindow (windowHelper (app w)) = Some win ->
  isDestroyed win = false ->
  step_of_width (windowHelper (app w)) ->
  let h := windowHelper (app w) in
  let out := WindowHelper.moveWindowUp w in
  let h' := windowHelper (app (snd out)) in
  fst out = Ok tt /\
  currentY h' == Math_max (- (WindowHelper.windowHeight_or_zero h / 2))
                          (currentY h - Math_floor (screenWidth h / 10)) /\
  currentX h' == currentX h /\
  placed_at_current (snd out).
Proof. intros Hwin Hlive Hstep. run_move w win; finish_move Hstep. Qed.

(** [createWindow] is where the step comes from: a tenth of the work area's
    width, rounded down, whatever the height. *)
Lemma createWindow_step (w : World) :
  mainWindow (windowHelper (app w)) = None ->
  let h' := windowHelper (app (snd (WindowHelper.createWindow w))) in
  fst (WindowHelper.createWindow w) = Ok tt /\
  screenWidth h' = width (workAreaSize w) /\
  screenHeight h' = height (workAreaSize w) /\
  step h' = Math_floor (width (workAreaSize w) / 10) /\
  step_of_width h' /\
  mainWindow h' = Some (WindowHelper.new_BrowserWindow 0).
Proof.
  intros Hnone. open_world w. subst.
  unfold WindowHelper.createWindow, step_of_width. run_window.
  destruct (String.eqb os "darwin"); [|destruct (String.eqb os "win32")];
    simpl; repeat split; reflexivity.
Qed.

(** The step stays a tenth of the screen width through everything a
    session does to the window - creation, show and hide, moves, resizes,
    the listeners, and a close followed by a new window. *)
Lemma session_step_keeps_step (op : WindowSession.Op) (w : World) :
  step_of_width (windowHelper (app w)) ->
  step_of_width (windowHelper (app (WindowSession.step op w))).
Proof.
  unfold step_of_width, WindowSession.step, WindowSession.method_of.
  intros Hstep. destruct op; open_world w;
    try (destruct mw as [[b mnw mnh [|] sh fo lv]|]);
    try (destruct vis); try (destruct pos); try (destruct size);
    unfold AppState.createWindow, WindowHelper.createWindow,
      WindowHelper.on_move, WindowHelper.on_resize, WindowHelper.on_closed;
    run_app; try exact Hstep;
    try (destruct fo; simpl; exact Hstep);
    (destruct (String.eqb os "darwin"); [|destruct (String.eqb os "win32")]);
    simpl; reflexivity.
Qed.

Lemma session_keeps_step (ops : list WindowSession.Op) (w : World) :
  step_of_width (windowHelper (app w)) ->
  step_of_width (windowHelper (app (WindowSession.run ops w))).
Proof.
  unfold WindowSession.run. revert w.
  induction ops as [|op ops IH]; intros w Hstep; simpl; [exact Hstep|].
  apply IH. now apply session_step_keeps_step.
Qed.

(** So it is in every state a process reaches from its start. *)
Lemma reachable_step_of_width (display : Size) (os : string)
    (ops : list WindowSession.Op) :
  step_of_width (windowHelper (app
    (WindowSession.run ops (mkWorld AppState.initial display os ∅ [])))).
Proof. apply session_keeps_step. reflexivity. Qed.

(** The window of a session keeps the minimum size it was built with. *)
Lemma session_step_keeps_minimum (op : WindowSession.Op) (w : World) :
  built_with_minimum (windowHelper (app w)) ->
  built_with_minimum (windowHelper (app (WindowSession.step op w))).
Proof.
  unfold built_with_minimum, WindowSession.step, WindowSession.method_of.
  intros Hmin. destruct op; open_world w;
    destruct mw as [[b mnw mnh [|] sh [|] lv]|], vis, pos, size;
    unfold AppState.createWindow, WindowHelper.createWindow,
      WindowHelper.on_move, WindowHelper.on_resize, WindowHelper.on_closed;
    run_app;
    try (destruct (String.eqb os "darwin"); [|destruct (String.eqb os "win32")]);
    simpl; intros win Hwin;
    first [ discriminate Hwin
          | injection Hwin as <-; simpl;
            first [ exact (Hmin _ eq_refl) | split; reflexivity ] ].
Qed.

Lemma reachable_minimum_size (display : Size) (os : string)
    (ops : list WindowSession.Op) :
  built_with_minimum (windowHelper (app
    (WindowSession.run ops (mkWorld AppState.initial display os ∅ [])))).
Proof.
  unfold WindowSession.run.
  assert (H0 : built_with_minimum
                 (windowHelper (app (mkWorld AppState.initial display os ∅ []))))
    by (intros win Hwin; discriminate Hwin).
  revert H0. generalize (mkWorld AppState.initial display os ∅ []).
  induction ops as [|op ops IH]; intros w Hw; simpl; [exact Hw|].
  apply IH. now apply session_step_keeps_minimum.
Qed.

(** C7 (as amended).  Each move of a live window returns normally, leaves
    the window at the rounded coordinates, and changes one coordinate: by
    the step [Math.floor(screenWidth / 10)] - a tenth of the screen WIDTH,
    for the vertical moves as for the horizontal ones - clamped at
    [screenWidth - halfWidth] (right), [-halfWidth] (left),
    [screenHeight - halfHeight] (down) and [-halfHeight] (up), so that the
    half of the recorded window size towards the screen stays inside it. *)
Theorem move_steps_by_tenth_of_width (w : World) (win : BrowserWindow) :
  mainWindow (windowHelper (app w)) = Some win ->
  isDestroyed win = false ->
  step_of_width (windowHelper (app w)) ->
  let h := windowHelper (app w) in
  let tenth := Math_floor (screenWidth h / 10) in
  let halfWidth := WindowHelper.windowWidth_or_zero h / 2 in
  let halfHeight := WindowHelper.windowHeight_or_zero h / 2 in
  let after (move : M World unit) := windowHelper (app (snd (move w))) in
  (fst (AppState.moveWindowRight w) = Ok tt /\
   placed_at_current (snd (AppState.moveWindowRight w)) /\
   currentX (after AppState.moveWindowRight)
     == Math_min (screenWidth h - halfWidth) (currentX h + tenth) /\
   currentX (after AppState.moveWindowRight) + halfWidth <= screenWidth h /\
   currentY (after AppState.moveWindowRight) == currentY h) /\
  (fst (AppState.moveWindowLeft w) = Ok tt /\
   placed_at_current (snd (AppState.moveWindowLeft w)) /\
   currentX (after AppState.moveWindowLeft)
     == Math_max (- halfWidth) (currentX h - tenth) /\
   0 <= currentX (after AppState.moveWindowLeft) + halfWidth /\
   currentY (after AppState.moveWindowLeft) == currentY h) /\
  (fst (AppState.moveWindowDown w) = Ok tt /\
   placed_at_current (snd (AppState.moveWindowDown w)) /\
   currentY (after AppState.moveWindowDown)
     == Math_min (screenHeight h - halfHeight) (currentY h + tenth) /\
   currentY (after AppState.moveWindowDown) + halfHeight <= screenHeight h /\
   currentX (after AppState.moveWindowDown) == currentX h) /\
  (fst (AppState.moveWindowUp w) = Ok tt /\
   placed_at_current (snd (AppState.moveWindowUp w)) /\
   currentY (after AppState.moveWindowUp)
     == Math_max (- halfHeight) (currentY h - tenth) /\
   0 <= currentY (after AppState.moveWindowUp) + halfHeight /\
   currentX (after AppState.moveWindowUp) == currentX h).
Proof.
  intros Hwin Hlive Hstep h tenth halfWidth halfHeight after.
  destruct (moveWindowRight_live w win Hwin Hlive Hstep) as (R1 & R2 & R3 & R4).
  destruct (moveWindowLeft_live w win Hwin Hlive Hstep) as (L1 & L2 & L3 & L4).
  destruct (moveWindowDown_live w win Hwin Hlive Hstep) as (D1 & D2 & D3 & D4).
  destruct (moveWindowUp_live w win Hwin Hlive Hstep) as (U1 & U2 & U3 & U4).
  unfold after, AppState.moveWindowRight, AppState.moveWindowLeft,
    AppState.moveWindowDown, AppState.moveWindowUp.
  repeat split; try assumption.
  - rewrite R2.
    pose proof (Math_min_le_l (screenWidth h - halfWidth) (currentX h + tenth)).
    fold h halfWidth tenth. lra.
  - rewrite L2.
    pose proof (Math_max_ge_l (- halfWidth) (currentX h - tenth)).
    fold h halfWidth tenth. lra.
  - rewrite D2.
    pose proof (Math_min_le_l (screenHeight h - halfHeight) (currentY h + tenth)).
    fold h halfHeight tenth. lra.
  - rewrite U2.
    pose proof (Math_max_ge_l (- halfHeight) (currentY h - tenth)).
    fold h halfHeight tenth. lra.
Qed.

(** On the 1920 x 1080 sample the step is 192 both ways: the window goes
    from (0, 0) to x = 192 on a move right and to y = 192 on a move down. *)
Lemma move_steps_by_tenth_of_width_witness :
  step_of_width (windowHelper (app Sample.started)) /\
  currentX (windowHelper (app (snd (AppState.moveWindowRight Sample.started))))
    == Math_min (1920 - 400) (0 + 192) /\
  currentY (windowHelper (app (snd (AppState.moveWindowDown Sample.started))))
    == Math_min (1080 - 300) (0 + 192).
Proof.
  assert (Hstep : step_of_width (windowHelper (app Sample.started)))
    by reflexivity.
  split; [exact Hstep|].
  destruct (move_steps_by_tenth_of_width Sample.started
              (WindowHelper.new_BrowserWindow 0) eq_refl eq_refl Hstep)
    as ((_ & _ & R & _) & _ & (_ & _ & D & _) & _).
  split; [exact R | exact D].
Defined.

(** C7 (as stated) fails for the vertical moves: on the 1920 x 1080 sample
    a move down from y = 0 ends at y = 192, a tenth of the width, and not at
    the 108 that a tenth of the screen height would give. *)
Lemma move_vertical_step_counterexample :
  let h := windowHelper (app Sample.started) in
  let h' := windowHelper (app (snd (AppState.moveWindowDown Sample.started))) in
  screenHeight h = 1080 /\ currentY h = 0 /\
  WindowHelper.windowHeight_or_zero h = 600 /\
  currentY h' = 192 /\
  ~ currentY h'
    == Math_min (screenHeight h - WindowHelper.windowHeight_or_zero h / 2)
                (currentY h + screenHeight h / 10).
Proof.
  repeat split; try reflexivity.
  intros H. vm_compute in H. discriminate H.
Qed.

End WindowMoves.

(** ** Shortcuts and window operations without a window *)

Section NoWindow.

Lemma bind_ok {S A B} (c : M S A) (k : A -> M S B) (s s' : S) (a : A) :
  c s = (Ok a, s') -> bind c k s = k a s'.
Proof. unfold bind. now intros ->. Qed.

Lemma bind_throw {S A B} (c : M S A) (k : A -> M S B) (s s' : S) (e : JsError) :
  c s = (Throw e, s') -> bind c k s = (Throw e, s').
Proof. unfold bind. now intros ->. Qed.

(** Once the cancellation has returned, the reset handler goes on as if it
    had had nothing to cancel. *)
Lemma onCommandR_after_cancel (cancel : M World unit) (w w1 : World) :
  cancel w = (Ok tt, w1) ->
  ShortcutsHelper.onCommandR cancel w = ShortcutsHelper.onCommandR (ret tt) w1.
Proof.
  intros H. unfold ShortcutsHelper.onCommandR.
  now rewrite (bind_ok _ _ _ _ _ H).
Qed.

Lemma trimStart_blank (s : string) : blank s -> trimStart s = "".
Proof.
  unfold blank. induction s as [|c s IH]; intros H; [reflexivity|].
  simpl. rewrite (H c) by (simpl; auto). apply IH.
  intros c' Hc'. apply H. simpl. auto.
Qed.

Lemma trim_blank (s : string) : blank s -> falsy (trim s) = true.
Proof. intros H. unfold trim. now rewrite (trimStart_blank s H). Qed.

Example trim_examples :
  trim "" = "" /\ falsy (trim "   ") = true /\ trim "  two sum " = "two sum".
Proof. repeat split. Qed.

Lemma window_operations_gone (w : World) :
  window_gone w ->
  no_op AppState.hideMainWindow tt w /\
  no_op AppState.showMainWindow tt w /\
  no_op AppState.toggleMainWindow tt w /\
  (forall reqWidth reqHeight,
      no_op (AppState.setWindowDimensions reqWidth reqHeight) tt w).
Proof.
  unfold window_gone, no_op. intros Hgone. open_world w.
  destruct mw as [win|].
  - destruct win; simpl in *; subst.
    repeat split; intros; run_app; try reflexivity.
    destruct vis; reflexivity.
  - repeat split; intros; run_app; try reflexivity.
    destruct vis; reflexivity.
Qed.

Lemma moves_without_window (w : World) :
  mainWindow (windowHelper (app w)) = None ->
  no_op AppState.moveWindowLeft tt w /\
  no_op AppState.moveWindowRight tt w /\
  no_op AppState.moveWindowDown tt w /\
  no_op AppState.moveWindowUp tt w.
Proof.
  unfold no_op. intros Hnone. open_world w. subst.
  repeat split; run_app; reflexivity.
Qed.

(** C9 (as amended).  With no main window, or with a destroyed one, hide,
    show, toggle and [setWindowDimensions] return normally and leave the
    world as it was.  With no main window the four moves do so too, and so
    do the capture, move and toggle-visibility shortcuts and the solve
    shortcut on a blank text query; the toggle-mode and reset shortcuts
    return normally and send nothing, and update the application state all
    the same (the mode flips; reset goes on once the cancellation has
    returned). *)
Theorem gone_window_operations
    (cancelOngoingRequests processQuery : M World unit) (MAX_SCREENSHOTS : nat)
    (w : World) :
  window_gone w ->
  (no_op AppState.hideMainWindow tt w /\
   no_op AppState.showMainWindow tt w /\
   no_op AppState.toggleMainWindow tt w /\
   (forall reqWidth reqHeight,
       no_op (AppState.setWindowDimensions reqWidth reqHeight) tt w)) /\
  (mainWindow (windowHelper (app w)) = None ->
   (no_op AppState.moveWindowLeft tt w /\
    no_op AppState.moveWindowRight tt w /\
    no_op AppState.moveWindowDown tt w /\
    no_op AppState.moveWindowUp tt w) /\
   forall k : ShortcutsHelper.Shortcut,
     let handler :=
       ShortcutsHelper.trigger cancelOngoingRequests processQuery MAX_SCREENSHOTS k in
     match k with
     | ShortcutsHelper.CommandEnter =>
         mode (app w) = text -> blank (textQuery (app w)) -> no_op handler tt w
     | ShortcutsHelper.CommandShiftT =>
         fst (handler w) = Ok tt /\
         outbox (snd (handler w)) = outbox w /\
         mode (app (snd (handler w)))
         = match mode (app w) with screenshot => text | text => screenshot end
     | ShortcutsHelper.CommandR =>
         forall w1,
           cancelOngoingRequests w = (Ok tt, w1) ->
           mainWindow (windowHelper (app w1)) = None ->
           fst (handler w) = Ok tt /\ outbox (snd (handler w)) = outbox w1 /\
           screenshotQueue (screenshotHelper (app (snd (handler w)))) = [] /\
           extraScreenshotQueue (screenshotHelper (app (snd (handler w)))) = [] /\
           problemInfo (app (snd (handler w))) = None /\
           view (app (snd (handler w))) = queue
     | _ => no_op handler tt w
     end).
Proof.
  intros Hgone. split; [now apply window_operations_gone|].
  intros Hnone. split; [now apply moves_without_window|].
  intros k handler. subst handler.
  destruct k; unfold no_op.
  - open_world w; subst. run_app. reflexivity.
  - intros Hmode Hblank. apply trim_blank in Hblank.
    open_world w; subst. run_app. rewrite Hblank. reflexivity.
  - intros w1 Hcancel Hnone1.
    unfold ShortcutsHelper.trigger.
    rewrite (onCommandR_after_cancel _ _ _ Hcancel).
    open_world w1; subst. run_app. repeat split.
  - open_world w; subst. run_app. reflexivity.
  - open_world w; subst. run_app. reflexivity.
  - open_world w; subst. run_app. reflexivity.
  - open_world w; subst. run_app. reflexivity.
  - open_world w; subst. run_app. destruct vis; reflexivity.
  - open_world w; subst. run_app. repeat split.
Qed.

(** Before the window exists, and again once it is destroyed. *)
Lemma gone_window_operations_witness :
  window_gone Sample.fresh /\
  window_gone Sample.destroyed /\
  no_op AppState.toggleMainWindow tt Sample.destroyed /\
  no_op (ShortcutsHelper.trigger ProcessingHelper.cancelOngoingRequests (ret tt) 5
           ShortcutsHelper.CommandLeft) tt Sample.fresh.
Proof.
  assert (Hfresh : window_gone Sample.fresh) by exact I.
  assert (Hdestroyed : window_gone Sample.destroyed) by reflexivity.
  split; [exact Hfresh|]. split; [exact Hdestroyed|]. split.
  - exact (proj1 (proj2 (proj2 (proj1
      (gone_window_operations ProcessingHelper.cancelOngoingRequests (ret tt) 5
         Sample.destroyed Hdestroyed))))).
  - exact (proj2 (proj2
      (gone_window_operations ProcessingHelper.cancelOngoingRequests (ret tt) 5
         Sample.fresh Hfresh) eq_refl) ShortcutsHelper.CommandLeft).
Defined.

(** The moves test the window for [null] only.  On a window that is
    destroyed and not yet forgotten, a move right changes [currentX] and then
    throws at [setPosition]. *)
Example move_on_destroyed_window :
  window_gone Sample.destroyed /\
  fst (AppState.moveWindowRight Sample.destroyed)
  = Throw (Error "Object has been destroyed") /\
  currentX (windowHelper (app Sample.destroyed)) = 0%Q /\
  currentX (windowHelper (app (snd (AppState.moveWindowRight Sample.destroyed))))
  = 192%Q.
Proof. repeat split. Qed.

(** C9 (as stated) fails: with no main window the toggle-mode shortcut
    still flips the mode, and the reset shortcut still clears the queues,
    the problem and the view; neither is a no-op. *)
Lemma no_window_shortcut_counterexample :
  let no_window :=
    with_app (with_windowHelper (set_mainWindow None)) Sample.solved in
  mainWindow (windowHelper (app Sample.fresh)) = None /\
  mode (app Sample.fresh) = screenshot /\
  mode (app (snd (ShortcutsHelper.onCommandShiftT Sample.fresh))) = text /\
  ~ no_op ShortcutsHelper.onCommandShiftT tt Sample.fresh /\
  mainWindow (windowHelper (app no_window)) = None /\
  screenshotQueue (screenshotHelper (app no_window)) = ["/shots/1.png"] /\
  screenshotQueue (screenshotHelper (app
    (snd (ShortcutsHelper.onCommandR (ret tt) no_window)))) = [] /\
  ~ no_op (ShortcutsHelper.onCommandR (ret tt)) tt no_window.
Proof.
  repeat split.
  - intros H. apply (f_equal (fun o => mode (app (snd o)))) in H. discriminate H.
  - intros H.
    apply (f_equal (fun o => screenshotQueue (screenshotHelper (app (snd o))))) in H.
    discriminate H.
Qed.

End NoWindow.

(** ** The reset and solve shortcuts *)

Section Shortcuts.

(** The handlers hold for whatever the absent [ProcessingHelper] does. *)
Variable cancelOngoingRequests : M World unit.
Variable processQuery : M World unit.

(** C1.  Whatever the state before, once the cancellation has returned the
    reset handler returns normally in a state where both screenshot queues
    are empty, the problem info is [null] and the view is the initial
    ["queue"]; it sends "reset-view" last (when the window is live), so the
    notification leaves from that very state. *)
Theorem reset_clears_before_notifying (w w1 : World) :
  cancelOngoingRequests w = (Ok tt, w1) ->
  let out := ShortcutsHelper.onCommandR cancelOngoingRequests w in
  let a := app (snd out) in
  fst out = Ok tt /\
  screenshotQueue (screenshotHelper a) = [] /\
  extraScreenshotQueue (screenshotHelper a) = [] /\
  problemInfo a = None /\
  view a = queue /\ view a = view AppState.initial /\
  outbox (snd out)
  = (outbox w1 ++ if window_live w1 then [mkSent "reset-view" NoPayload a] else [])%list.
Proof.
  intros Hcancel. rewrite (onCommandR_after_cancel _ _ _ Hcancel).
  unfold window_live. open_world w1.
  destruct mw as [[b mnw mnh [|] sh fo lv]|]; run_app;
    repeat split; now rewrite ?app_nil_r.
Qed.

(** C4.  In text mode with a blank query the solve shortcut does not reach
    [processQuery], the only way to the API: its outcome is the same
    whatever [processQuery] is.  It leaves the [AppState] and the files as
    they were; with a live main window it returns normally having sent
    exactly the no-query notification, and with no window it sends
    nothing. *)
Theorem blank_text_query_is_not_processed (w : World) :
  mode (app w) = text ->
  blank (textQuery (app w)) ->
  let out := ShortcutsHelper.onCommandEnter processQuery w in
  (forall other : M World unit, ShortcutsHelper.onCommandEnter other w = out) /\
  app (snd out) = app w /\
  files (snd out) = files w /\
  (window_live w = true ->
   fst out = Ok tt /\
   outbox (snd out)
   = (outbox w ++ [mkSent PROCESSING_EVENTS_NO_QUERY NoPayload (app w)])%list) /\
  (mainWindow (windowHelper (app w)) = None -> out = (Ok tt, w)).
Proof.
  intros Hmode Hblank. apply trim_blank in Hblank.
  unfold window_live. open_world w. subst.
  destruct mw as [[b mnw mnh [|] sh fo lv]|]; run_app; rewrite Hblank; simpl;
    repeat split; intros; try discriminate; reflexivity.
Qed.

(** C10.  [AppState.clearQueues] returns normally and changes nothing but
    the screenshot queues, the problem info and the view: the mode, the text
    query and [hasDebugged] stay, and with them the fraction of the work
    area [setWindowDimensions] allows; so do the window helper, the
    processing helper and the notifications sent.  The reset
    shortcut adds nothing to that: after it the three fields are what the
    cancellation left. *)
Theorem clearQueues_frame (w : World) :
  let w' := snd (AppState.clearQueues w) in
  let reset := snd (ShortcutsHelper.onCommandR cancelOngoingRequests w) in
  let cancelled := snd (cancelOngoingRequests w) in
  fst (AppState.clearQueues w) = Ok tt /\
  mode (app w') = mode (app w) /\
  textQuery (app w') = textQuery (app w) /\
  hasDebugged (app w') = hasDebugged (app w) /\
  WindowHelper.widthFraction (hasDebugged (app w'))
  = WindowHelper.widthFraction (hasDebugged (app w)) /\
  windowHelper (app w') = windowHelper (app w) /\
  processingHelper (app w') = processingHelper (app w) /\
  workAreaSize w' = workAreaSize w /\ platform w' = platform w /\
  outbox w' = outbox w /\
  mode (app reset) = mode (app cancelled) /\
  textQuery (app reset) = textQuery (app cancelled) /\
  hasDebugged (app reset) = hasDebugged (app cancelled).
Proof.
  intros w' reset cancelled.
  assert (Hframe : fst (AppState.clearQueues w) = Ok tt /\
            mode (app w') = mode (app w) /\
            textQuery (app w') = textQuery (app w) /\
            hasDebugged (app w') = hasDebugged (app w) /\
            windowHelper (app w') = windowHelper (app w) /\
            processingHelper (app w') = processingHelper (app w) /\
            workAreaSize w' = workAreaSize w /\ platform w' = platform w /\
            outbox w' = outbox w).
  { subst w'. open_world w. run_app. repeat split. }
  destruct Hframe as (H1 & H2 & H3 & H4 & H5 & H6 & H7 & H8 & H9).
  repeat (split; [assumption|]).
  split; [now rewrite H4|].
  repeat (split; [assumption|]).
  subst reset cancelled.
  destruct (cancelOngoingRequests w) as [[[]|e] w1] eqn:Hcancel.
  - rewrite (onCommandR_after_cancel _ _ _ Hcancel). simpl.
    open_world w1. destruct mw as [[b mnw mnh [|] sh fo lv]|]; run_app;
      repeat split.
  - unfold ShortcutsHelper.onCommandR. rewrite (bind_throw _ _ _ _ _ Hcancel).
    repeat split.
Qed.

End Shortcuts.

Section ShortcutSamples.

(** A session with both queues filled, a problem, the solutions view and a
    request in flight is reset, with the spec's cancellation. *)
Lemma reset_clears_before_notifying_witness :
  let out := ShortcutsHelper.onCommandR ProcessingHelper.cancelOngoingRequests
               Sample.solved in
  let a := app (snd out) in
  screenshotQueue (screenshotHelper (app Sample.solved)) = ["/shots/1.png"] /\
  view (app Sample.solved) = solutions /\
  fst out = Ok tt /\
  screenshotQueue (screenshotHelper a) = [] /\
  extraScreenshotQueue (screenshotHelper a) = [] /\
  problemInfo a = None /\
  view a = queue /\
  outbox (snd out) = [mkSent "reset-view" NoPayload a].
Proof.
  split; [reflexivity|]. split; [reflexivity|].
  destruct (reset_clears_before_notifying ProcessingHelper.cancelOngoingRequests
              Sample.solved
              (snd (ProcessingHelper.cancelOngoingRequests Sample.solved)) eq_refl)
    as (H1 & H2 & H3 & H4 & H5 & _ & H6).
  split; [exact H1|]. split; [exact H2|]. split; [exact H3|].
  split; [exact H4|]. split; [exact H5|]. exact H6.
Defined.

(** The solve shortcut on a query of two blanks. *)
Lemma blank_text_query_is_not_processed_witness :
  mode (app Sample.blank_query) = text /\
  textQuery (app Sample.blank_query) = "  " /\
  outbox (snd (ShortcutsHelper.onCommandEnter (throw (Error "unreachable"))
                 Sample.blank_query))
  = [mkSent PROCESSING_EVENTS_NO_QUERY NoPayload (app Sample.blank_query)].
Proof.
  split; [reflexivity|]. split; [reflexivity|].
  assert (Hblank : blank (textQuery (app Sample.blank_query))).
  { intros c [<-|[<-|[]]]; reflexivity. }
  exact (proj2 (proj1 (proj2 (proj2 (proj2
    (blank_text_query_is_not_processed (throw (Error "unreachable"))
       Sample.blank_query eq_refl Hblank)))) eq_refl)).
Defined.

(** After a debug pass the 75% bound outlives a reset: on the 1920-wide
    sample an oversized request is still cut to 1440. *)
Example debugged_bound_outlives_reset :
  hasDebugged (app Sample.solved) = true /\
  windowSize (windowHelper (app (snd
    (AppState.setWindowDimensions 50000%Q 0%Q (snd (AppState.clearQueues Sample.solved))))))
  = Some (mkSize 1440%Q 100%Q).
Proof. split; reflexivity. Qed.

End ShortcutSamples.

(** ** The OpenAI handlers: HTTP 429 and the parse retry *)

(** Runs a handler of the OpenAI module. *)
Ltac run_handler :=
  unfold ProblemHandler.run, ProblemHandler.processTextQuery,
    ProblemHandler.extractProblemInfo, ProblemHandler.generateSolutionResponses,
    ProblemHandler.debugSolutionResponses, ProblemHandler.axios_post,
    ProblemHandler.JSON_parse_call;
  cbv [bind ret throw get gets modify try_catch]; simpl.

Section OpenAI.
Import ProblemHandler.

Variable JSON_parse : string -> option json.

Lemma status_is_429 (e : JsError) :
  status_is 429 e = true -> status_is 404 e = false /\ status_is 401 e = false.
Proof.
  unfold status_is. destruct (response e) as [r|]; [|discriminate].
  intros H. apply Z.eqb_eq in H. rewrite H. split; reflexivity.
Qed.

(** The three handlers whose 429 branch is reachable. *)
Lemma rate_limit_out_of_credits (op : Operation) (key : option string)
    (e : JsError) (log : list Call) :
  op <> Debug ->
  key_missing key = false ->
  status_is 429 e = true ->
  exists e',
    fst (run JSON_parse op key (Rejects e) log) = Throw e' /\
    is_out_of_credits e' = true.
Proof.
  intros Hop Hkey H429.
  destruct op; try congruence; run_handler; rewrite Hkey; simpl;
    rewrite H429; eexists; split; reflexivity.
Qed.

(** [debugSolutionResponses] tests 404, then 401, then 401 again: the
    out-of-credits branch is dead and a 429 falls to the last one. *)
Lemma rate_limit_debug (key : option string) (images : list string)
    (info : json) (e : JsError) (log : list Call) :
  key_missing key = false ->
  status_is 429 e = true ->
  fst (debugSolutionResponses JSON_parse key images info (Rejects e) log)
  = Throw (Error ("OpenAI API error: " ++ upstream_message e)) /\
  is_out_of_credits (Error ("OpenAI API error: " ++ upstream_message e)) = false.
Proof.
  intros Hkey H429. destruct (status_is_429 e H429) as [H404 H401].
  run_handler. rewrite Hkey. simpl. rewrite H404, H401. split; reflexivity.
Qed.

Lemma debug_never_out_of_credits (key : option string) (images : list string)
    (info : json) (outcome : AxiosOutcome) (log : list Call) (e' : JsError) :
  fst (debugSolutionResponses JSON_parse key images info outcome log) = Throw e' ->
  is_out_of_credits e' = false.
Proof.
  run_handler. destruct (key_missing key); simpl.
  - intros [= <-]. reflexivity.
  - destruct outcome as [data|e]; simpl.
    + destruct (JSON_parse (function_call_arguments data)); simpl;
        [discriminate|intros [= <-]; reflexivity].
    + destruct (status_is 404 e); [intros [= <-]; reflexivity|].
      destruct (status_is 401 e); intros [= <-]; reflexivity.
Qed.

(** A body [JSON.parse] accepts is parsed once, on every path. *)
Lemma parsed_at_once (op : Operation) (key : option string)
    (data : ChatCompletion) (v : json) :
  key_missing key = false ->
  let body :=
    match op with
    | TextQuery | SolutionGeneration => content data
    | Extraction | Debug => function_call_arguments data
    end in
  JSON_parse body = Some v ->
  let out := run JSON_parse op key (Resolves data) [] in
  fst out = Ok v /\ parses (snd out) = [body].
Proof.
  intros Hkey body Hparse. subst body.
  destruct op; run_handler; rewrite Hkey; simpl; rewrite Hparse; split; reflexivity.
Qed.

(** C5 (as amended).  Only [processTextQuery] retries: when [JSON.parse]
    rejects the content, it removes every run of three single quotes
    followed by letters and parses the result, once; what that second parse
    gives or throws is the outcome.  [extractProblemInfo],
    [generateSolutionResponses] and [debugSolutionResponses] parse once and
    throw when that fails. *)
Theorem only_text_query_retries_parse (key : option string) (data : ChatCompletion) :
  key_missing key = false ->
  (JSON_parse (content data) = None ->
   let retried := replace_quoted_language false (content data) in
   let out := run JSON_parse TextQuery key (Resolves data) [] in
   parses (snd out) = [content data; retried] /\
   fst out = match JSON_parse retried with
             | Some v => Ok v
             | None => Throw (Error "SyntaxError: Unexpected token in JSON")
             end) /\
  (JSON_parse (content data) = None ->
   let out := run JSON_parse SolutionGeneration key (Resolves data) [] in
   parses (snd out) = [content data] /\
   fst out = Throw (Error
     "Error generating solutions: SyntaxError: Unexpected token in JSON")) /\
  (JSON_parse (function_call_arguments data) = None ->
   let out := run JSON_parse Extraction key (Resolves data) [] in
   parses (snd out) = [function_call_arguments data] /\
   fst out = Throw (Error "SyntaxError: Unexpected token in JSON")) /\
  (JSON_parse (function_call_arguments data) = None ->
   let out := run JSON_parse Debug key (Resolves data) [] in
   parses (snd out) = [function_call_arguments data] /\
   fst out = Throw (Error
     "OpenAI API error: SyntaxError: Unexpected token in JSON")).
Proof.
  intros Hkey. split; [|split; [|split]]; intros Hparse;
    run_handler; rewrite Hkey; simpl; rewrite Hparse; simpl.
  - destruct (JSON_parse (replace_quoted_language false (content data)));
      split; reflexivity.
  - split; reflexivity.
  - split; reflexivity.
  - split; reflexivity.
Qed.

End OpenAI.

Section OpenAISamples.
Import ProblemHandler.

(** C2, at an HTTP 429 during a debug pass: [debugSolutionResponses] throws
    the generic "OpenAI API error" with the upstream message, which is not
    the out-of-credits condition its three siblings raise on the same
    response. *)
Theorem debug_rate_limit_is_generic_failure :
  fst (run JSON.parse Debug (Some "sk-test") Sample.rate_limited [])
  = Throw (Error "OpenAI API error: Rate limit reached") /\
  is_out_of_credits (Error "OpenAI API error: Rate limit reached") = false /\
  fst (run JSON.parse TextQuery (Some "sk-test") Sample.rate_limited [])
  = Throw (Error "API Key out of credits") /\
  fst (run JSON.parse Extraction (Some "sk-test") Sample.rate_limited [])
  = Throw (Error out_of_credits_long) /\
  fst (run JSON.parse SolutionGeneration (Some "sk-test") Sample.rate_limited [])
  = Throw (Error out_of_credits_long) /\
  is_out_of_credits (Error "API Key out of credits") = true /\
  is_out_of_credits (Error out_of_credits_long) = true.
Proof. repeat split. Qed.

(** A reply that opens with the marker and is JSON without it. *)
Lemma only_text_query_retries_parse_witness :
  JSON.parse "'''json{}" = None /\
  replace_quoted_language false "'''json{}" = "{}" /\
  parses (snd (run JSON.parse TextQuery (Some "sk-test") Sample.quoted_reply []))
  = ["'''json{}"; "{}"] /\
  fst (run JSON.parse TextQuery (Some "sk-test") Sample.quoted_reply [])
  = Ok (JObject []) /\
  parses (snd (run JSON.parse Debug (Some "sk-test") Sample.quoted_reply []))
  = ["'''json{}"].
Proof.
  assert (Hbody : JSON.parse "'''json{}" = None) by reflexivity.
  split; [exact Hbody|]. split; [reflexivity|].
  destruct (only_text_query_retries_parse JSON.parse (Some "sk-test")
              (mkChatCompletion "'''json{}" "'''json{}") eq_refl)
    as (Htext & _ & _ & Hdebug).
  destruct (Htext Hbody) as [H1 H2]. destruct (Hdebug Hbody) as [H3 _].
  split; [exact H1|]. split; [exact H2|]. exact H3.
Defined.

(** C5 (as stated) fails on the solution and extraction paths: the reply
    that [processTextQuery] recovers by its retry is parsed once by
    [generateSolutionResponses] and by [extractProblemInfo], which throw. *)
Lemma solution_parse_not_retried_counterexample :
  let body := "'''json{}" in
  JSON.parse body = None /\
  JSON.parse (replace_quoted_language false body) = Some (JObject []) /\
  fst (run JSON.parse TextQuery (Some "sk-test") Sample.quoted_reply [])
  = Ok (JObject []) /\
  parses (snd (run JSON.parse SolutionGeneration (Some "sk-test") Sample.quoted_reply []))
  = [body] /\
  fst (run JSON.parse SolutionGeneration (Some "sk-test") Sample.quoted_reply [])
  = Throw (Error "Error generating solutions: SyntaxError: Unexpected token in JSON") /\
  parses (snd (run JSON.parse Extraction (Some "sk-test") Sample.quoted_reply []))
  = [body] /\
  fst (run JSON.parse Extraction (Some "sk-test") Sample.quoted_reply [])
  = Throw (Error "SyntaxError: Unexpected token in JSON").
Proof. repeat split. Qed.

(** What the retry removes is the marker of the code's comment, three single
    quotes and a language; a Markdown fence of backquotes stays. *)
Example replace_quoted_language_examples :
  replace_quoted_language false "'''json{}'''" = "{}'''" /\
  replace_quoted_language false "```json{}```" = "```json{}```" /\
  replace_quoted_language false "''''py x '''9" = "' x '''9".
Proof. repeat split. Qed.

End OpenAISamples.

(** ** The subscriptions of the preload bridge *)

Section Subscriptions.
Import Preload.

Lemma remove_last_added (f cb : nat) (ls : list Listener) :
  remove_last f (ls ++ [mkListener f cb]) = ls.
Proof.
  unfold remove_last. rewrite rev_app_distr. simpl.
  rewrite Nat.eqb_refl. apply rev_involutive.
Qed.

Lemma remove_first_absent (f : nat) (ls : list Listener) :
  (forall l, In l ls -> fn l <> f) -> remove_first f ls = ls.
Proof.
  induction ls as [|l ls IH]; intros H; [reflexivity|].
  simpl. destruct (Nat.eqb_spec (fn l) f) as [E|_].
  - exfalso. apply (H l); [now left|exact E].
  - f_equal. apply IH. intros l' Hl'. apply H. now right.
Qed.

Lemma remove_last_absent (f : nat) (ls : list Listener) :
  (forall l, In l ls -> fn l <> f) -> remove_last f ls = ls.
Proof.
  intros H. unfold remove_last. rewrite remove_first_absent.
  - apply rev_involutive.
  - intros l Hl. apply H. now apply in_rev.
Qed.

Lemma listeners_on_events (ch : string) (m : gmap string (list Listener))
    (n : nat) (i : list (nat * string)) :
  listeners_on ch (mkIpcRenderer m n i) = default [] (m !! ch).
Proof. reflexivity. Qed.

Lemma listeners_on_insert (ch ch' : string) (ls : list Listener)
    (m : gmap string (list Listener)) (n : nat) (i : list (nat * string)) :
  listeners_on ch' (mkIpcRenderer (<[ch := ls]> m) n i)
  = if decide (ch = ch') then ls else listeners_on ch' (mkIpcRenderer m n i).
Proof.
  unfold listeners_on. simpl. rewrite lookup_insert.
  destruct (decide (ch = ch')); reflexivity.
Qed.

(** The pattern of every subscription but [onDebugSuccess]: the handle takes
    out the listener the subscription put in, and nothing else changes but
    the supply of function identities. *)
Lemma subscribe_then_unsubscribe (ch : string) (callback : nat) (r : IpcRenderer) :
  exists (unsubscribe : Unsubscribe) (r1 r2 : IpcRenderer),
    subscribe ch callback r = (Ok unsubscribe, r1) /\
    listeners_on ch r1 = (listeners_on ch r ++ [mkListener (next_function r) callback])%list /\
    unsubscribe r1 = (Ok tt, r2) /\
    (forall ch', listeners_on ch' r2 = listeners_on ch' r) /\
    invocations r2 = invocations r.
Proof.
  destruct r as [m n i].
  unfold subscribe, new_function, on.
  cbv [bind ret modify]. cbn [events next_function invocations].
  do 3 eexists. split; [reflexivity|]. split.
  { rewrite listeners_on_insert. now destruct (decide (ch = ch)). }
  unfold removeListener, modify. cbn [events next_function invocations].
  rewrite lookup_insert_eq, remove_last_added, !listeners_on_events.
  split; [reflexivity|].
  destruct (m !! ch) as [ls|] eqn:Hm; cbn [default from_option id].
  - destruct ls as [|l ls]; (split; [|reflexivity]); intros ch';
      rewrite !listeners_on_events.
    + rewrite delete_insert_eq.
      destruct (decide (ch = ch')) as [<-|Hne].
      * now rewrite lookup_delete_eq, Hm.
      * now rewrite lookup_delete_ne.
    + rewrite insert_insert_eq.
      destruct (decide (ch = ch')) as [<-|Hne].
      * now rewrite lookup_insert_eq, Hm.
      * now rewrite lookup_insert_ne.
  - split; [|reflexivity]. intros ch'. rewrite !listeners_on_events.
    rewrite delete_insert_eq.
    destruct (decide (ch = ch')) as [<-|Hne].
    + now rewrite lookup_delete_eq, Hm.
    + now rewrite lookup_delete_ne.
Qed.

(** After its handle has run, such a subscription is as if it had never
    been made: a later notification reaches the callbacks that were
    registered before, and no other. *)
Lemma subscription_released (s : Subscription) (callback : nat) (data : string)
    (r : IpcRenderer) :
  s <> DebugSuccess ->
  let out := subscribe_unsubscribe_emit s callback data r in
  fst out = Ok tt /\
  invocations (snd out) = invocations (snd (emit (channel_of s) data r)) /\
  forall ch, listeners_on ch (snd out) = listeners_on ch r.
Proof.
  intros Hs.
  assert (Hsub : electronAPI s = subscribe (channel_of s))
    by (destruct s; try reflexivity; congruence).
  unfold subscribe_unsubscribe_emit. rewrite Hsub.
  destruct (subscribe_then_unsubscribe (channel_of s) callback r)
    as (u & r1 & r2 & H1 & _ & H2 & H3 & H4).
  rewrite (bind_ok _ _ _ _ _ H1), (bind_ok _ _ _ _ _ H2).
  unfold emit, modify. simpl. rewrite H3, H4. repeat split. exact H3.
Qed.

(** Removing a function that is not registered changes nothing. *)
Lemma removeListener_absent (ch : string) (f : nat) (r : IpcRenderer)
    (ls : list Listener) :
  events r !! ch = Some ls ->
  ls <> [] ->
  (forall l, In l ls -> fn l <> f) ->
  removeListener ch f r = (Ok tt, r).
Proof.
  intros Hls Hne Habsent. destruct r as [m n i]. cbn [events] in Hls.
  unfold removeListener, modify. cbn [events next_function invocations].
  rewrite Hls, (remove_last_absent f ls Habsent).
  destruct ls as [|l ls']; [congruence|].
  now rewrite (insert_id m ch (l :: ls') Hls).
Qed.

(** [onDebugSuccess] on a well-formed emitter: the handle removes a function
    that was never registered, so the listener stays. *)
Lemma onDebugSuccess_listener_stays (callback : nat) (r : IpcRenderer) :
  well_formed r ->
  exists (unsubscribe : Unsubscribe) (r1 r2 : IpcRenderer),
    onDebugSuccess callback r = (Ok unsubscribe, r1) /\
    unsubscribe r1 = (Ok tt, r2) /\
    listeners_on "debug-success" r2
    = (listeners_on "debug-success" r ++ [mkListener (next_function r) callback])%list /\
    invocations r2 = invocations r.
Proof.
  intros Hwf. destruct r as [m n i]. unfold well_formed in Hwf.
  cbn [events next_function] in Hwf.
  unfold onDebugSuccess, new_function, on.
  cbv [bind ret modify]. cbn [events next_function invocations].
  rewrite listeners_on_events.
  set (ls := (default [] (m !! "debug-success") ++ [mkListener n callback])%list).
  exists (do other <- new_function; removeListener "debug-success" other).
  exists (mkIpcRenderer (<["debug-success" := ls]> m) (S n) i).
  exists (mkIpcRenderer (<["debug-success" := ls]> m) (S (S n)) i).
  split; [reflexivity|]. split.
  - unfold new_function. cbv [bind]. cbn [events next_function invocations].
    apply (removeListener_absent _ _ _ ls).
    + cbn [events]. apply lookup_insert_eq.
    + subst ls. now destruct (default [] (m !! "debug-success")).
    + intros l Hl. subst ls.
      apply in_app_or in Hl. destruct Hl as [Hl|[<-|[]]]; cbn [fn]; [|lia].
      destruct (m !! "debug-success") as [ls|] eqn:Hm; [|destruct Hl].
      specialize (Hwf _ _ _ Hm Hl). lia.
  - split; [|reflexivity].
    rewrite !listeners_on_events. now rewrite lookup_insert_eq.
Qed.

(** C6, at [onDebugSuccess]: subscribe a callback, call the handle, and let
    a "debug-success" arrive: the listener is still registered and the
    callback runs.  [onDebugError], written after the common pattern,
    releases its callback. *)
Theorem onDebugSuccess_unsubscribe_keeps_listener :
  let out := subscribe_unsubscribe_emit DebugSuccess 7 "fixed" empty in
  fst out = Ok tt /\
  invocations (snd out) = [(7, "fixed")] /\
  listeners_on "debug-success" (snd out) = [mkListener 0 7] /\
  invocations (snd (subscribe_unsubscribe_emit DebugError 7 "failed" empty)) = [] /\
  listeners_on "debug-error" (snd (subscribe_unsubscribe_emit DebugError 7 "failed" empty))
  = [].
Proof. vm_compute. repeat split. Qed.

End Subscriptions.

(** ** The Screenshot Store *)

(** Names the fields of the world and of its store. *)
Ltac open_store w :=
  destruct w as [[[mw vis ? ? ? ? ? ? ? ?] [sv q e] ? ? ? ? ? ?] ? os fs ?];
  simpl in *.

Section ScreenshotStore.

Variable MAX_SCREENSHOTS : nat.

Lemma in_push_bounded (path p : string) (q : list string) :
  In p (ScreenshotHelper.push_bounded MAX_SCREENSHOTS path q) -> p = path \/ In p q.
Proof.
  unfold ScreenshotHelper.push_bounded.
  destruct (Nat.ltb MAX_SCREENSHOTS (List.length (q ++ [path]))); intros H.
  - destruct q as [|x q]; simpl in H; [destruct H|].
    apply in_app_or in H. destruct H as [H|[<-|[]]]; [right; now right|now left].
  - apply in_app_or in H. destruct H as [H|[<-|[]]]; [now right|now left].
Qed.

Lemma in_without (path p : string) (q : list string) :
  In p (ScreenshotHelper.without path q) -> In p q /\ p <> path.
Proof.
  unfold ScreenshotHelper.without. intros H. apply filter_In in H.
  destruct H as [Hin Hne]. split; [exact Hin|].
  intros ->. now rewrite String.eqb_refl in Hne.
Qed.

Lemma is_queued_false (path : string) (s : ScreenshotHelper) :
  ~ In path (screenshotQueue s ++ extraScreenshotQueue s)%list ->
  ScreenshotHelper.is_queued path s = false.
Proof.
  unfold ScreenshotHelper.is_queued. intros Hnot.
  destruct (existsb _ _) eqn:E; [|reflexivity].
  apply existsb_exists in E. destruct E as (x & Hx & Heq).
  apply String.eqb_eq in Heq. now subst.
Qed.

(** The bounded queue: insertion order, and the oldest record goes first. *)
Example push_bounded_evicts_oldest :
  ScreenshotHelper.push_bounded 2 "c.png" ["a.png"; "b.png"] = ["b.png"; "c.png"] /\
  ScreenshotHelper.push_bounded 2 "b.png" ["a.png"] = ["a.png"; "b.png"].
Proof. split; reflexivity. Qed.

Lemma stored_after_capture (path : string) (q q' e e' : list string)
    (fs : gset string) :
  (forall p, In p q' -> p = path \/ In p q) ->
  (forall p, In p e' -> p = path \/ In p e) ->
  (forall p, In p (q ++ e)%list -> p ∈ fs) ->
  forall p, In p (q' ++ e')%list -> p ∈ ({[ path ]} ∪ fs : gset string).
Proof.
  intros Hq He Hstored p Hin. apply in_app_or in Hin.
  destruct Hin as [Hin|Hin]; [apply Hq in Hin|apply He in Hin];
    (destruct Hin as [->|Hin]; [now apply elem_of_union_l, elem_of_singleton|]);
    apply elem_of_union_r, Hstored, in_or_app; auto.
Qed.

Lemma stored_after_delete (path : string) (q e : list string) (fs : gset string) :
  (forall p, In p (q ++ e)%list -> p ∈ fs) ->
  forall p,
    In p (ScreenshotHelper.without path q ++ ScreenshotHelper.without path e)%list ->
    p ∈ (fs ∖ {[ path ]} : gset string).
Proof.
  intros Hstored p Hin. apply in_app_or in Hin.
  destruct Hin as [Hin|Hin]; apply in_without in Hin; destruct Hin as [Hin Hne];
    apply elem_of_difference; split.
  - apply Hstored, in_or_app. now left.
  - rewrite elem_of_singleton. exact Hne.
  - apply Hstored, in_or_app. now right.
  - rewrite elem_of_singleton. exact Hne.
Qed.

Lemma step_keeps_queues_stored (op : Store.Op) (w : World) :
  Store.queues_stored w -> Store.queues_stored (Store.step MAX_SCREENSHOTS op w).
Proof.
  unfold Store.queues_stored. intros Hstored.
  destruct op as [path|path|v]; open_store w.
  - (* capture *)
    destruct mw as [[b mnw mnh [|] sh fo lv]|]; destruct sv; run_app;
      try exact Hstored;
      (eapply stored_after_capture; [| |exact Hstored]; intros p Hp;
       try (now apply in_push_bounded); auto).
  - (* delete *)
    run_app. unfold ScreenshotHelper.is_queued. simpl.
    destruct (existsb (String.eqb path) (q ++ e)); simpl;
      [now apply stored_after_delete|exact Hstored].
  - (* the view changes *)
    run_app. exact Hstored.
Qed.

Lemma run_keeps_queues_stored (ops : list Store.Op) (w : World) :
  Store.queues_stored w -> Store.queues_stored (Store.run MAX_SCREENSHOTS ops w).
Proof.
  unfold Store.run. revert w.
  induction ops as [|op ops IH]; intros w Hstored; simpl; [exact Hstored|].
  apply IH. now apply step_keeps_queues_stored.
Qed.

(** C8.  [deleteScreenshot] on a path that is in neither queue returns
    [{success: false}] and leaves the world - queues, files and all - as it
    was.  And whatever captures, deletions and view changes a session makes,
    from a state where every queued record has its file, every queued record
    still has its file: no queue holds a record whose file was deleted. *)
Theorem delete_absent_fails_and_queues_stored (w : World) :
  (forall path,
      ~ In path (screenshotQueue (screenshotHelper (app w))
                 ++ extraScreenshotQueue (screenshotHelper (app w)))%list ->
      exists reason,
        AppState.deleteScreenshot path w
        = (Ok (mkDeleteResult false (Some reason)), w)) /\
  (Store.queues_stored w ->
   forall ops, Store.queues_stored (Store.run MAX_SCREENSHOTS ops w)).
Proof.
  split.
  - intros path Hnot. apply is_queued_false in Hnot.
    open_store w. run_app. rewrite Hnot. eexists. reflexivity.
  - intros Hstored ops. now apply run_keeps_queues_stored.
Qed.

End ScreenshotStore.

Section ScreenshotStoreSamples.

Lemma solved_queues_stored : Store.queues_stored Sample.solved.
Proof.
  intros path [<-|[<-|[]]]; unfold Sample.solved; simpl.
  - now apply elem_of_union_l, elem_of_singleton.
  - now apply elem_of_union_r, elem_of_singleton.
Qed.

(** A session that captures a third screenshot with room for two, deletes
    the first one twice and asks for a path that never was. *)
Lemma delete_absent_fails_and_queues_stored_witness :
  let ops := [Store.Capture "/shots/3.png"; Store.SwitchView queue;
              Store.Delete "/shots/1.png"; Store.Delete "/shots/1.png"] in
  Store.queues_stored Sample.solved /\
  Store.queues_stored (Store.run 2 ops Sample.solved) /\
  fst (AppState.deleteScreenshot "/nowhere.png" Sample.solved)
  = Ok (mkDeleteResult false (Some "not found")) /\
  snd (AppState.deleteScreenshot "/nowhere.png" Sample.solved) = Sample.solved.
Proof.
  intros ops.
  destruct (delete_absent_fails_and_queues_stored 2 Sample.solved) as [Hdel Hrun].
  split; [exact solved_queues_stored|].
  split; [exact (Hrun solved_queues_stored ops)|].
  destruct (Hdel "/nowhere.png") as [reason Heq].
  - intros [H|[H|[]]]; discriminate H.
  - rewrite Heq. split; [|reflexivity]. simpl.
    revert Heq. unfold AppState.deleteScreenshot, ScreenshotHelper.deleteScreenshot.
    intros Heq. apply (f_equal fst) in Heq. vm_compute in Heq.
    now injection Heq as <-.
Defined.

(** What that session leaves: the extra queue took the capture and evicted
    nothing, the main queue lost its record, and its file is gone. *)
Example store_session :
  let w := Store.run 2 [Store.Capture "/shots/3.png"; Store.SwitchView queue;
                        Store.Delete "/shots/1.png"; Store.Delete "/shots/1.png"]
             Sample.solved in
  screenshotQueue (screenshotHelper (app w)) = [] /\
  extraScreenshotQueue (screenshotHelper (app w)) = ["/shots/2.png"; "/shots/3.png"] /\
  fst (AppState.deleteScreenshot "/shots/1.png" w)
  = Ok (mkDeleteResult false (Some "not found")).
Proof. vm_compute. repeat split. Qed.

End ScreenshotStoreSamples.


(* ===================================================================== *)
(** * Further properties of the code *)
(* ===================================================================== *)

(** ** The window: show and hide, creation, resizing, moves *)

Section WindowLife.
Local Open Scope Q_scope.

(** X1.  Hiding a live window and showing it again returns normally and
    gives the window back the very rectangle it had; in between the helper
    and the window are hidden, afterwards both are visible, and the helper
    has recorded the rectangle as the window's position and size. *)
Theorem hide_then_show_restores (w : World) (win : BrowserWindow) :
  mainWindow (windowHelper (app w)) = Some win ->
  isDestroyed win = false ->
  let hidden := snd (AppState.hideMainWindow w) in
  let out := (AppState.hideMainWindow;; AppState.showMainWindow) w in
  let h' := windowHelper (app (snd out)) in
  fst out = Ok tt /\
  isWindowVisible (windowHelper (app hidden)) = false /\
  (exists win0, mainWindow (windowHelper (app hidden)) = Some win0 /\
                isShown win0 = false) /\
  isWindowVisible h' = true /\
  windowPosition h' = Some (mkPoint (rx (bounds win)) (ry (bounds win))) /\
  windowSize h' = Some (mkSize (rwidth (bounds win)) (rheight (bounds win))) /\
  exists win',
    mainWindow h' = Some win' /\
    bounds win' = bounds win /\ isShown win' = true /\ isDestroyed win' = false.
Proof.
  intros Hwin Hlive. open_world w. subst.
  destruct win as [[x y wd ht] mnw mnh d sh fo lv]; simpl in *; subst.
  run_app.
  repeat split; eexists; repeat split; simpl; rewrite ?Math_max_held; reflexivity.
Qed.

Lemma hide_then_show_restores_witness :
  let out := (AppState.hideMainWindow;; AppState.showMainWindow) Sample.started in
  fst out = Ok tt /\
  exists win',
    mainWindow (windowHelper (app (snd out))) = Some win' /\
    bounds win' = mkRect 0 0 800 600 /\ isShown win' = true.
Proof.
  destruct (hide_then_show_restores Sample.started (WindowHelper.new_BrowserWindow 0)
              eq_refl eq_refl)
    as (Hok & _ & _ & _ & _ & _ & win' & Hwin' & Hb & Hs & _).
  split; [exact Hok|]. exists win'. split; [exact Hwin'|]. split; [exact Hb|exact Hs].
Defined.

(** X2.  [showMainWindow] on a live window returns normally, shows it and
    never changes whether it has the focus; when a position and a size are
    recorded, the window is given that rectangle, which it takes at the
    recorded position and no smaller than its minimum size. *)
Theorem show_keeps_focus (w : World) (win : BrowserWindow) :
  mainWindow (windowHelper (app w)) = Some win ->
  isDestroyed win = false ->
  let out := AppState.showMainWindow w in
  fst out = Ok tt /\
  isWindowVisible (windowHelper (app (snd out))) = true /\
  exists win',
    mainWindow (windowHelper (app (snd out))) = Some win' /\
    isFocused win' = isFocused win /\
    isShown win' = true /\
    bounds win'
    = match windowPosition (windowHelper (app w)), windowSize (windowHelper (app w)) with
      | Some p, Some s =>
          mkRect (px p) (py p) (Math_max (width s) (minWidth win))
                 (Math_max (height s) (minHeight win))
      | _, _ => bounds win
      end.
Proof.
  intros Hwin Hlive. open_world w. subst.
  destruct win as [b mnw mnh d sh fo lv]; simpl in *; subst.
  destruct pos as [p|], size as [s|], fo; run_app;
    repeat split; eexists; repeat split.
Qed.

(** A window for which 32 x 100 was recorded by a resize, hidden and shown
    again: it is shown at its minimum size. *)
Lemma show_keeps_focus_witness :
  let resized := snd (AppState.setWindowDimensions 0 0 Sample.started) in
  let hidden := snd (AppState.hideMainWindow resized) in
  let out := AppState.showMainWindow hidden in
  fst out = Ok tt /\
  exists win',
    mainWindow (windowHelper (app (snd out))) = Some win' /\
    isFocused win' = false /\ isShown win' = true /\
    bounds win' = mkRect 0 0 400 300.
Proof.
  cbv zeta.
  destruct (show_keeps_focus
              (snd (AppState.hideMainWindow
                      (snd (AppState.setWindowDimensions 0 0 Sample.started))))
              (mkWindow (mkRect 0 0 32 100) 400 300 false false false "floating")
              eq_refl eq_refl)
    as (Hok & _ & win' & Hwin' & Hf & Hs & Hb).
  split; [exact Hok|]. exists win'. split; [exact Hwin'|]. split; [exact Hf|].
  split; [exact Hs|]. rewrite Hb. vm_compute. reflexivity.
Defined.

(** X3.  [toggleMainWindow] on a live window flips [isWindowVisible] and
    leaves the window shown exactly when the helper says so; a second toggle
    brings the flag back. *)
Theorem toggle_flips_visibility (w : World) (win : BrowserWindow) :
  mainWindow (windowHelper (app w)) = Some win ->
  isDestroyed win = false ->
  let once := AppState.toggleMainWindow w in
  let twice := (AppState.toggleMainWindow;; AppState.toggleMainWindow) w in
  fst once = Ok tt /\
  isWindowVisible (windowHelper (app (snd once)))
  = negb (isWindowVisible (windowHelper (app w))) /\
  (exists win',
     mainWindow (windowHelper (app (snd once))) = Some win' /\
     isShown win' = negb (isWindowVisible (windowHelper (app w)))) /\
  fst twice = Ok tt /\
  isWindowVisible (windowHelper (app (snd twice)))
  = isWindowVisible (windowHelper (app w)).
Proof.
  intros Hwin Hlive. open_world w. subst.
  destruct win as [b mnw mnh d sh fo lv]; simpl in *; subst.
  destruct vis, pos as [p|], size as [s|], fo; run_app;
    repeat split; eexists; repeat split.
Qed.

Lemma toggle_flips_visibility_witness :
  isWindowVisible (windowHelper (app Sample.started)) = true /\
  isWindowVisible (windowHelper (app (snd (AppState.toggleMainWindow Sample.started))))
  = false /\
  isWindowVisible (windowHelper (app
    (snd ((AppState.toggleMainWindow;; AppState.toggleMainWindow) Sample.started))))
  = true.
Proof.
  destruct (toggle_flips_visibility Sample.started (WindowHelper.new_BrowserWindow 0)
              eq_refl eq_refl)
    as (_ & H1 & _ & _ & H2).
  split; [reflexivity|]. split; [exact H1|exact H2].
Defined.

(** X4.  From a state without a window, [createWindow] builds the whole
    helper anew - an 800 x 600 window at the origin, visible, the screen
    size of the primary display, the step a tenth of its width - whatever
    position was known before; called again it changes nothing.  The
    [activate] handler is [createWindow] when there is no window and nothing
    when there is one. *)
Theorem createWindow_anew_then_idle (w : World) :
  mainWindow (windowHelper (app w)) = None ->
  let w1 := snd (AppState.createWindow w) in
  fst (AppState.createWindow w) = Ok tt /\
  windowHelper (app w1)
  = mkWindowHelper (Some (WindowHelper.new_BrowserWindow 0)) true
      (Some (mkPoint 0 0)) (Some (mkSize 800 600))
      (width (workAreaSize w)) (height (workAreaSize w))
      (Math_floor (width (workAreaSize w) / 10)) 0 0
      (wasFocused (windowHelper (app w))) /\
  AppState.createWindow w1 = (Ok tt, w1) /\
  Main.on_activate w = AppState.createWindow w /\
  Main.on_activate w1 = (Ok tt, w1).
Proof.
  intros Hnone. open_world w. subst.
  unfold Main.on_activate, AppState.createWindow, WindowHelper.createWindow.
  run_app.
  destruct (String.eqb os "darwin"); [|destruct (String.eqb os "win32")];
    simpl; repeat split.
Qed.

Lemma createWindow_anew_then_idle_witness :
  let closed := snd (WindowHelper.on_closed
                       (snd (AppState.moveWindowRight Sample.started))) in
  mainWindow (windowHelper (app closed)) = None /\
  currentX (windowHelper (app closed)) = 192 /\
  currentX (windowHelper (app (snd (Main.on_activate closed)))) = 0 /\
  windowSize (windowHelper (app (snd (Main.on_activate closed))))
  = Some (mkSize 800 600).
Proof.
  intros closed.
  destruct (createWindow_anew_then_idle closed eq_refl) as (_ & Hh & _ & Hact & _).
  split; [reflexivity|]. split; [reflexivity|].
  rewrite Hact, Hh. split; reflexivity.
Defined.

End WindowLife.

Section WindowResize.
Local Open Scope Q_scope.

Lemma maxAllowedWidth_le_width (W : number) (debugged : bool) :
  0 <= W -> Math_floor (W * WindowHelper.widthFraction debugged) <= W.
Proof.
  intros HW. unfold Math_floor.
  eapply Qle_trans; [apply Qfloor_le|].
  unfold WindowHelper.widthFraction. destruct debugged.
  - lra.
  - lra.
Qed.

(** The horizontal placement [setWindowDimensions] computes. *)
Lemma newX_inside (W curX newWidth : number) :
  newWidth <= W ->
  let newX := Math_min (Math_max curX 0) (W - newWidth) in
  0 <= newX /\ newX + newWidth <= W /\
  (0 <= curX -> curX <= W - newWidth -> newX == curX).
Proof.
  intros Hw newX. subst newX. unfold Math_min, Math_max.
  pose proof (Q.le_min_r (Qmax curX 0) (W - newWidth)) as Hmin.
  pose proof (Q.le_max_r curX 0) as Hmax.
  split; [apply Q.min_glb; lra|]. split; [lra|].
  intros Hx0 Hx1. rewrite Q.max_l by lra. rewrite Q.min_l by lra. reflexivity.
Qed.

(** X5.  On a display of width [W >= 0], [setWindowDimensions] on a live
    window places the rectangle it gives the window horizontally inside the
    work area, [0 <= x] and [x + width <= W] for the width it records, at
    the [y] the window had; it keeps [x] when that rectangle fits there, and
    records the new [x] as [currentX] and in [windowPosition].  The window
    itself, which is held to its minimum width, is inside the work area
    when the width it is given is at least that minimum. *)
Theorem setWindowDimensions_stays_on_screen (w : World) (win : BrowserWindow)
    (reqWidth reqHeight : number) :
  mainWindow (windowHelper (app w)) = Some win ->
  isDestroyed win = false ->
  0 <= width (workAreaSize w) ->
  let out := AppState.setWindowDimensions reqWidth reqHeight w in
  exists size win',
    windowSize (windowHelper (app (snd out))) = Some size /\
    mainWindow (windowHelper (app (snd out))) = Some win' /\
    0 <= rx (bounds win') /\
    rx (bounds win') + width size <= width (workAreaSize w) /\
    (minWidth win <= width size ->
     rx (bounds win') + rwidth (bounds win') <= width (workAreaSize w)) /\
    ry (bounds win') = ry (bounds win) /\
    currentX (windowHelper (app (snd out))) = rx (bounds win') /\
    windowPosition (windowHelper (app (snd out)))
    = Some (mkPoint (rx (bounds win')) (ry (bounds win'))) /\
    (0 <= rx (bounds win) ->
     rx (bounds win) + width size <= width (workAreaSize w) ->
     rx (bounds win') == rx (bounds win)).
Proof.
  intros Hwin Hlive HW. open_world w. subst.
  destruct win as [b mnw mnh d sh fo lv]; simpl in *; subst.
  run_app. do 2 eexists. split; [reflexivity|]. split; [reflexivity|]. simpl.
  match goal with
  | |- context [Math_min (Math_max ?x 0) (?W - ?nw)] =>
      assert (Hnw : nw <= W)
        by (eapply Qle_trans; [apply Math_min_le_r|
                               now apply maxAllowedWidth_le_width]);
      destruct (newX_inside W x nw Hnw) as (H0 & H1 & H2)
  end.
  split; [exact H0|]. split; [exact H1|]. split.
  { intros Hmin. pose proof (Q.max_l _ _ Hmin) as Hheld. unfold Math_max in *. lra. }
  split; [reflexivity|]. split; [reflexivity|]. split; [reflexivity|].
  intros Hx Hfit. apply H2; [exact Hx|lra].
Qed.

(** A window moved left of the work area, then resized to 500 x 200: it is
    given 532 x 200, more than its minimum width of 400. *)
Lemma setWindowDimensions_stays_on_screen_witness :
  let moved := snd (AppState.moveWindowLeft Sample.started) in
  let out := AppState.setWindowDimensions 500 200 moved in
  exists win0 win',
    mainWindow (windowHelper (app moved)) = Some win0 /\
    rx (bounds win0) = (-192) /\
    mainWindow (windowHelper (app (snd out))) = Some win' /\
    0 <= rx (bounds win') /\
    rx (bounds win') + rwidth (bounds win') <= 1920.
Proof.
  intros moved out.
  assert (Hmoved : mainWindow (windowHelper (app moved))
                   = Some (mkWindow (mkRect (-192) 0 800 600) 400 300
                                    false true true "floating"))
    by (vm_compute; reflexivity).
  assert (HW : 0 <= width (workAreaSize moved)) by (vm_compute; discriminate).
  assert (Hsize : windowSize (windowHelper (app (snd out))) = Some (mkSize 532 200))
    by (vm_compute; reflexivity).
  destruct (setWindowDimensions_stays_on_screen moved _ 500 200 Hmoved eq_refl HW)
    as (size & win' & Hsize' & Hwin' & H0 & _ & Hin & _).
  assert (Hs : Some size = Some (mkSize 532 200))
    by (rewrite <- Hsize'; exact Hsize).
  injection Hs as Hs.
  assert (Hmin : 400 <= width size) by (rewrite Hs; vm_compute; discriminate).
  eexists; exists win'. split; [exact Hmoved|]. split; [reflexivity|].
  split; [exact Hwin'|]. split; [exact H0|exact (Hin Hmin)].
Defined.

(** X6.  A resize request that is repeated changes nothing more: after
    [setWindowDimensions] twice with the same arguments, on a display of
    width [W >= 0], the window has the rectangle it had after the first call
    and the helper the same recorded size. *)
Theorem setWindowDimensions_repeated (w : World) (win : BrowserWindow)
    (reqWidth reqHeight : number) :
  mainWindow (windowHelper (app w)) = Some win ->
  isDestroyed win = false ->
  0 <= width (workAreaSize w) ->
  let resize := AppState.setWindowDimensions reqWidth reqHeight in
  let once := snd (resize w) in
  let twice := snd ((resize;; resize) w) in
  fst ((resize;; resize) w) = Ok tt /\
  windowSize (windowHelper (app twice)) = windowSize (windowHelper (app once)) /\
  exists win1 win2,
    mainWindow (windowHelper (app once)) = Some win1 /\
    mainWindow (windowHelper (app twice)) = Some win2 /\
    rx (bounds win2) == rx (bounds win1) /\
    ry (bounds win2) = ry (bounds win1) /\
    rwidth (bounds win2) = rwidth (bounds win1) /\
    rheight (bounds win2) = rheight (bounds win1).
Proof.
  intros Hwin Hlive HW. open_world w. subst.
  destruct win as [b mnw mnh d sh fo lv]; simpl in *; subst.
  run_app. split; [reflexivity|]. split; [reflexivity|].
  do 2 eexists. split; [reflexivity|]. split; [reflexivity|]. simpl.
  split; [|split; [reflexivity|split; reflexivity]].
  match goal with
  | |- Math_min (Math_max (Math_min (Math_max ?x 0) (?W - ?nw)) 0) _ == _ =>
      assert (Hnw : nw <= W)
        by (eapply Qle_trans; [apply Math_min_le_r|
                               now apply maxAllowedWidth_le_width]);
      destruct (newX_inside W x nw Hnw) as (H0 & H1 & _);
      destruct (newX_inside W (Math_min (Math_max x 0) (W - nw)) nw Hnw)
        as (_ & _ & H2)
  end.
  apply H2; [exact H0|lra].
Qed.

Lemma setWindowDimensions_repeated_witness :
  let resize := AppState.setWindowDimensions 500 200 in
  windowSize (windowHelper (app (snd ((resize;; resize) Sample.started))))
  = windowSize (windowHelper (app (snd (resize Sample.started)))).
Proof.
  intros resize.
  assert (HW : 0 <= width (workAreaSize Sample.started))
    by (vm_compute; discriminate).
  destruct (setWindowDimensions_repeated Sample.started
              (WindowHelper.new_BrowserWindow 0) 500 200 eq_refl eq_refl HW)
    as (_ & H & _).
  exact H.
Defined.

End WindowResize.

Section WindowSessions.
Local Open Scope Q_scope.

Lemma there_and_back (x st lo hi : number) :
  lo <= x -> x + st <= hi ->
  Math_max lo (or_zero (Math_min hi (or_zero x + st)) - st) == x.
Proof.
  intros Hlo Hhi. unfold Math_max, Math_min.
  rewrite (or_zero_eq (Qmin hi (or_zero x + st))), (or_zero_eq x).
  rewrite Q.min_r by lra. rewrite Q.max_r by lra. ring.
Qed.

(** X7.  Away from the edges a move is undone by the opposite move: when
    the window is not left of [-halfWidth] and a step to the right does not
    pass [screenWidth - halfWidth], a move right followed by a move left
    returns normally with [currentX] and [currentY] as they were and the
    window placed there; so for down and up. *)
Theorem move_there_and_back (w : World) (win : BrowserWindow) :
  mainWindow (windowHelper (app w)) = Some win ->
  isDestroyed win = false ->
  let h := windowHelper (app w) in
  let halfWidth := WindowHelper.windowWidth_or_zero h / 2 in
  let halfHeight := WindowHelper.windowHeight_or_zero h / 2 in
  let across := (AppState.moveWindowRight;; AppState.moveWindowLeft) w in
  let along := (AppState.moveWindowDown;; AppState.moveWindowUp) w in
  (- halfWidth <= currentX h ->
   currentX h + step h <= screenWidth h - halfWidth ->
   fst across = Ok tt /\
   currentX (windowHelper (app (snd across))) == currentX h /\
   currentY (windowHelper (app (snd across))) == currentY h /\
   placed_at_current (snd across)) /\
  (- halfHeight <= currentY h ->
   currentY h + step h <= screenHeight h - halfHeight ->
   fst along = Ok tt /\
   currentY (windowHelper (app (snd along))) == currentY h /\
   currentX (windowHelper (app (snd along))) == currentX h /\
   placed_at_current (snd along)).
Proof.
  intros Hwin Hlive. open_world w. subst.
  destruct win as [b mnw mnh d sh fo lv]; simpl in *; subst.
  unfold placed_at_current. split; intros Hlo Hhi; run_app.
  - split; [reflexivity|]. split; [now apply there_and_back|].
    split; [now rewrite !or_zero_eq|]. eexists. repeat split.
  - split; [reflexivity|]. split; [now apply there_and_back|].
    split; [now rewrite !or_zero_eq|]. eexists. repeat split.
Qed.

Lemma move_there_and_back_witness :
  let across := (AppState.moveWindowRight;; AppState.moveWindowLeft) Sample.started in
  fst across = Ok tt /\
  currentX (windowHelper (app (snd across)))
  == currentX (windowHelper (app Sample.started)).
Proof.
  intros across.
  destruct (move_there_and_back Sample.started (WindowHelper.new_BrowserWindow 0)
              eq_refl eq_refl) as [Hacross _].
  destruct Hacross as (H1 & H2 & _).
  - vm_compute. discriminate.
  - vm_compute. discriminate.
  - split; [exact H1|exact H2].
Defined.

Ltac solve_recorded Hvis Hrec :=
  simpl; split;
  [ intros Hv; first [discriminate | exact (Hvis Hv)]
  | intros Hm;
    first [ now elim Hm
          | split;
            first [ discriminate
                  | destruct (Hrec ltac:(discriminate)) as [Hp Hs]; assumption ] ] ].

Lemma session_step_keeps_recorded (op : WindowSession.Op) (w : World) :
  window_recorded (windowHelper (app w)) ->
  window_recorded (windowHelper (app (WindowSession.step op w))).
Proof.
  intros (Hstep & Hvis & Hrec).
  split; [now apply session_step_keeps_step|].
  revert Hvis Hrec. clear Hstep.
  unfold WindowSession.step, WindowSession.method_of.
  destruct op; open_world w; intros Hvis Hrec;
    destruct mw as [[b mnw mnh [|] sh [|] lv]|], vis, pos, size;
    unfold AppState.createWindow, WindowHelper.createWindow,
      WindowHelper.on_move, WindowHelper.on_resize, WindowHelper.on_closed;
    run_app;
    try (destruct (String.eqb os "darwin"); [|destruct (String.eqb os "win32")]);
    solve_recorded Hvis Hrec.
Qed.

(** X8.  In every state a process reaches from its start - by creating the
    window, showing, hiding and toggling it, moving and resizing it, by the
    window's move, resize and closed listeners, in any order - the step is
    [Math.floor(screenWidth / 10)], a helper that holds the window visible
    has a window, and a helper that has a window has a position and a size
    recorded for it. *)
Theorem reachable_window_recorded (display : Size) (os : string)
    (ops : list WindowSession.Op) :
  window_recorded (windowHelper (app
    (WindowSession.run ops (mkWorld AppState.initial display os ∅ [])))).
Proof.
  unfold WindowSession.run.
  assert (H0 : window_recorded
                 (windowHelper (app (mkWorld AppState.initial display os ∅ [])))).
  { split; [reflexivity|]. split; [discriminate|]. intros H. now elim H. }
  revert H0. generalize (mkWorld AppState.initial display os ∅ []).
  induction ops as [|op ops IH]; intros w Hw; simpl; [exact Hw|].
  apply IH. now apply session_step_keeps_recorded.
Qed.

End WindowSessions.

(** ** The shortcuts: mode, capture, solve *)

Section MoreShortcuts.

Variable MAX_SCREENSHOTS : nat.

(** X9.  With a live main window the toggle-mode shortcut returns normally,
    flips the mode and sends exactly one "mode-changed" carrying the new
    mode, from the state that already has it; pressed twice it restores the
    mode, and the second notification carries the original one. *)
Theorem toggle_mode_notifies_new_mode (w : World) :
  window_live w = true ->
  let flip m := match m with screenshot => text | text => screenshot end in
  let once := ShortcutsHelper.onCommandShiftT w in
  let twice := (ShortcutsHelper.onCommandShiftT;; ShortcutsHelper.onCommandShiftT) w in
  fst once = Ok tt /\
  mode (app (snd once)) = flip (mode (app w)) /\
  outbox (snd once)
  = (outbox w ++ [mkSent "mode-changed" (ModePayload (flip (mode (app w))))
                    (app (snd once))])%list /\
  fst twice = Ok tt /\
  mode (app (snd twice)) = mode (app w) /\
  List.map payload (outbox (snd twice))
  = (List.map payload (outbox w)
     ++ [ModePayload (flip (mode (app w))); ModePayload (mode (app w))])%list.
Proof.
  unfold window_live. intros Hlive. open_world w.
  destruct mw as [[b mnw mnh [|] sh fo lv]|]; try discriminate.
  match goal with m : Mode |- _ => destruct m end; run_app;
    repeat split; rewrite ?map_app; simpl; rewrite <- ?app_assoc; reflexivity.
Qed.

Lemma try_catch_swallows {S} (c : M S unit) (s : S) :
  fst (try_catch c (fun _ => ret tt) s) = Ok tt.
Proof. unfold try_catch, ret. destruct (c s) as [[[]|e] s']; reflexivity. Qed.

(** X10.  The capture shortcut never lets an error out: whatever the state -
    no window, a destroyed window, a failing capture or send - its handler
    returns normally.  [AppState.takeScreenshot] itself throws "No main
    window available" without a window, before anything is touched. *)
Theorem capture_shortcut_never_throws (w : World) (screenshotPath preview : string) :
  fst (ShortcutsHelper.onCommandH MAX_SCREENSHOTS screenshotPath preview w) = Ok tt /\
  (mainWindow (windowHelper (app w)) = None ->
   AppState.takeScreenshot MAX_SCREENSHOTS screenshotPath w
   = (Throw (Error "No main window available"), w)).
Proof.
  split.
  - unfold ShortcutsHelper.onCommandH, AppState.getMainWindow,
      WindowHelper.getMainWindow, this_get, gets, bind at 1.
    destruct (mainWindow (windowHelper (app w))); [|reflexivity].
    apply try_catch_swallows.
  - intros Hnone. open_world w. subst. run_app. reflexivity.
Qed.

End MoreShortcuts.

Section MoreShortcutSamples.

Lemma toggle_mode_notifies_new_mode_witness :
  mode (app Sample.started) = screenshot /\
  List.map payload (outbox (snd (ShortcutsHelper.onCommandShiftT Sample.started)))
  = [ModePayload text].
Proof.
  split; [reflexivity|].
  destruct (toggle_mode_notifies_new_mode Sample.started eq_refl)
    as (_ & _ & H & _).
  rewrite H. reflexivity.
Defined.

Lemma capture_shortcut_never_throws_witness :
  fst (ShortcutsHelper.onCommandH 2 "/shots/9.png" "preview" Sample.destroyed) = Ok tt /\
  fst (AppState.takeScreenshot 2 "/shots/9.png" Sample.fresh)
  = Throw (Error "No main window available").
Proof.
  split.
  - exact (proj1 (capture_shortcut_never_throws 2 Sample.destroyed _ _)).
  - now rewrite (proj2 (capture_shortcut_never_throws 2 Sample.fresh
                          "/shots/9.png" "preview") eq_refl).
Defined.

End MoreShortcutSamples.

Section SolveGuard.

Variable processQuery : M World unit.

Lemma blank_or_has_text (s : string) : blank s \/ has_text s.
Proof.
  unfold blank, has_text. induction s as [|c s IH]; [left; intros c []|].
  destruct (isWhiteSpace c) eqn:Hc.
  - destruct IH as [IH|(c' & Hin & Hc')].
    + left. intros c' [<-|Hin]; [exact Hc|now apply IH].
    + right. exists c'. split; [now right|exact Hc'].
  - right. exists c. split; [now left|exact Hc].
Qed.

Lemma has_text_not_blank (s : string) : has_text s -> ~ blank s.
Proof. intros (c & Hin & Hc) Hb. rewrite (Hb c Hin) in Hc. discriminate. Qed.

Lemma trimStart_has_text (s : string) : has_text s -> has_text (trimStart s).
Proof.
  unfold has_text. induction s as [|c s IH]; intros (c' & Hin & Hc'); [destruct Hin|].
  simpl. destruct (isWhiteSpace c) eqn:Hc.
  - apply IH. exists c'. split; [|exact Hc'].
    destruct Hin as [<-|Hin]; [congruence|exact Hin].
  - exists c'. split; [exact Hin|exact Hc'].
Qed.

Lemma reverse_has_text (s : string) : has_text s -> has_text (reverse s).
Proof.
  unfold has_text, reverse. intros (c & Hin & Hc). exists c. split; [|exact Hc].
  rewrite list_ascii_of_string_of_list_ascii. now apply in_rev in Hin.
Qed.

Lemma has_text_not_empty (s : string) : has_text s -> falsy s = false.
Proof. intros (c & Hin & _). destruct s; [destruct Hin|reflexivity]. Qed.

Lemma trim_has_text (s : string) : has_text s -> falsy (trim s) = false.
Proof.
  intros H. unfold trim, trimEnd.
  now apply has_text_not_empty, reverse_has_text, trimStart_has_text,
    reverse_has_text, trimStart_has_text.
Qed.

(** X11.  The solve shortcut hands over to [processQuery], with the state
    untouched, in screenshot mode always - whatever the queues hold, an
    empty queue included - and in text mode whenever the query has a code
    unit that is not white space; every query is blank or has one. *)
Theorem solve_shortcut_hands_over (w : World) :
  (mode (app w) = screenshot ->
   ShortcutsHelper.onCommandEnter processQuery w = processQuery w) /\
  (mode (app w) = text -> has_text (textQuery (app w)) ->
   ShortcutsHelper.onCommandEnter processQuery w = processQuery w) /\
  (blank (textQuery (app w)) \/ has_text (textQuery (app w))).
Proof.
  split; [|split; [|apply blank_or_has_text]].
  - intros Hmode. unfold ShortcutsHelper.onCommandEnter, AppState.getMode,
      AppState.app_get, gets, bind. now rewrite Hmode.
  - intros Hmode Htext. apply trim_has_text in Htext.
    unfold ShortcutsHelper.onCommandEnter, AppState.getMode, AppState.getTextQuery,
      AppState.app_get, gets, bind. now rewrite Hmode, Htext.
Qed.

End SolveGuard.

Section SolveGuardSamples.

(** A text query is handed over, and so is a solve in screenshot mode with
    both queues empty. *)
Lemma solve_shortcut_hands_over_witness :
  let ran := throw (Error "processQuery ran") in
  textQuery (app Sample.solved) = "two sum" /\
  fst (ShortcutsHelper.onCommandEnter ran Sample.solved)
  = Throw (Error "processQuery ran") /\
  screenshotQueue (screenshotHelper (app Sample.started)) = [] /\
  fst (ShortcutsHelper.onCommandEnter ran Sample.started)
  = Throw (Error "processQuery ran").
Proof.
  intros ran.
  destruct (solve_shortcut_hands_over ran Sample.solved) as (_ & Htext & _).
  destruct (solve_shortcut_hands_over ran Sample.started) as (Hshot & _).
  split; [reflexivity|]. split.
  - rewrite Htext; [reflexivity|reflexivity|].
    exists "t"%char. split; [now left|reflexivity].
  - split; [reflexivity|]. rewrite Hshot; reflexivity.
Defined.

End SolveGuardSamples.

(** ** The OpenAI handlers, further *)

Section MoreOpenAI.
Import ProblemHandler.

Variable JSON_parse : string -> option json.

(** X12.  Without an API key - none stored, or the empty string - no handler
    sends a request or parses anything: the log of calls is as it was, and
    the caller gets "OpenAI API key not set", bare from [processTextQuery]
    and [extractProblemInfo], wrapped by the catch blocks of
    [generateSolutionResponses] and [debugSolutionResponses]. *)
Theorem missing_key_makes_no_request (op : Operation) (key : option string)
    (outcome : AxiosOutcome) (log : list Call) :
  key_missing key = true ->
  let out := run JSON_parse op key outcome log in
  snd out = log /\
  fst out = Throw (Error
    match op with
    | TextQuery | Extraction => "OpenAI API key not set"
    | SolutionGeneration => "Error generating solutions: OpenAI API key not set"
    | Debug => "OpenAI API error: OpenAI API key not set"
    end).
Proof.
  intros Hkey. destruct op; run_handler; rewrite Hkey; split; reflexivity.
Qed.

(** X13.  What a handler does with the outside world, whatever the key, the
    response and the parser: nothing without a key, and otherwise one
    request to its model followed by the texts it parses - at most two for
    [processTextQuery], at most one for the others, none when the request
    was rejected.  No handler sends a second request. *)
Theorem one_request_then_parses (op : Operation) (key : option string)
    (outcome : AxiosOutcome) (log : list Call) :
  exists texts : list string,
    snd (run JSON_parse op key outcome log)
    = (log ++ (if key_missing key then []
               else AxiosPost (model_of op) :: List.map JSONParse texts))%list /\
    List.length texts <= match op with TextQuery => 2 | _ => 1 end /\
    (key_missing key = true -> texts = []) /\
    (forall e, outcome = Rejects e -> texts = []).
Proof.
  destruct (key_missing key) eqn:Hkey.
  - exists []. split; [|split; [destruct op; simpl; lia|split; [reflexivity|reflexivity]]].
    destruct op; run_handler; rewrite Hkey; simpl; now rewrite app_nil_r.
  - destruct outcome as [data|e].
    + destruct op; run_handler; rewrite Hkey; simpl.
      * destruct (JSON_parse (content data)) eqn:H1; simpl.
        -- exists [content data]. rewrite <- app_assoc. simpl.
           split; [reflexivity|]. split; [lia|]. split; [discriminate|discriminate].
        -- exists [content data; replace_quoted_language false (content data)].
           destruct (JSON_parse (replace_quoted_language false (content data)));
             simpl; rewrite <- !app_assoc; simpl;
             (split; [reflexivity|]; split; [lia|]; split; [discriminate|discriminate]).
      * exists [function_call_arguments data].
        destruct (JSON_parse (function_call_arguments data)); simpl;
          rewrite <- !app_assoc; simpl;
          (split; [reflexivity|]; split; [lia|]; split; [discriminate|discriminate]).
      * exists [content data].
        destruct (JSON_parse (content data)); simpl;
          rewrite <- !app_assoc; simpl;
          (split; [reflexivity|]; split; [lia|]; split; [discriminate|discriminate]).
      * exists [function_call_arguments data].
        destruct (JSON_parse (function_call_arguments data)); simpl;
          rewrite <- !app_assoc; simpl;
          (split; [reflexivity|]; split; [lia|]; split; [discriminate|discriminate]).
    + exists []. split; [|split; [destruct op; simpl; lia|split; [discriminate|reflexivity]]].
      destruct op; run_handler; rewrite Hkey; simpl.
      * now destruct (status_is 429 e).
      * now destruct (status_is 429 e).
      * now destruct (status_is 429 e).
      * now destruct (status_is 404 e), (status_is 401 e).
Qed.

(** X14.  A rejected request whose status is not 429 - a network failure
    without a response included: [processTextQuery] and [extractProblemInfo]
    rethrow the very error, response and all; [generateSolutionResponses]
    throws a new error that keeps the message behind a prefix and drops the
    response; [debugSolutionResponses] has fixed messages for 404 and 401
    and otherwise reports the message of the response body, or the error's
    own when the body has none. *)
Theorem other_rejections_reach_caller (key : option string) (e : JsError)
    (log : list Call) :
  key_missing key = false ->
  status_is 429 e = false ->
  let thrown op := fst (run JSON_parse op key (Rejects e) log) in
  thrown TextQuery = Throw e /\
  thrown Extraction = Throw e /\
  thrown SolutionGeneration
  = Throw (mkJsError ("Error generating solutions: " ++ message e) None) /\
  thrown Debug
  = Throw (Error
      (if status_is 404 e
       then "API endpoint not found. Please check the model name and URL."
       else if status_is 401 e
       then "Authentication failed. Please check your API key."
       else "OpenAI API error: " ++
            match response e with
            | Some (mkHttpResponse _ (Some m)) => if falsy m then message e else m
            | _ => message e
            end)).
Proof.
  intros Hkey H429. simpl. repeat split; run_handler; rewrite Hkey; simpl;
    rewrite ?H429; try reflexivity.
  destruct (status_is 404 e); [reflexivity|].
  destruct (status_is 401 e); [reflexivity|].
  unfold upstream_message. destruct (response e) as [[st [m|]]|]; reflexivity.
Qed.

(** X15.  A response whose body [JSON.parse] accepts: every handler returns
    the parsed value after one request and one parse of the body as it came;
    [processTextQuery] does not touch a body that parses, whatever markers
    it holds. *)
Theorem accepted_body_is_returned (op : Operation) (key : option string)
    (data : ChatCompletion) (v : json) (log : list Call) :
  key_missing key = false ->
  JSON_parse (body_of op data) = Some v ->
  run JSON_parse op key (Resolves data) log
  = (Ok v, (log ++ [AxiosPost (model_of op); JSONParse (body_of op data)])%list).
Proof.
  intros Hkey Hparse.
  destruct op; simpl in Hparse; run_handler; rewrite Hkey; simpl;
    rewrite Hparse; simpl; now rewrite <- app_assoc.
Qed.

Lemma replace_quoted_language_step (c : ascii) (r : string) :
  starts_marker (String c r) = false ->
  replace_quoted_language false (String c r)
  = String c (replace_quoted_language false r).
Proof.
  intros H.
  destruct (ascii_dec c "'") as [->|Hc];
    [|destruct c as [[] [] [] [] [] [] [] []]; try reflexivity; now elim Hc].
  destruct r as [|c2 r]; [reflexivity|].
  destruct (ascii_dec c2 "'") as [->|Hc];
    [|destruct c2 as [[] [] [] [] [] [] [] []]; try reflexivity; now elim Hc].
  destruct r as [|c3 r]; [reflexivity|].
  destruct (ascii_dec c3 "'") as [->|Hc];
    [|destruct c3 as [[] [] [] [] [] [] [] []]; try reflexivity; now elim Hc].
  destruct r as [|c4 r]; [reflexivity|].
  simpl in H. simpl. now rewrite H.
Qed.

(** Where the regular expression matches nowhere, [replace] returns the
    string it was given. *)
Lemma replace_quoted_language_without_marker (s : string) :
  has_marker s = false -> replace_quoted_language false s = s.
Proof.
  induction s as [|c r IH]; [reflexivity|].
  intros H. change (starts_marker (String c r) || has_marker r = false) in H.
  apply orb_false_elim in H. destruct H as [Hs Hr].
  rewrite (replace_quoted_language_step _ _ Hs). now rewrite (IH Hr).
Qed.

(** X16.  The retry of [processTextQuery] helps only where three single
    quotes are followed by a letter: on a content that [JSON.parse] rejects
    and that holds no such marker - a reply in a fence of backquotes, say -
    the second parse is given the same text again, and the call fails with
    what [JSON.parse] throws on it. *)
Theorem retry_without_marker_parses_same_text (key : option string)
    (data : ChatCompletion) (log : list Call) :
  key_missing key = false ->
  JSON_parse (content data) = None ->
  has_marker (content data) = false ->
  let out := run JSON_parse TextQuery key (Resolves data) log in
  snd out
  = (log ++ [AxiosPost "gpt-4o-mini"; JSONParse (content data);
             JSONParse (content data)])%list /\
  fst out = fst (JSON_parse_call JSON_parse (content data) log).
Proof.
  intros Hkey Hparse Hmarker. run_handler. rewrite Hkey. simpl.
  rewrite Hparse. simpl.
  rewrite (replace_quoted_language_without_marker _ Hmarker), Hparse. simpl.
  rewrite <- !app_assoc. split; reflexivity.
Qed.

End MoreOpenAI.

Section MoreOpenAISamples.
Import ProblemHandler.

(** The empty string as the key, on a debug pass. *)
Lemma missing_key_makes_no_request_witness :
  key_missing (Some EmptyString) = true /\
  run JSON.parse Debug (Some EmptyString) Sample.quoted_reply []
  = (Throw (Error "OpenAI API error: OpenAI API key not set"), []).
Proof.
  split; [reflexivity|].
  pose proof (missing_key_makes_no_request JSON.parse Debug (Some EmptyString)
                Sample.quoted_reply [] eq_refl) as H.
  destruct H as [Hlog Hout].
  apply injective_projections; [exact Hout|exact Hlog].
Defined.

(** A gateway timeout, 504, with no message in the body. *)
Lemma other_rejections_reach_caller_witness :
  let e := mkJsError "Request failed with status code 504"
             (Some (mkHttpResponse 504 None)) in
  fst (run JSON.parse TextQuery (Some "sk-test") (Rejects e) []) = Throw e /\
  fst (run JSON.parse Debug (Some "sk-test") (Rejects e) [])
  = Throw (Error "OpenAI API error: Request failed with status code 504").
Proof.
  intros e.
  destruct (other_rejections_reach_caller JSON.parse (Some "sk-test") e []
              eq_refl eq_refl) as (Htext & _ & _ & Hdebug).
  split; [exact Htext|exact Hdebug].
Defined.

(** A solution that arrives as plain JSON. *)
Lemma accepted_body_is_returned_witness :
  let data := mkChatCompletion "{}" "null" in
  run JSON.parse SolutionGeneration (Some "sk-test") (Resolves data) []
  = (Ok (JObject []), [AxiosPost "o1-mini"; JSONParse "{}"]).
Proof.
  intros data.
  exact (accepted_body_is_returned JSON.parse SolutionGeneration (Some "sk-test")
           data (JObject []) [] eq_refl eq_refl).
Defined.

(** A reply in a fence of backquotes. *)
Lemma retry_without_marker_parses_same_text_witness :
  let data := mkChatCompletion "```json{}```" "null" in
  JSON.parse (content data) = None /\
  has_marker (content data) = false /\
  run JSON.parse TextQuery (Some "sk-test") (Resolves data) []
  = (Throw (Error "SyntaxError: Unexpected token in JSON"),
     [AxiosPost "gpt-4o-mini"; JSONParse "```json{}```"; JSONParse "```json{}```"]).
Proof.
  intros data.
  destruct (retry_without_marker_parses_same_text JSON.parse (Some "sk-test")
              data [] eq_refl eq_refl eq_refl) as [Hlog Hout].
  split; [reflexivity|]. split; [reflexivity|].
  apply injective_projections; [exact Hout|exact Hlog].
Defined.

End MoreOpenAISamples.

(** ** The subscriptions, further *)

Section MoreSubscriptions.
Import Preload.

Lemma subscribe_spec (ch : string) (callback : nat) (r : IpcRenderer) :
  exists r1,
    subscribe ch callback r = (Ok (removeListener ch (next_function r)), r1) /\
    (forall ch', listeners_on ch' r1
                 = if decide (ch = ch')
                   then (listeners_on ch r ++ [mkListener (next_function r) callback])%list
                   else listeners_on ch' r) /\
    next_function r1 = S (next_function r) /\
    invocations r1 = invocations r.
Proof.
  destruct r as [m n i].
  unfold subscribe, new_function, on.
  cbv [bind ret modify]. cbn [events next_function invocations].
  eexists. split; [reflexivity|]. split; [|split; reflexivity].
  intros ch'. rewrite listeners_on_insert. reflexivity.
Qed.

Lemma onDebugSuccess_spec (callback : nat) (r : IpcRenderer) :
  exists r1,
    onDebugSuccess callback r
    = (Ok (do other <- new_function; removeListener "debug-success" other), r1) /\
    (forall ch', listeners_on ch' r1
                 = if decide ("debug-success" = ch')
                   then (listeners_on "debug-success" r
                         ++ [mkListener (next_function r) callback])%list
                   else listeners_on ch' r) /\
    next_function r1 = S (next_function r) /\
    invocations r1 = invocations r.
Proof.
  destruct r as [m n i].
  unfold onDebugSuccess, new_function, on.
  cbv [bind ret modify]. cbn [events next_function invocations].
  eexists. split; [reflexivity|]. split; [|split; reflexivity].
  intros ch'. rewrite listeners_on_insert. reflexivity.
Qed.

Lemma removeListener_spec (ch : string) (f : nat) (r : IpcRenderer) :
  exists r2,
    removeListener ch f r = (Ok tt, r2) /\
    (forall ch', listeners_on ch' r2
                 = if decide (ch = ch')
                   then remove_last f (listeners_on ch r)
                   else listeners_on ch' r) /\
    next_function r2 = next_function r /\
    invocations r2 = invocations r.
Proof.
  destruct r as [m n i].
  unfold removeListener, modify. cbn [events next_function invocations].
  eexists. split; [reflexivity|].
  rewrite listeners_on_events.
  destruct (m !! ch) as [ls|] eqn:Hm; cbn [default from_option id].
  - destruct (remove_last f ls) as [|l ls'] eqn:Hrl;
      (split; [|split; reflexivity]); intros ch'; rewrite !listeners_on_events.
    + destruct (decide (ch = ch')) as [<-|Hne].
      * now rewrite lookup_delete_eq.
      * now rewrite lookup_delete_ne.
    + destruct (decide (ch = ch')) as [<-|Hne].
      * now rewrite lookup_insert_eq.
      * now rewrite lookup_insert_ne.
  - split; [|split; reflexivity]. intros ch'. rewrite !listeners_on_events.
    destruct (decide (ch = ch')) as [<-|Hne]; [now rewrite Hm|reflexivity].
Qed.

Lemma emit_spec (ch data : string) (r : IpcRenderer) :
  exists r',
    emit ch data r = (Ok tt, r') /\
    (forall ch', listeners_on ch' r' = listeners_on ch' r) /\
    next_function r' = next_function r /\
    invocations r'
    = (invocations r
       ++ List.map (fun l => (forwards_to l, data)) (listeners_on ch r))%list.
Proof.
  destruct r as [m n i]. unfold emit, modify.
  eexists. split; [reflexivity|]. repeat split.
Qed.

Lemma electronAPI_subscribe (s : Subscription) :
  s <> DebugSuccess -> electronAPI s = subscribe (channel_of s).
Proof. destruct s; try reflexivity; congruence. Qed.

Lemma remove_last_before_last (f cb : nat) (l : Listener) (ls : list Listener) :
  fn l <> f ->
  remove_last f (ls ++ [mkListener f cb; l]) = (ls ++ [l])%list.
Proof.
  intros Hl. unfold remove_last. rewrite rev_app_distr. simpl.
  destruct (Nat.eqb_spec (fn l) f) as [E|_]; [contradiction|].
  rewrite Nat.eqb_refl. simpl. now rewrite rev_involutive.
Qed.

(** X17.  The life of a subscription made through any member but
    [onDebugSuccess]: a notification sent while it is held reaches the
    callback, after the listeners registered earlier on the channel; once
    the handle has run, a notification reaches those earlier listeners only,
    and every channel has the listeners it had before. *)
Theorem subscription_lives_until_released (s : Subscription) (callback : nat)
    (before after : string) (r : IpcRenderer) :
  s <> DebugSuccess ->
  let ch := channel_of s in
  let earlier data :=
    List.map (fun l => (forwards_to l, data)) (listeners_on ch r) in
  let out := (do unsubscribe <- electronAPI s callback;
              emit ch before;; unsubscribe;; emit ch after) r in
  fst out = Ok tt /\
  invocations (snd out)
  = (invocations r ++ earlier before ++ [(callback, before)] ++ earlier after)%list /\
  forall ch', listeners_on ch' (snd out) = listeners_on ch' r.
Proof.
  intros Hs ch earlier out. subst out earlier.
  rewrite (electronAPI_subscribe s Hs). fold ch.
  destruct (subscribe_spec ch callback r) as (r1 & E1 & L1 & N1 & I1).
  destruct (emit_spec ch before r1) as (r2 & E2 & L2 & N2 & I2).
  destruct (removeListener_spec ch (next_function r) r2) as (r3 & E3 & L3 & N3 & I3).
  destruct (emit_spec ch after r3) as (r4 & E4 & L4 & N4 & I4).
  rewrite (bind_ok _ _ _ _ _ E1), (bind_ok _ _ _ _ _ E2), (bind_ok _ _ _ _ _ E3), E4.
  cbn [fst snd].
  assert (Hback : forall ch', listeners_on ch' r3 = listeners_on ch' r).
  { intros ch'. rewrite L3, !L2, !L1. rewrite (decide_True (P := ch = ch)) by reflexivity.
    rewrite remove_last_added. now destruct (decide (ch = ch')) as [<-|Hne]. }
  split; [reflexivity|]. split.
  - rewrite I4, I3, I2, I1, Hback, L1.
    rewrite (decide_True (P := ch = ch)) by reflexivity.
    rewrite map_app. simpl. now rewrite <- !app_assoc.
  - intros ch'. now rewrite L4.
Qed.

(** X18.  Two subscriptions on one channel - the same callback twice
    included - are two listeners: the handle of the first takes out the
    first only, and a notification then reaches the second, after the
    listeners registered earlier. *)
Theorem release_leaves_other_subscription (s : Subscription) (first second : nat)
    (data : string) (r : IpcRenderer) :
  s <> DebugSuccess ->
  let ch := channel_of s in
  let out := (do release_first <- electronAPI s first;
              do release_second <- electronAPI s second;
              release_first;; emit ch data) r in
  fst out = Ok tt /\
  listeners_on ch (snd out)
  = (listeners_on ch r ++ [mkListener (S (next_function r)) second])%list /\
  invocations (snd out)
  = (invocations r
     ++ List.map (fun l => (forwards_to l, data)) (listeners_on ch r)
     ++ [(second, data)])%list.
Proof.
  intros Hs ch out. subst out.
  rewrite (electronAPI_subscribe s Hs). fold ch.
  destruct (subscribe_spec ch first r) as (r1 & E1 & L1 & N1 & I1).
  destruct (subscribe_spec ch second r1) as (r2 & E2 & L2 & N2 & I2).
  destruct (removeListener_spec ch (next_function r) r2) as (r3 & E3 & L3 & N3 & I3).
  destruct (emit_spec ch data r3) as (r4 & E4 & L4 & N4 & I4).
  rewrite (bind_ok _ _ _ _ _ E1), (bind_ok _ _ _ _ _ E2), (bind_ok _ _ _ _ _ E3), E4.
  cbn [fst snd].
  assert (Hleft : listeners_on ch r3
                  = (listeners_on ch r ++ [mkListener (S (next_function r)) second])%list).
  { rewrite L3, L2, L1, N1. rewrite !(decide_True (P := ch = ch)) by reflexivity.
    rewrite <- app_assoc. simpl. apply remove_last_before_last. simpl. lia. }
  split; [reflexivity|]. split.
  - now rewrite L4.
  - rewrite I4, I3, I2, I1, Hleft, map_app. reflexivity.
Qed.

Lemma debug_success_mount_unmount (callback : nat) (r : IpcRenderer) :
  Renderer.registered_before "debug-success" r ->
  exists r',
    Renderer.mount_unmount (onDebugSuccess callback) r = (Ok tt, r') /\
    listeners_on "debug-success" r'
    = (listeners_on "debug-success" r ++ [mkListener (next_function r) callback])%list /\
    invocations r' = invocations r /\
    Renderer.registered_before "debug-success" r'.
Proof.
  intros Hreg. unfold Renderer.registered_before in Hreg.
  destruct (onDebugSuccess_spec callback r) as (r1 & E1 & L1 & N1 & I1).
  unfold Renderer.mount_unmount. rewrite (bind_ok _ _ _ _ _ E1).
  unfold new_function at 1. unfold bind at 1.
  destruct (removeListener_spec "debug-success" (next_function r1)
              (mkIpcRenderer (events r1) (S (next_function r1)) (invocations r1)))
    as (r2 & E2 & L2 & N2 & I2).
  rewrite E2. exists r2.
  assert (Hls : listeners_on "debug-success" r2
                = (listeners_on "debug-success" r
                   ++ [mkListener (next_function r) callback])%list).
  { rewrite L2. rewrite (decide_True (P := "debug-success" = "debug-success")) by reflexivity.
    change (listeners_on "debug-success"
              (mkIpcRenderer (events r1) (S (next_function r1)) (invocations r1)))
      with (listeners_on "debug-success" r1).
    rewrite L1. rewrite (decide_True (P := "debug-success" = "debug-success")) by reflexivity.
    apply remove_last_absent. intros l Hl. rewrite N1.
    apply in_app_or in Hl. destruct Hl as [Hl|[<-|[]]]; cbn [fn]; [|lia].
    specialize (Hreg l Hl). lia. }
  split; [reflexivity|]. split; [exact Hls|]. split; [now rewrite I2|].
  unfold Renderer.registered_before. intros l Hl. rewrite Hls in Hl.
  rewrite N2. cbn [next_function]. rewrite N1.
  apply in_app_or in Hl. destruct Hl as [Hl|[<-|[]]]; cbn [fn]; [|lia].
  specialize (Hreg l Hl). lia.
Qed.

Lemma subscribe_mount_unmount (ch : string) (callback : nat) (r : IpcRenderer) :
  exists r',
    Renderer.mount_unmount (subscribe ch callback) r = (Ok tt, r') /\
    (forall ch', listeners_on ch' r' = listeners_on ch' r) /\
    invocations r' = invocations r.
Proof.
  destruct (subscribe_spec ch callback r) as (r1 & E1 & L1 & N1 & I1).
  destruct (removeListener_spec ch (next_function r) r1) as (r2 & E2 & L2 & N2 & I2).
  unfold Renderer.mount_unmount. rewrite (bind_ok _ _ _ _ _ E1), E2.
  exists r2. split; [reflexivity|]. split; [|now rewrite I2].
  intros ch'. rewrite L2, !L1. rewrite (decide_True (P := ch = ch)) by reflexivity.
  rewrite remove_last_added. now destruct (decide (ch = ch')) as [<-|Hne].
Qed.

(** X19.  A component that subscribes when it mounts and calls the handle
    when it unmounts, [k] times over: through [onDebugSuccess] every round
    leaves one more listener behind, so that afterwards one "debug-success"
    runs the callback [k] times; through any other member nothing is left
    and the callback does not run. *)
Theorem remounts_leak_only_debug_success (s : Subscription) (k callback : nat)
    (data : string) (r : IpcRenderer) :
  Renderer.registered_before (channel_of s) r ->
  let ch := channel_of s in
  let left := match s with DebugSuccess => repeat callback k | _ => [] end in
  let out := (Renderer.remounts k (electronAPI s callback);; emit ch data) r in
  fst out = Ok tt /\
  List.map forwards_to (listeners_on ch (snd out))
  = (List.map forwards_to (listeners_on ch r) ++ left)%list /\
  invocations (snd out)
  = (invocations r
     ++ List.map (fun c => (c, data))
          (List.map forwards_to (listeners_on ch r) ++ left))%list.
Proof.
  intros Hreg ch left out.
  assert (Hrun : exists r',
             Renderer.remounts k (electronAPI s callback) r = (Ok tt, r') /\
             List.map forwards_to (listeners_on ch r')
             = (List.map forwards_to (listeners_on ch r) ++ left)%list /\
             invocations r' = invocations r).
  { subst left ch. clear out. revert r Hreg.
    induction k as [|k IH]; intros r Hreg.
    - exists r. split; [reflexivity|]. split; [|reflexivity].
      destruct s; simpl; now rewrite app_nil_r.
    - simpl Renderer.remounts.
      assert (Hdec : s = DebugSuccess \/ s <> DebugSuccess)
        by (destruct s; (now left) || (right; discriminate)).
      destruct Hdec as [->|Hs].
      + destruct (debug_success_mount_unmount callback r Hreg)
          as (r1 & E1 & L1 & I1 & Hreg1).
        destruct (IH r1 Hreg1) as (r' & E' & L' & I').
        exists r'. simpl electronAPI. rewrite (bind_ok _ _ _ _ _ E1).
        split; [exact E'|]. split; [|now rewrite I', I1].
        simpl channel_of in *. rewrite L', L1, map_app. simpl.
        now rewrite <- app_assoc.
      + rewrite (electronAPI_subscribe s Hs) in *.
        destruct (subscribe_mount_unmount (channel_of s) callback r)
          as (r1 & E1 & L1 & I1).
        assert (Hreg1 : Renderer.registered_before (channel_of s) r1).
        { unfold Renderer.registered_before in *. intros l Hl. rewrite L1 in Hl.
          specialize (Hreg l Hl).
          destruct (subscribe_spec (channel_of s) callback r) as (ra & Ea & _ & Na & _).
          destruct (removeListener_spec (channel_of s) (next_function r) ra)
            as (rb & Eb & _ & Nb & _).
          unfold Renderer.mount_unmount in E1.
          rewrite (bind_ok _ _ _ _ _ Ea), Eb in E1.
          injection E1 as <-. rewrite Nb, Na. lia. }
        destruct (IH r1 Hreg1) as (r' & E' & L' & I').
        exists r'. rewrite (bind_ok _ _ _ _ _ E1).
        split; [exact E'|]. split; [|now rewrite I', I1].
        rewrite L', L1. now destruct s. }
  destruct Hrun as (r' & E' & L' & I').
  destruct (emit_spec ch data r') as (r2 & E2 & L2 & N2 & I2).
  subst out. rewrite (bind_ok _ _ _ _ _ E'), E2. cbn [fst snd].
  split; [reflexivity|]. split.
  - now rewrite L2.
  - rewrite I2, I', <- L', map_map. reflexivity.
Qed.

End MoreSubscriptions.

Section MoreSubscriptionSamples.
Import Preload.

(** A "reset-view" before and one after the release, on a fresh emitter. *)
Lemma subscription_lives_until_released_witness :
  ResetView <> DebugSuccess /\
  invocations (snd ((do unsubscribe <- electronAPI ResetView 7;
                     emit "reset-view" "first";; unsubscribe;;
                     emit "reset-view" "second") empty))
  = [(7, "first")].
Proof.
  assert (Hs : ResetView <> DebugSuccess) by discriminate.
  destruct (subscription_lives_until_released ResetView 7 "first" "second" empty Hs)
    as (_ & Hinv & _).
  split; [exact Hs|exact Hinv].
Defined.

(** Two pages subscribed to "reset-view"; the first one leaves. *)
Lemma release_leaves_other_subscription_witness :
  ResetView <> DebugSuccess /\
  invocations (snd ((do release_first <- electronAPI ResetView 1;
                     do release_second <- electronAPI ResetView 2;
                     release_first;; emit "reset-view" "now") empty))
  = [(2, "now")].
Proof.
  assert (Hs : ResetView <> DebugSuccess) by discriminate.
  destruct (release_leaves_other_subscription ResetView 1 2 "now" empty Hs)
    as (_ & _ & Hinv).
  split; [exact Hs|exact Hinv].
Defined.

(** Three rounds through [onDebugSuccess], on a fresh emitter. *)
Lemma remounts_leak_only_debug_success_witness :
  Renderer.registered_before "debug-success" empty /\
  invocations (snd ((Renderer.remounts 3 (electronAPI DebugSuccess 7);;
                     emit "debug-success" "fixed") empty))
  = [(7, "fixed"); (7, "fixed"); (7, "fixed")].
Proof.
  assert (Hreg : Renderer.registered_before "debug-success" empty)
    by (intros l []).
  destruct (remounts_leak_only_debug_success DebugSuccess 3 7 "fixed" empty Hreg)
    as (_ & _ & Hinv).
  split; [exact Hreg|exact Hinv].
Defined.

End MoreSubscriptionSamples.

(** ** The UI process against the object preload.ts exposes *)

Section UiEffects.
Import Preload.

Lemma electronAPI_spec (s : Subscription) (callback : nat) (r : IpcRenderer) :
  exists (unsubscribe : Unsubscribe) (r1 : IpcRenderer),
    electronAPI s callback r = (Ok unsubscribe, r1) /\
    (forall ch', listeners_on ch' r1
                 = if decide (channel_of s = ch')
                   then (listeners_on (channel_of s) r
                         ++ [mkListener (next_function r) callback])%list
                   else listeners_on ch' r) /\
    invocations r1 = invocations r.
Proof.
  assert (Hdec : s = DebugSuccess \/ s <> DebugSuccess)
    by (destruct s; (now left) || (right; discriminate)).
  destruct Hdec as [->|Hs].
  - destruct (onDebugSuccess_spec callback r) as (r1 & E1 & L1 & _ & I1).
    now exists (do other <- new_function; removeListener "debug-success" other), r1.
  - rewrite (electronAPI_subscribe s Hs).
    destruct (subscribe_spec (channel_of s) callback r) as (r1 & E1 & L1 & _ & I1).
    now exists (removeListener (channel_of s) (next_function r)), r1.
Qed.

Lemma subscribe_each_other_channel (ch : string)
    (subscriptions : list (Subscription * nat)) (r : IpcRenderer) :
  (forall s, channel_of s <> ch) ->
  exists r',
    Renderer.subscribe_each subscriptions r = (Ok tt, r') /\
    listeners_on ch r' = listeners_on ch r /\
    invocations r' = invocations r.
Proof.
  intros Hch. revert r.
  induction subscriptions as [|[s callback] rest IH]; intros r.
  - now exists r.
  - destruct (electronAPI_spec s callback r) as (u & r1 & E1 & L1 & I1).
    destruct (IH r1) as (r' & E' & L' & I').
    exists r'. simpl. rewrite (bind_ok _ _ _ _ _ E1).
    split; [exact E'|]. split; [|now rewrite I', I1].
    rewrite L', L1. rewrite decide_False by apply Hch. reflexivity.
Qed.

(** X20.  The notifications "mode-changed" and "processing-no-query", which
    the shortcuts send, have no member in the exposed object: whatever the
    UI subscribes through it, in any number and order, neither channel gets
    a listener, and such a notification runs no callback. *)
Theorem unexposed_channels_reach_no_callback (ch data : string)
    (subscriptions : list (Subscription * nat)) (r : IpcRenderer) :
  ch = "mode-changed" \/ ch = "processing-no-query" ->
  listeners_on ch r = [] ->
  let out := (Renderer.subscribe_each subscriptions;; emit ch data) r in
  fst out = Ok tt /\
  listeners_on ch (snd out) = [] /\
  invocations (snd out) = invocations r.
Proof.
  intros Hch Hnone out.
  assert (Hother : forall s, channel_of s <> ch)
    by (intros s; destruct Hch as [-> | ->]; destruct s; discriminate).
  destruct (subscribe_each_other_channel ch subscriptions r Hother)
    as (r1 & E1 & L1 & I1).
  destruct (emit_spec ch data r1) as (r2 & E2 & L2 & _ & I2).
  subst out. rewrite (bind_ok _ _ _ _ _ E1), E2. cbn [fst snd].
  split; [reflexivity|]. split.
  - now rewrite L2, L1.
  - rewrite I2, L1, Hnone, I1. simpl. now rewrite app_nil_r.
Qed.

(** X21.  Against the object preload.ts exposes, the subscription effect of
    App.tsx throws at its first element, [onProcessingStart] not being a
    member, and the mode effect of the Queue page throws at
    [onModeChanged]: each leaves the emitter as it was, so that none of the
    six callbacks of the first, nor the callback of the second, is ever
    registered. *)
Theorem effects_on_missing_members_throw (c1 c2 c3 c4 c5 c6 callback : nat)
    (r : IpcRenderer) :
  Renderer.App_subscriptions c1 c2 c3 c4 c5 c6 r
  = (Throw (Error "TypeError: window.electronAPI.onProcessingStart is not a function"),
     r) /\
  Renderer.Queue_mode_effect callback r
  = (Throw (Error "TypeError: window.electronAPI.onModeChanged is not a function"), r).
Proof. split; reflexivity. Qed.

Ltac decide_channels :=
  repeat match goal with
  | |- context [decide (?a = ?b)] =>
      first [ rewrite (decide_True (P := a = b)) by reflexivity
            | rewrite (decide_False (P := a = b)) by discriminate
            | destruct (decide (a = b)) as [<-|?] ]
  end.

(** X22.  The listeners of the Queue page, whose four members the object
    has: the effect registers one listener on each of "screenshot-taken",
    "reset-view", "solution-error" and "processing-no-screenshots", in that
    order, and its cleanup takes out exactly these, leaving every channel
    with the listeners it had. *)
Theorem queue_listeners_released (c1 c2 c3 c4 : nat) (r : IpcRenderer) :
  exists (cleanup : Unsubscribe) (r1 r2 : IpcRenderer),
    Renderer.Queue_listeners c1 c2 c3 c4 r = (Ok cleanup, r1) /\
    (let n := next_function r in
     listeners_on "screenshot-taken" r1
     = (listeners_on "screenshot-taken" r ++ [mkListener n c1])%list /\
     listeners_on "reset-view" r1
     = (listeners_on "reset-view" r ++ [mkListener (1 + n) c2])%list /\
     listeners_on "solution-error" r1
     = (listeners_on "solution-error" r ++ [mkListener (2 + n) c3])%list /\
     listeners_on "processing-no-screenshots" r1
     = (listeners_on "processing-no-screenshots" r ++ [mkListener (3 + n) c4])%list) /\
    cleanup r1 = (Ok tt, r2) /\
    (forall ch, listeners_on ch r2 = listeners_on ch r) /\
    invocations r2 = invocations r.
Proof.
  destruct (subscribe_spec "screenshot-taken" c1 r) as (r1 & E1 & L1 & N1 & I1).
  destruct (subscribe_spec "reset-view" c2 r1) as (r2 & E2 & L2 & N2 & I2).
  destruct (subscribe_spec "solution-error" c3 r2) as (r3 & E3 & L3 & N3 & I3).
  destruct (subscribe_spec "processing-no-screenshots" c4 r3)
    as (r4 & E4 & L4 & N4 & I4).
  destruct (removeListener_spec "screenshot-taken" (next_function r) r4)
    as (r5 & E5 & L5 & N5 & I5).
  destruct (removeListener_spec "reset-view" (next_function r1) r5)
    as (r6 & E6 & L6 & N6 & I6).
  destruct (removeListener_spec "solution-error" (next_function r2) r6)
    as (r7 & E7 & L7 & N7 & I7).
  destruct (removeListener_spec "processing-no-screenshots" (next_function r3) r7)
    as (r8 & E8 & L8 & N8 & I8).
  eexists _, r4, r8. split; [|split; [|split; [|split]]].
  - unfold Renderer.Queue_listeners. cbn [Renderer.subscribe_in_order].
    change (Renderer.subscribe_by_name "onScreenshotTaken")
      with (subscribe "screenshot-taken").
    change (Renderer.subscribe_by_name "onResetView") with (subscribe "reset-view").
    change (Renderer.subscribe_by_name "onSolutionError")
      with (subscribe "solution-error").
    change (Renderer.subscribe_by_name "onProcessingNoScreenshots")
      with (subscribe "processing-no-screenshots").
    unfold bind at 1 2. rewrite E1.
    unfold bind at 1 2. rewrite E2.
    unfold bind at 1 2. rewrite E3.
    unfold bind at 1 2. rewrite E4.
    reflexivity.
  - cbv zeta. rewrite !L4, !L3, !L2, !L1, ?N3, ?N2, ?N1.
    decide_channels. repeat split.
  - cbn [Renderer.forEach_cleanup].
    rewrite (bind_ok _ _ _ _ _ E5), (bind_ok _ _ _ _ _ E6), (bind_ok _ _ _ _ _ E7),
      (bind_ok _ _ _ _ _ E8). reflexivity.
  - intros ch. rewrite L8, !L7, !L6, !L5, !L4, !L3, !L2, !L1.
    decide_channels; rewrite ?remove_last_added; reflexivity.
  - now rewrite I8, I7, I6, I5, I4, I3, I2, I1.
Qed.

End UiEffects.

Section UiEffectSamples.
Import Preload.

(** The mode shortcut's notification, with all thirteen members subscribed. *)
Lemma unexposed_channels_reach_no_callback_witness :
  let all := [(ScreenshotTaken, 1); (SolutionsReady, 2); (ResetView, 3);
              (SolutionStart, 4); (DebugStart, 5); (DebugSuccess, 6);
              (DebugError, 7); (SolutionError, 8); (ProcessingNoScreenshots, 9);
              (ProblemExtracted, 10); (SolutionSuccess, 11); (Unauthorized, 12);
              (ApiKeyOutOfCredits, 13)] in
  listeners_on "mode-changed" empty = [] /\
  invocations (snd ((Renderer.subscribe_each all;; emit "mode-changed" "text") empty))
  = [].
Proof.
  intros all.
  destruct (unexposed_channels_reach_no_callback "mode-changed" "text" all empty
              (or_introl eq_refl) eq_refl) as (_ & _ & Hinv).
  split; [reflexivity|exact Hinv].
Defined.

End UiEffectSamples.

(** ** The authentication service *)

Section Auth.
Import AuthService.

Lemma stored_app (held : option Session) (cs cs' : list ApiCall) :
  stored held (cs ++ cs') = stored (stored held cs) cs'.
Proof. unfold stored. apply fold_left_app. Qed.

Lemma step_keeps_agreement (held : option Session) (e : Event) (a : t) :
  hands_over e = true ->
  stored held (calls a) = session a ->
  stored held (calls (step e a)) = session (step e a).
Proof.
  intros Hover Hagree. destruct a as [s cs]. simpl in Hagree.
  destruct e as [saved|s' [|error]|oauth opened got store|signedOut cleared];
    try discriminate.
  - destruct s' as [s'|]; simpl; now rewrite stored_app.
  - destruct oauth as [error|url]; [exact Hagree|].
    unfold step, signInWithGoogle.
    destruct (falsy url); [exact Hagree|].
    destruct opened as [|error]; [|exact Hagree].
    destruct got as [sessionError|[s'|]]; simpl.
    + now rewrite stored_app.
    + destruct store as [|error]; simpl.
      * now rewrite <- app_assoc, stored_app.
      * now rewrite stored_app.
    + now rewrite stored_app.
  - destruct signedOut as [|error]; [|exact Hagree].
    destruct cleared as [|error]; simpl.
    + now rewrite <- app_assoc, stored_app.
    + now rewrite stored_app.
Qed.

(** The service that takes up a saved session before anything else happens
    holds what the main process holds. *)
Lemma saved_session_taken_up (saved : option Session) :
  usable saved = true ->
  let started := step (SavedSession saved) initial in
  session started = saved /\ stored saved (calls started) = session started.
Proof.
  intros Husable. destruct saved as [s|]; [|split; reflexivity].
  simpl in Husable. simpl. unfold on_saved_session. rewrite Husable.
  split; reflexivity.
Qed.

(** The saved-session callback that arrives after a sign-out, and an auth
    state change whose [clearSession] throws: each leaves a session in the
    field that the main process does not hold. *)
Example session_without_store :
  let saved := mkSession "a1" "r1" in
  let late := run [AuthStateChange None Returns; SavedSession (Some saved)] initial in
  let failed :=
    run [SavedSession (Some saved);
         AuthStateChange None (Throws (Error "TypeError: clearSession is not a function"))]
        initial in
  session late = Some saved /\ stored (Some saved) (calls late) = None /\
  session failed = None /\ stored (Some saved) (calls failed) = Some saved.
Proof. repeat split. Qed.

(** X23.  The session the service holds is the one it last handed to the
    main process, as far as sign-in, sign-out and the auth listener go: from
    a state where [session] is what the [storeSession] and [clearSession]
    calls have left there, every run of sign-ins and sign-outs - whatever
    their calls do, failures included - and of auth state changes whose
    [storeSession] or [clearSession] returns ends in such a state.  (The
    saved-session callback stores nothing, and so is no part of such a
    run.) *)
Theorem session_is_what_was_stored (held : option Session) (events : list Event)
    (a : t) :
  stored held (calls a) = session a ->
  forallb hands_over events = true ->
  stored held (calls (run events a)) = session (run events a).
Proof.
  revert a. induction events as [|e events IH]; intros a Hagree Hover;
    [exact Hagree|].
  simpl in Hover. apply andb_prop in Hover. destruct Hover as [He Hover].
  simpl. apply IH; [|exact Hover]. now apply step_keeps_agreement.
Qed.

(** X24.  [signInWithGoogle] never signs the user out: it leaves [session]
    as it was unless it returns a session, which it then holds and has
    stored; when it throws, the error is the one that [signInWithOAuth],
    [openAuthWindow], [getSession] or [storeSession] ended with; without a
    URL it returns [undefined] and calls nothing; and it never clears what
    the main process holds. *)
Theorem sign_in_keeps_or_replaces_session (oauth : OAuthOutcome) (opened : Outcome)
    (got : GetSessionOutcome) (store : Outcome) (a : t) :
  let out := signInWithGoogle oauth opened got store a in
  (forall s, fst out = Ok (Some s) ->
             session (snd out) = Some s /\
             exists url, calls (snd out)
                         = (calls a ++ [OpenAuthWindow url; StoreSession s])%list) /\
  (fst out = Ok None -> session (snd out) = session a) /\
  (forall e, fst out = Throw e ->
             session (snd out) = session a /\
             (oauth = OAuthError e \/ opened = Throws e \/
              got = SessionError e \/ store = Throws e)) /\
  (forall url, oauth = OAuthUrl url -> falsy url = true -> out = (Ok None, a)) /\
  (forall held, stored held (calls (snd out))
                = match fst out with
                  | Ok (Some s) => Some s
                  | _ => stored held (calls a)
                  end).
Proof.
  destruct a as [s0 cs]. unfold signInWithGoogle.
  destruct oauth as [error|url].
  - simpl. split; [discriminate|]. split; [discriminate|]. split.
    { intros e [= <-]. split; [reflexivity|now left]. }
    split; [discriminate|]. intros held. reflexivity.
  - destruct (falsy url) eqn:Hurl.
    + simpl. split; [discriminate|]. split; [reflexivity|].
      split; [discriminate|]. split; [reflexivity|]. intros held. reflexivity.
    + destruct opened as [|error]; simpl.
      2:{ split; [discriminate|]. split; [discriminate|]. split.
          { intros e [= <-]. split; [reflexivity|]. right. now left. }
          split; [intros url' [= <-]; congruence|]. intros held. reflexivity. }
      destruct got as [sessionError|[s'|]]; simpl.
      * split; [discriminate|]. split; [discriminate|]. split.
        { intros e [= <-]. split; [reflexivity|]. right. right. now left. }
        split; [intros url' [= <-]; congruence|].
        intros held. now rewrite stored_app.
      * destruct store as [|error]; simpl.
        -- split.
           { intros s [= <-]. split; [reflexivity|]. exists url.
             now rewrite <- app_assoc. }
           split; [discriminate|]. split; [discriminate|].
           split; [intros url' [= <-]; congruence|].
           intros held. now rewrite <- app_assoc, stored_app.
        -- split; [discriminate|]. split; [discriminate|]. split.
           { intros e [= <-]. split; [reflexivity|]. right. right. now right. }
           split; [intros url' [= <-]; congruence|].
           intros held. now rewrite stored_app.
      * split; [discriminate|]. split; [reflexivity|]. split; [discriminate|].
        split; [intros url' [= <-]; congruence|].
        intros held. now rewrite stored_app.
Qed.

End Auth.

Section AuthSamples.
Import AuthService.

(** A service that has taken up a saved session, sees the auth window fail
    to open, signs out and signs in. *)
Lemma session_is_what_was_stored_witness :
  let old := mkSession "a1" "r1" in
  let new := mkSession "a2" "r2" in
  let url := "https://accounts.google.com/o/oauth2" in
  let started := step (SavedSession (Some old)) initial in
  let events :=
    [SignIn (OAuthUrl url) (Throws (Error "window closed")) (SessionIs None) Returns;
     SignOut Returns Returns;
     SignIn (OAuthUrl url) Returns (SessionIs (Some new)) Returns] in
  stored (Some old) (calls started) = session started /\
  forallb hands_over events = true /\
  session (run events started) = Some new /\
  stored (Some old) (calls (run events started)) = Some new.
Proof.
  intros old new url started events.
  pose proof (session_is_what_was_stored (Some old) events started eq_refl eq_refl)
    as Hagree.
  split; [reflexivity|]. split; [reflexivity|]. split; [reflexivity|exact Hagree].
Defined.

End AuthSamples.
